(** * render-ai: prompt construction and provider selection

    A shallow embedding of the prompt builder ([prompt-builder.ts], the
    second file of [src/lib/storage/supabase.ts]), of the model selector
    [src/lib/ai/index.ts], of the three provider clients ([flux.ts], the
    third file of [src/types/database.ts]; [src/lib/ai/imagen.ts];
    [src/lib/ai/nano-banana.ts]) and of the tables of
    [src/types/generation.ts]; further of the API route
    [src/app/api/generate/route.ts], of the image storage
    [src/lib/storage/supabase.ts], of the form [GenerateForm] (the fourth file
    of [src/types/database.ts]), of the page [src/app/page.tsx] and of the
    preview [src/components/features/ImagePreview.tsx].

    JavaScript strings are modelled as byte strings holding their UTF-8
    encoding; every literal below is the source literal. *)

From Stdlib Require Import String Ascii List ZArith Lia Bool DecimalString.
Import ListNotations.
Open Scope string_scope.

(** ** String primitives of the JavaScript runtime *)

Module JS.

(** [s.includes(sub)] as a proposition: [sub] occurs in [s]. *)
Definition contains (sub s : string) : Prop :=
  exists pre post, s = pre ++ sub ++ post.

(** [s.startsWith(p)] *)
Fixpoint startsWith (p s : string) : bool :=
  match p, s with
  | EmptyString, _ => true
  | String a p', String b s' => Ascii.eqb a b && startsWith p' s'
  | String _ _, EmptyString => false
  end.

(** [s.includes(sub)], executable. *)
Fixpoint includes (sub s : string) : bool :=
  startsWith sub s ||
  match s with
  | EmptyString => false
  | String _ s' => includes sub s'
  end.

(** White space removed by [String.prototype.trim] among the one-byte
    characters: TAB, LF, VT, FF, CR and SPACE.  The other code points that
    [trim] strips (U+00A0, U+FEFF, the Zs category, U+2028, U+2029) are not
    one byte long in UTF-8; the templates of this program start and end with
    an ASCII letter next to the line feed that is trimmed, so they never come
    into play. *)
Definition isWhiteSpace (c : ascii) : bool :=
  match nat_of_ascii c with
  | 9 | 10 | 11 | 12 | 13 | 32 => true
  | _ => false
  end.

Fixpoint trimStart (s : string) : string :=
  match s with
  | EmptyString => EmptyString
  | String c s' => if isWhiteSpace c then trimStart s' else s
  end.

Fixpoint trimEnd (s : string) : string :=
  match s with
  | EmptyString => EmptyString
  | String c s' =>
      match trimEnd s' with
      | EmptyString => if isWhiteSpace c then EmptyString else String c EmptyString
      | t => String c t
      end
  end.

(** [s.trim()] *)
Definition trim (s : string) : string := trimEnd (trimStart s).

(** The line feed, [\n]. *)
Definition LF : string := String (ascii_of_nat 10) EmptyString.

(** [s.endsWith(suffix)] *)
Fixpoint endsWith (suffix s : string) : bool :=
  String.eqb s suffix ||
  match s with
  | EmptyString => false
  | String _ s' => endsWith suffix s'
  end.

(** [xs.join(sep)] on an array of strings. *)
Fixpoint join (sep : string) (xs : list string) : string :=
  match xs with
  | [] => ""
  | [x] => x
  | x :: rest => x ++ sep ++ join sep rest
  end.

(** [a || b] where [a] is a string or [undefined]: the empty string and
    [undefined] are falsy. *)
Definition or_else (a : option string) (b : string) : string :=
  match a with
  | Some s => if String.eqb s "" then b else s
  | None => b
  end.

(** [!!v] for an environment variable, a string or [undefined]. *)
Definition truthy (v : option string) : bool :=
  match v with
  | Some s => negb (String.eqb s "")
  | None => false
  end.

(** Template interpolation of an integer-valued number, such as an HTTP
    status: its decimal numeral. *)
Definition Z_toString (z : Z) : string := NilZero.string_of_int (Z.to_int z).

(** *** Property lookup on an object literal

    [tbl[key]] on an object literal first looks at the literal's own
    properties and then at [Object.prototype], whose members every object
    literal inherits. *)
Inductive Property (A : Type) : Type :=
| Own (a : A)
| Inherited (member : string)
| Undefined.
Arguments Own {A} a.
Arguments Inherited {A} member.
Arguments Undefined {A}.

Definition Object_prototype : list string :=
  [ "constructor"; "__defineGetter__"; "__defineSetter__"; "hasOwnProperty";
    "__lookupGetter__"; "__lookupSetter__"; "isPrototypeOf";
    "propertyIsEnumerable"; "toString"; "valueOf"; "__proto__";
    "toLocaleString" ].

Fixpoint own {A} (tbl : list (string * A)) (key : string) : option A :=
  match tbl with
  | [] => None
  | (k, v) :: rest => if String.eqb k key then Some v else own rest key
  end.

Definition get {A} (tbl : list (string * A)) (key : string) : Property A :=
  match own tbl key with
  | Some v => Own v
  | None =>
      if existsb (String.eqb key) Object_prototype then Inherited key
      else Undefined
  end.

(** [`${v}`] for a looked-up string property.  [undefined] prints as the
    text "undefined"; an inherited member is a built-in function, printed by
    V8 (the engine of Node.js, on which the server runs) as below, except
    [__proto__], which is the prototype object itself. *)
Definition interpolate (v : Property string) : string :=
  match v with
  | Own s => s
  | Undefined => "undefined"
  | Inherited m =>
      if String.eqb m "__proto__" then "[object Object]"
      else "function " ++ (if String.eqb m "constructor" then "Object" else m)
           ++ "() { [native code] }"
  end.

End JS.

(** ** Data model ([src/types/generation.ts])

    TypeScript's union types are erased at run time: a field typed by a closed
    enum holds a string, and the code has branches for strings outside the
    enum.  The fields are therefore strings, and the closed sets are given
    beside them. *)

Definition BuildingType : list string := ["house"; "apartment"; "building"; "shop"].
Definition LandShape : list string := ["rectangle"; "square"; "L-shape"; "flag"; "irregular"].
Definition ArchitecturalStyle : list string :=
  ["modern_minimal"; "japanese_modern"; "scandinavian"; "industrial"; "luxury";
   "mediterranean"; "american"].
Definition WallMaterial : list string := ["siding"; "concrete"; "tile"; "wood"; "metal"; "stucco"].
Definition RoofType : list string := ["flat"; "gable"; "hip"; "shed"; "gambrel"].
Definition CameraAngle : list string := ["front"; "angle45"; "aerial"; "birdseye"; "closeup"; "distant"].
Definition TimeOfDay : list string := ["morning"; "noon"; "evening"; "night"].
Definition Season : list string := ["spring"; "summer"; "autumn"; "winter"].
Definition Resolution : list string := ["sd"; "hd"; "4k"].
Definition AIModel : list string := ["auto"; "imagen4"; "flux2"; "gemini"; "nano-banana"].

Record Colors : Type := {
  primary : string;
  secondary : string;
  accent : string
}.

Module StylePreset.
Record t : Type := {
  id : string;
  name : string;
  nameJa : string;
  description : string;
  keywords : list string;
  materials : list string;
  colors : Colors
}.
End StylePreset.

Definition STYLE_PRESETS : list StylePreset.t :=
  [ {| StylePreset.id := "modern_minimal";
       StylePreset.name := "Modern Minimal";
       StylePreset.nameJa := "モダンミニマル";
       StylePreset.description := "直線的なデザイン、白を基調とした清潔感のある外観";
       StylePreset.keywords := ["直線的"; "ガラス"; "シンプル"; "白基調"];
       StylePreset.materials := ["concrete"; "metal"];
       StylePreset.colors := {| primary := "#FFFFFF"; secondary := "#2C2C2C"; accent := "#4A90D9" |} |};
    {| StylePreset.id := "japanese_modern";
       StylePreset.name := "Japanese Modern";
       StylePreset.nameJa := "和モダン";
       StylePreset.description := "木の温もりと現代的なデザインの融合";
       StylePreset.keywords := ["木材"; "格子"; "土間"; "自然素材"];
       StylePreset.materials := ["wood"; "stucco"];
       StylePreset.colors := {| primary := "#8B7355"; secondary := "#2C2C2C"; accent := "#C4A35A" |} |};
    {| StylePreset.id := "scandinavian";
       StylePreset.name := "Scandinavian";
       StylePreset.nameJa := "北欧スタイル";
       StylePreset.description := "温かみのある自然素材と三角屋根が特徴";
       StylePreset.keywords := ["三角屋根"; "温かみ"; "自然素材"; "シンプル"];
       StylePreset.materials := ["wood"; "siding"];
       StylePreset.colors := {| primary := "#F5F5F0"; secondary := "#5C4033"; accent := "#E07B39" |} |};
    {| StylePreset.id := "industrial";
       StylePreset.name := "Industrial";
       StylePreset.nameJa := "インダストリアル";
       StylePreset.description := "鉄骨やコンクリート打放しを活かしたデザイン";
       StylePreset.keywords := ["鉄骨"; "コンクリート"; "無骨"; "ロフト"];
       StylePreset.materials := ["concrete"; "metal"];
       StylePreset.colors := {| primary := "#4A4A4A"; secondary := "#2C2C2C"; accent := "#B87333" |} |};
    {| StylePreset.id := "luxury";
       StylePreset.name := "Luxury";
       StylePreset.nameJa := "ラグジュアリー";
       StylePreset.description := "高級感のある重厚なデザイン";
       StylePreset.keywords := ["高級"; "重厚"; "シンメトリー"; "石材"];
       StylePreset.materials := ["tile"; "concrete"];
       StylePreset.colors := {| primary := "#F8F5F0"; secondary := "#1A1A2E"; accent := "#D4AF37" |} |};
    {| StylePreset.id := "mediterranean";
       StylePreset.name := "Mediterranean";
       StylePreset.nameJa := "南欧スタイル";
       StylePreset.description := "テラコッタの屋根と白壁が特徴的";
       StylePreset.keywords := ["テラコッタ"; "白壁"; "アーチ"; "地中海"];
       StylePreset.materials := ["stucco"; "tile"];
       StylePreset.colors := {| primary := "#FFF8DC"; secondary := "#8B4513"; accent := "#4169E1" |} |};
    {| StylePreset.id := "american";
       StylePreset.name := "American";
       StylePreset.nameJa := "アメリカン";
       StylePreset.description := "ラップサイディングとポーチが特徴的";
       StylePreset.keywords := ["ラップサイディング"; "ポーチ"; "ガレージ"; "郊外"];
       StylePreset.materials := ["siding"; "wood"];
       StylePreset.colors := {| primary := "#FFFFFF"; secondary := "#4A5568"; accent := "#2D5A27" |} |} ].

Definition MATERIAL_NAMES : list (string * string) :=
  [ ("siding", "サイディング"); ("concrete", "コンクリート"); ("tile", "タイル");
    ("wood", "木材"); ("metal", "金属パネル"); ("stucco", "塗り壁") ].

Definition ROOF_NAMES : list (string * string) :=
  [ ("flat", "陸屋根"); ("gable", "切妻屋根"); ("hip", "寄棟屋根");
    ("shed", "片流れ屋根"); ("gambrel", "入母屋屋根") ].

Record Materials : Type := { wall : string; roof : string }.
Record Environment : Type := { timeOfDay : string; season : string }.
Record Camera : Type := { angle : string }.
Record Options : Type := { count : Z; resolution : string; model : string }.

(** The numeric fields [floors], [totalArea] and [landArea] are JavaScript
    numbers.  The program only prints them, so their type and the
    number-to-string conversion of template literals are kept abstract. *)
Record GenerationRequest (number : Type) : Type := {
  buildingType : string;
  floors : number;
  totalArea : number;
  landArea : number;
  landShape : string;
  style : string;
  materials : Materials;
  colors : Colors;
  environment : Environment;
  camera : Camera;
  options : Options
}.
Arguments buildingType {number} _.
Arguments floors {number} _.
Arguments totalArea {number} _.
Arguments landArea {number} _.
Arguments landShape {number} _.
Arguments style {number} _.
Arguments materials {number} _.
Arguments colors {number} _.
Arguments environment {number} _.
Arguments camera {number} _.
Arguments options {number} _.

(** A request that passed the validation of the API route
    ([GenerationSchema]): every enum field is in its closed set and the image
    count is 1 or 4.  The route's bounds on the three numbers are left out:
    no statement below needs them. *)
Definition well_formed {number} (request : GenerationRequest number) : Prop :=
  In (buildingType request) BuildingType /\
  In (landShape request) LandShape /\
  In (style request) ArchitecturalStyle /\
  In (wall (materials request)) WallMaterial /\
  In (roof (materials request)) RoofType /\
  In (timeOfDay (environment request)) TimeOfDay /\
  In (season (environment request)) Season /\
  In (angle (camera request)) CameraAngle /\
  In (resolution (options request)) Resolution /\
  In (model (options request)) AIModel /\
  (count (options request) = 1 \/ count (options request) = 4)%Z.

(** ** Results, provider interfaces and the outside world *)

Module GeneratedImage.
Record t : Type := {
  url : string;
  thumbnailUrl : string;
  width : Z;
  height : Z
}.
End GeneratedImage.

Module GenerationOutput.
Record t : Type := {
  images : list GeneratedImage.t;
  prompt : string;
  model : string;
  timeMs : Z
}.
End GenerationOutput.

Module Size.
Record t : Type := { width : Z; height : Z }.
End Size.

(** Body of the request to fal.ai's nano-banana-pro endpoint. *)
Module NanoBananaInput.
Record t : Type := {
  prompt : string;
  resolution : string;
  num_images : Z;
  aspect_ratio : string;
  output_format : string;
  safety_tolerance : string
}.
End NanoBananaInput.

Module NanoBananaOutput.
Record image : Type := {
  url : string;
  width : option Z;
  height : option Z
}.
Record t : Type := { images : list image }.
End NanoBananaOutput.

(** Body of the request to fal.ai's flux-pro endpoint.  A dimension is
    [None] when the property is [undefined], which [JSON.stringify] leaves
    out.  The constant fields [guidance_scale: 7.5] and
    [num_inference_steps: 28] are not represented. *)
Module FluxInput.
Record t : Type := {
  prompt : string;
  negative_prompt : string;
  image_width : option Z;
  image_height : option Z;
  num_images : Z;
  seed : Z;
  safety_tolerance : string;
  output_format : string
}.
End FluxInput.

Module FalResponse.
Record image : Type := {
  url : string;
  width : Z;
  height : Z
}.
Record t : Type := { images : list image }.
End FalResponse.

(** Body of the request to Vertex AI, with the one element of [instances]
    and the [parameters] side by side. *)
Module ImagenRequest.
Record t : Type := {
  prompt : string;
  negativePrompt : string;
  sampleCount : Z;
  aspectRatio : string;
  mimeType : string;
  addWatermark : bool;
  safetySetting : string;
  personGeneration : string
}.
End ImagenRequest.

Module ImagenResponse.
Record prediction : Type := {
  bytesBase64Encoded : string;
  mimeType : string
}.
Record t : Type := { predictions : list prediction }.
End ImagenResponse.

(** An entry of [getAvailableModels]. *)
Module ModelInfo.
Record t : Type := {
  id : string;
  name : string;
  available : bool;
  description : string
}.
End ModelInfo.

(** The three provider clients. *)
Inductive Provider : Type := NanoBanana | Imagen4 | Flux2.

Definition providerId (p : Provider) : string :=
  match p with
  | NanoBanana => "nano-banana"
  | Imagen4 => "imagen4"
  | Flux2 => "flux2"
  end.

(** [process.env]: each variable is a string or [undefined]. *)
Record Env : Type := {
  FAL_KEY : option string;
  GOOGLE_CLOUD_PROJECT_ID : option string;
  GOOGLE_APPLICATION_CREDENTIALS : option string
}.

(** A settled promise: fulfilled with a value or rejected with an [Error],
    kept here as its message. *)
Inductive Outcome (A : Type) : Type :=
| Return (a : A)
| Throw (message : string).
Arguments Return {A} a.
Arguments Throw {A} message.

(** What [fetch] resolves to.  [text] and [json] are the promises of
    [response.text()] and [response.json()]; a parsed body is taken at the
    interface type the client declares for it. *)
Record Response (A : Type) : Type := {
  ok : bool;
  status : Z;
  statusText : string;
  text : Outcome string;
  json : Outcome A
}.
Arguments ok {A} _.
Arguments status {A} _.
Arguments statusText {A} _.
Arguments text {A} _.
Arguments json {A} _.

(** An outbound generation call: the endpoint, the [Authorization] header
    and the JSON body. *)
Inductive HttpRequest : Type :=
| PostNanoBanana (url authorization : string) (body : NanoBananaInput.t)
| PostFlux (url authorization : string) (body : FluxInput.t)
| PostImagen (url authorization : string) (body : ImagenRequest.t).

Definition target (r : HttpRequest) : Provider :=
  match r with
  | PostNanoBanana _ _ _ => NanoBanana
  | PostFlux _ _ _ => Flux2
  | PostImagen _ _ _ => Imagen4
  end.

(** The outside world as the program meets it: the clock, the random
    source, the providers' answers and Google's token service. *)
Record World : Type := {
  now : nat -> Z;
  random_seed : Z;
  answerNanoBanana : string -> NanoBananaInput.t -> Outcome (Response NanoBananaOutput.t);
  answerFlux : string -> FluxInput.t -> Outcome (Response FalResponse.t);
  answerImagen : string -> string -> ImagenRequest.t -> Outcome (Response ImagenResponse.t);
  googleAccessToken : Outcome (option string)
}.

(** Observable events of a run.  [Enter p] is a ghost event: control
    entered the client of provider [p]. *)
Inductive Event : Type :=
| Enter (p : Provider)
| Fetch (request : HttpRequest)
| TokenRequest
| ConsoleError (label detail : string).

(** *** The monad of asynchronous, throwing computations

    A computation starts when the clock has been read [t] times and gives the
    events it produced, oldest first, the number of clock readings afterwards
    and how it settled. *)
Record Run (A : Type) : Type := {
  events : list Event;
  clockReads : nat;
  outcome : Outcome A
}.
Arguments events {A} _.
Arguments clockReads {A} _.
Arguments outcome {A} _.

Definition Async (A : Type) : Type := nat -> Run A.

Definition ret {A} (a : A) : Async A :=
  fun t => {| events := []; clockReads := t; outcome := Return a |}.

Definition throw {A} (message : string) : Async A :=
  fun t => {| events := []; clockReads := t; outcome := Throw message |}.

Definition bind {A B} (c : Async A) (k : A -> Async B) : Async B :=
  fun t =>
    match c t with
    | {| events := evs; clockReads := t'; outcome := Return a |} =>
        match k a t' with
        | {| events := evs'; clockReads := t''; outcome := o |} =>
            {| events := evs ++ evs'; clockReads := t''; outcome := o |}
        end
    | {| events := evs; clockReads := t'; outcome := Throw e |} =>
        {| events := evs; clockReads := t'; outcome := Throw e |}
    end.

(** [try { c } catch (error) { handler(error) }] *)
Definition try_catch {A} (c : Async A) (handler : string -> Async A) : Async A :=
  fun t =>
    match c t with
    | {| events := evs; clockReads := t'; outcome := Return a |} =>
        {| events := evs; clockReads := t'; outcome := Return a |}
    | {| events := evs; clockReads := t'; outcome := Throw e |} =>
        match handler e t' with
        | {| events := evs'; clockReads := t''; outcome := o |} =>
            {| events := evs ++ evs'; clockReads := t''; outcome := o |}
        end
    end.

(** [await p] for a promise of the outside world. *)
Definition await {A} (p : Outcome A) : Async A :=
  fun t => {| events := []; clockReads := t; outcome := p |}.

Definition emit (e : Event) : Async unit :=
  fun t => {| events := [e]; clockReads := t; outcome := Return tt |}.

Definition Date_now (w : World) : Async Z :=
  fun t => {| events := []; clockReads := S t; outcome := Return (now w t) |}.

(** The provider clients entered and the generation calls made, in order. *)
Definition enters (evs : list Event) : list Provider :=
  flat_map (fun e => match e with Enter p => [p] | _ => [] end) evs.

Definition fetches (evs : list Event) : list HttpRequest :=
  flat_map (fun e => match e with Fetch r => [r] | _ => [] end) evs.

Declare Scope async_scope.
Delimit Scope async_scope with async.
Notation "x <- c ;; k" := (bind c (fun x => k))
  (at level 61, c at next level, right associativity) : async_scope.
Notation "c ;; k" := (bind c (fun _ => k))
  (at level 61, right associativity) : async_scope.

(** ** Prompt builder ([prompt-builder.ts])

    On a request whose fields have their declared shapes the three functions
    only read properties of defined objects, call [Array.prototype.find] and
    [join], look keys up in object literals and concatenate strings; the one
    dereference of a possibly undefined value, [style?.name], is guarded by
    optional chaining.  None of these operations throws, whatever strings the
    fields hold, so the functions are embedded as total functions to
    [string]. *)

Definition buildingTypeMap : list (string * string) :=
  [ ("house", "residential house");
    ("apartment", "apartment building");
    ("building", "commercial building");
    ("shop", "retail shop building") ].

Definition timeMap : list (string * string) :=
  [ ("morning", "early morning golden hour light");
    ("noon", "bright midday sunlight");
    ("evening", "warm sunset lighting");
    ("night", "evening with ambient lighting and interior lights on") ].

Definition seasonMap : list (string * string) :=
  [ ("spring", "spring season with cherry blossoms");
    ("summer", "summer with lush green vegetation");
    ("autumn", "autumn with colorful foliage");
    ("winter", "winter with bare trees") ].

Definition cameraMap : list (string * string) :=
  [ ("front", "front elevation view, eye-level perspective");
    ("angle45", "three-quarter view at 45 degrees, showing two facades");
    ("aerial", "aerial view from 30 degrees above");
    ("birdseye", "bird's eye view from directly above");
    ("closeup", "close-up view of the entrance");
    ("distant", "distant view showing the building in its environment") ].

(** [STYLE_PRESETS.find(s => s.id === request.style)] *)
Definition findStyle (styleId : string) : option StylePreset.t :=
  find (fun s => String.eqb (StylePreset.id s) styleId) STYLE_PRESETS.

(** ** Constants and pure helpers of the provider clients

    The three client files reuse names ([FAL_API_URL], [getImageSize],
    [getAspectRatio]); each file's helpers are kept in a module of its
    name. *)

(** [src/lib/ai/nano-banana.ts] *)
Module nano_banana.

Definition FAL_API_URL : string := "https://fal.run/fal-ai/nano-banana-pro".

Definition getResolution (resolution : string) : string :=
  if String.eqb resolution "4k" then "4K"
  else if String.eqb resolution "hd" then "2K"
  else "1K".

Definition getAspectRatio (_ : unit) : string := "16:9".

Definition getImageSize (resolution : string) : Size.t :=
  if String.eqb resolution "4k" then {| Size.width := 3840%Z; Size.height := 2160%Z |}
  else if String.eqb resolution "hd" then {| Size.width := 1920%Z; Size.height := 1080%Z |}
  else {| Size.width := 1280%Z; Size.height := 720%Z |}.

End nano_banana.

(** [src/lib/ai/imagen.ts] *)
Module imagen.

Definition VERTEX_AI_ENDPOINT : string := "https://us-central1-aiplatform.googleapis.com".
Definition MODEL_ID : string := "imagen-4.0-generate-001".

Definition getAspectRatio (resolution : string) : string := "16:9".

Definition getImageSize (resolution : string) : Size.t :=
  if String.eqb resolution "4k" then {| Size.width := 3840%Z; Size.height := 2160%Z |}
  else if String.eqb resolution "hd" then {| Size.width := 1920%Z; Size.height := 1080%Z |}
  else {| Size.width := 1280%Z; Size.height := 720%Z |}.

End imagen.

(** [flux.ts] *)
Module flux.

Definition FAL_API_URL : string := "https://fal.run/fal-ai/flux-pro/v1.1".

Definition sizeMap : list (string * Size.t) :=
  [ ("sd", {| Size.width := 1024%Z; Size.height := 768%Z |});
    ("hd", {| Size.width := 1536%Z; Size.height := 1024%Z |});
    ("4k", {| Size.width := 2048%Z; Size.height := 1536%Z |}) ].

End flux.

(** ** The connection test of [flux.ts] *)

(** Body of the test call. *)
Module FluxProbe.
Record t : Type := {
  prompt : string;
  image_width : Z;
  image_height : Z;
  num_images : Z
}.
End FluxProbe.

(** A run of the test: the calls it made, each with endpoint, [Authorization]
    header and body, and the boolean it returned. *)
Record Probe : Type := {
  probeCalls : list (string * string * FluxProbe.t);
  probeAnswer : bool
}.

(** [fetch] gives [response.ok], or rejects. *)
Definition testFluxConnection (env : Env)
    (fetch : string -> string -> FluxProbe.t -> Outcome bool) : Probe :=
  match FAL_KEY env with
  | None => {| probeCalls := []; probeAnswer := false |}
  | Some apiKey =>
    if String.eqb apiKey "" then {| probeCalls := []; probeAnswer := false |} else
    let url := "https://fal.run/fal-ai/flux-pro/v1.1" in
    let body :=
      {| FluxProbe.prompt := "test";
         FluxProbe.image_width := 256%Z;
         FluxProbe.image_height := 256%Z;
         FluxProbe.num_images := 1%Z |} in
    {| probeCalls := [(url, "Key " ++ apiKey, body)];
       probeAnswer :=
         match fetch url ("Key " ++ apiKey) body with
         | Return responseOk => responseOk
         | Throw _ => false
         end |}
  end.

(** ** The API route ([src/app/api/generate/route.ts]): its data *)

(** A parsed JSON value, the [Json] type of [src/types/database.ts].  An
    object is the list of its own properties, whose keys are distinct. *)
#[warnings="-register-all"] Inductive Json (number : Type) : Type :=
| JNull
| JBoolean (b : bool)
| JNumber (n : number)
| JString (s : string)
| JArray (items : list (Json number))
| JObject (properties : list (string * Json number)).
Arguments JNull {number}.
Arguments JBoolean {number} b.
Arguments JNumber {number} n.
Arguments JString {number} s.
Arguments JArray {number} items.
Arguments JObject {number} properties.

(** [GenerationResult] of [src/types/generation.ts]. *)
Module GenerationResult.
Record t (number : Type) : Type := {
  id : string;
  userId : string;
  status : string;
  prompt : string;
  parameters : GenerationRequest number;
  images : list GeneratedImage.t;
  modelUsed : string;
  generationTimeMs : Z;
  errorMessage : option string;
  isFavorite : bool;
  createdAt : string
}.
Arguments id {number} _.
Arguments userId {number} _.
Arguments status {number} _.
Arguments prompt {number} _.
Arguments parameters {number} _.
Arguments images {number} _.
Arguments modelUsed {number} _.
Arguments generationTimeMs {number} _.
Arguments errorMessage {number} _.
Arguments isFavorite {number} _.
Arguments createdAt {number} _.
End GenerationResult.

(** What the route answers: [NextResponse.json(body, { status })].  The
    [details] of a validation error, zod's list of issues, are not
    represented. *)
Inductive RouteBody (number : Type) : Type :=
| ValidationError (error : string)
| Generated (result : GenerationResult.t number)
| GenerationError (error message : string).
Arguments ValidationError {number} error.
Arguments Generated {number} result.
Arguments GenerationError {number} error message.

Module NextResponse.
Record t (number : Type) : Type := {
  status : Z;
  body : RouteBody number
}.
Arguments status {number} _.
Arguments body {number} _.
End NextResponse.

(** What the route takes from the platform: [crypto.randomUUID()] and the
    rendering of a clock reading by [toISOString]. *)
Record Platform : Type := {
  randomUUID : string;
  toISOString : Z -> string
}.

(** ** Image storage ([src/lib/storage/supabase.ts]) *)

(** The two environment variables the storage client reads. *)
Record StorageEnv : Type := {
  NEXT_PUBLIC_SUPABASE_URL : option string;
  SUPABASE_SERVICE_ROLE_KEY : option string
}.

(** What [createClient(url, key, { auth })] is given. *)
Record SupabaseClient : Type := {
  supabaseUrl : string;
  serviceRoleKey : string;
  autoRefreshToken : bool;
  persistSession : bool
}.

(** [Buffer.from(text, 'base64')], kept symbolic. *)
Inductive Buffer : Type := Buffer_from_base64 (text : string).

Record FileOptions : Type := {
  contentType : string;
  cacheControl : string;
  upsert : bool
}.

(** The answer of [list]: [{ data, error }], the files by their names and
    the error by its message. *)
Record Listing : Type := {
  data : option (list string);
  error : option string
}.

(** [supabase.storage.from(bucket)] as the service answers it.  [upload] and
    [remove] give the [error] of their answer, by its message. *)
Record Bucket : Type := {
  upload : string -> Buffer -> FileOptions -> option string;
  getPublicUrl : string -> string;
  remove : list string -> option string;
  list_files : string -> Listing
}.

Definition Supabase : Type := SupabaseClient -> string -> Bucket.

(** What a storage function does that can be seen from outside. *)
Inductive StorageCall : Type :=
| CreateClient (client : SupabaseClient)
| Upload (bucket path : string) (buffer : Buffer) (options : FileOptions)
| Remove (bucket : string) (paths : list string)
| List (bucket folder : string)
| LogError (label detail : string).

(** The storage functions share one module variable, [supabaseAdmin]: a
    computation takes its value and gives the calls made, its value
    afterwards and how the promise settled. *)
Module Store.

Record Step (A : Type) : Type := {
  calls : list StorageCall;
  supabaseAdmin : option SupabaseClient;
  settled : Outcome A
}.
Arguments calls {A} _.
Arguments supabaseAdmin {A} _.
Arguments settled {A} _.

Definition M (A : Type) : Type := option SupabaseClient -> Step A.

Definition ret {A} (a : A) : M A :=
  fun admin => {| calls := []; supabaseAdmin := admin; settled := Return a |}.

Definition throw {A} (message : string) : M A :=
  fun admin => {| calls := []; supabaseAdmin := admin; settled := Throw message |}.

Definition call (c : StorageCall) : M unit :=
  fun admin => {| calls := [c]; supabaseAdmin := admin; settled := Return tt |}.

Definition bind {A B} (c : M A) (k : A -> M B) : M B :=
  fun admin =>
    match c admin with
    | {| calls := cs; supabaseAdmin := admin'; settled := Return a |} =>
        match k a admin' with
        | {| calls := cs'; supabaseAdmin := admin''; settled := o |} =>
            {| calls := cs ++ cs'; supabaseAdmin := admin''; settled := o |}
        end
    | {| calls := cs; supabaseAdmin := admin'; settled := Throw e |} =>
        {| calls := cs; supabaseAdmin := admin'; settled := Throw e |}
    end.

End Store.

Declare Scope store_scope.
Delimit Scope store_scope with store.
Notation "x <- c ;; k" := (Store.bind c (fun x => k))
  (at level 61, c at next level, right associativity) : store_scope.
Notation "c ;; k" := (Store.bind c (fun _ => k))
  (at level 61, right associativity) : store_scope.

Definition createSupabaseAdmin (env : StorageEnv) : Outcome SupabaseClient :=
  match NEXT_PUBLIC_SUPABASE_URL env, SUPABASE_SERVICE_ROLE_KEY env with
  | Some url, Some key =>
      if negb (JS.truthy (Some url)) || negb (JS.truthy (Some key))
      then Throw "Supabase credentials not configured"
      else Return {| supabaseUrl := url; serviceRoleKey := key;
                     autoRefreshToken := false; persistSession := false |}
  | _, _ => Throw "Supabase credentials not configured"
  end.

Definition getSupabaseAdmin (env : StorageEnv) : Store.M SupabaseClient :=
  fun admin =>
    match admin with
    | Some client =>
        {| Store.calls := []; Store.supabaseAdmin := admin; Store.settled := Return client |}
    | None =>
        match createSupabaseAdmin env with
        | Return client =>
            {| Store.calls := [CreateClient client]; Store.supabaseAdmin := Some client;
               Store.settled := Return client |}
        | Throw message =>
            {| Store.calls := []; Store.supabaseAdmin := None; Store.settled := Throw message |}
        end
    end.

Definition BUCKET_NAME : string := "images".

(** [contentType] is [None] when the argument is left out. *)
Definition uploadImage (env : StorageEnv) (service : Supabase)
    (buffer : Buffer) (path : string) (contentType : option string) : Store.M string :=
  (let contentType := match contentType with Some c => c | None => "image/png" end in
   supabase <- getSupabaseAdmin env ;;
   let options := {| contentType := contentType; cacheControl := "31536000"; upsert := true |} in
   Store.call (Upload BUCKET_NAME path buffer options) ;;
   match upload (service supabase BUCKET_NAME) path buffer options with
   | Some message => Store.throw ("Failed to upload image: " ++ message)
   | None => Store.ret (getPublicUrl (service supabase BUCKET_NAME) path)
   end)%store.

(** *** The regular expression [/^data:([^;]+);base64,(.+)$/]

    Without flags, [^] and [$] are the two ends of the input and [.] is any
    character but a line terminator: LF, CR, U+2028 and U+2029, the last two
    being the byte sequences E2 80 A8 and E2 80 A9 in UTF-8.  [[^;]+] takes
    everything up to the first semicolon, which must be where [;base64,]
    starts. *)
Fixpoint drop (n : nat) (s : string) : string :=
  match n, s with
  | O, _ => s
  | S n', String _ s' => drop n' s'
  | S _, EmptyString => EmptyString
  end.

Fixpoint untilSemicolon (s : string) : option (string * string) :=
  match s with
  | EmptyString => None
  | String c s' =>
      if Ascii.eqb c ";"%char then Some (EmptyString, s)
      else match untilSemicolon s' with
           | Some (before, rest) => Some (String c before, rest)
           | None => None
           end
  end.

Definition lineTerminators : list string :=
  [ String (ascii_of_nat 10) EmptyString;
    String (ascii_of_nat 13) EmptyString;
    String (ascii_of_nat 226) (String (ascii_of_nat 128) (String (ascii_of_nat 168) EmptyString));
    String (ascii_of_nat 226) (String (ascii_of_nat 128) (String (ascii_of_nat 169) EmptyString)) ].

Definition hasLineTerminator (s : string) : bool :=
  existsb (fun terminator => JS.includes terminator s) lineTerminators.

(** [base64Data.match(...)]: the two groups, or [None] for [null]. *)
Definition matchDataUrl (base64Data : string) : option (string * string) :=
  if JS.startsWith "data:" base64Data then
    match untilSemicolon (drop 5 base64Data) with
    | Some (group1, rest) =>
        if String.eqb group1 "" then None
        else if JS.startsWith ";base64," rest then
          let group2 := drop 8 rest in
          if String.eqb group2 "" || hasLineTerminator group2 then None
          else Some (group1, group2)
        else None
    | None => None
    end
  else None.

Definition uploadBase64Image (env : StorageEnv) (service : Supabase)
    (base64Data path : string) : Store.M string :=
  let '(contentType, base64Content) :=
    match matchDataUrl base64Data with
    | Some (group1, group2) => (group1, group2)
    | None => ("image/png", base64Data)
    end in
  uploadImage env service (Buffer_from_base64 base64Content) path (Some contentType).

Record SavedImage : Type := {
  savedUrl : string;
  savedThumbnailUrl : string
}.

(** [`${i}`] for a loop index. *)
Definition index_toString (i : nat) : string := JS.Z_toString (Z.of_nat i).

(** The loop of [saveGeneratedImages] from index [i] on, [results] being
    what has been pushed so far. *)
Fixpoint saveGeneratedImages_from (env : StorageEnv) (service : Supabase)
    (generationId : string) (i : nat) (images : list string)
    (results : list SavedImage) : Store.M (list SavedImage) :=
  match images with
  | [] => Store.ret results
  | base64Data :: rest =>
      (let path := "generations/" ++ generationId ++ "/" ++ index_toString i ++ ".png" in
       let thumbnailPath :=
         "generations/" ++ generationId ++ "/" ++ index_toString i ++ "_thumb.png" in
       url <- uploadBase64Image env service base64Data path ;;
       thumbnailUrl <- uploadBase64Image env service base64Data thumbnailPath ;;
       saveGeneratedImages_from env service generationId (S i) rest
         (results ++ [{| savedUrl := url; savedThumbnailUrl := thumbnailUrl |}]))%store
  end.

Definition saveGeneratedImages (env : StorageEnv) (service : Supabase)
    (generationId : string) (images : list string) : Store.M (list SavedImage) :=
  saveGeneratedImages_from env service generationId 0 images [].

Definition getImageUrl (env : StorageEnv) (service : Supabase) (path : string) : Store.M string :=
  (supabase <- getSupabaseAdmin env ;;
   Store.ret (getPublicUrl (service supabase BUCKET_NAME) path))%store.

Definition deleteImage (env : StorageEnv) (service : Supabase) (path : string) : Store.M unit :=
  (supabase <- getSupabaseAdmin env ;;
   Store.call (Remove BUCKET_NAME [path]) ;;
   match remove (service supabase BUCKET_NAME) [path] with
   | Some message => Store.throw ("Failed to delete image: " ++ message)
   | None => Store.ret tt
   end)%store.

Definition deleteGenerationImages (env : StorageEnv) (service : Supabase)
    (generationId : string) : Store.M unit :=
  (supabase <- getSupabaseAdmin env ;;
   let folder := "generations/" ++ generationId in
   Store.call (List BUCKET_NAME folder) ;;
   let listing := list_files (service supabase BUCKET_NAME) folder in
   match error listing with
   | Some listError => Store.call (LogError "Failed to list files:" listError)
   | None =>
       match data listing with
       | Some (file :: others) =>
           let paths :=
             map (fun name => "generations/" ++ generationId ++ "/" ++ name) (file :: others) in
           Store.call (Remove BUCKET_NAME paths) ;;
           match remove (service supabase BUCKET_NAME) paths with
           | Some deleteError => Store.call (LogError "Failed to delete files:" deleteError)
           | None => Store.ret tt
           end
       | _ => Store.ret tt
       end
   end)%store.

Definition isStorageConfigured (env : StorageEnv) : bool :=
  JS.truthy (NEXT_PUBLIC_SUPABASE_URL env) && JS.truthy (SUPABASE_SERVICE_ROLE_KEY env).

(** The calls of a run that reach the storage service. *)
Definition uploads (cs : list StorageCall) : list (string * Buffer * string) :=
  flat_map (fun c => match c with
                     | Upload _ path buffer options => [(path, buffer, contentType options)]
                     | _ => []
                     end) cs.

Definition removals (cs : list StorageCall) : list (list string) :=
  flat_map (fun c => match c with Remove _ paths => [paths] | _ => [] end) cs.


(** *** Vocabulary for statements about the storage functions *)

(** The client a storage function works with: the cached one, or else the
    one built from the environment. *)
Definition clientFor (env : StorageEnv) (admin : option SupabaseClient) : option SupabaseClient :=
  match admin with
  | Some client => Some client
  | None =>
      match createSupabaseAdmin env with
      | Return client => Some client
      | Throw _ => None
      end
  end.

(** The content type and the base64 text that [uploadBase64Image] takes
    from its argument. *)
Definition dataUrlParts (base64Data : string) : string * string :=
  match matchDataUrl base64Data with
  | Some (group1, group2) => (group1, group2)
  | None => ("image/png", base64Data)
  end.

(** The options [uploadImage] passes to [upload]. *)
Definition uploadOptions (contentType : string) : FileOptions :=
  {| contentType := contentType; cacheControl := "31536000"; upsert := true |}.

(** The client construction a function makes when none is cached. *)
Definition creation (admin : option SupabaseClient) (client : SupabaseClient) : list StorageCall :=
  match admin with
  | Some _ => []
  | None => [CreateClient client]
  end.

(** An upload the service accepted; a call that is not a removal. *)
Definition accepted (bucket : Bucket) (c : StorageCall) : Prop :=
  match c with
  | Upload _ path buffer options => upload bucket path buffer options = None
  | Remove _ _ => False
  | _ => True
  end.


Definition thumbnailPath (generationId : string) (i : nat) : string :=
  "generations/" ++ generationId ++ "/" ++ index_toString i ++ "_thumb.png".

(** The exported functions, to speak about all of them at once, and the run
    of one with its result forgotten. *)
Inductive Operation : Type :=
| UploadImage (buffer : Buffer) (path : string) (contentType : option string)
| UploadBase64Image (base64Data path : string)
| SaveGeneratedImages (generationId : string) (images : list string)
| GetImageUrl (path : string)
| DeleteImage (path : string)
| DeleteGenerationImages (generationId : string).

Definition forget {A} (step : Store.Step A) : Store.Step unit :=
  {| Store.calls := Store.calls step;
     Store.supabaseAdmin := Store.supabaseAdmin step;
     Store.settled := match Store.settled step with
                      | Return _ => Return tt
                      | Throw message => Throw message
                      end |}.

Definition perform (env : StorageEnv) (service : Supabase) (op : Operation) : Store.M unit :=
  fun admin =>
    match op with
    | UploadImage buffer path contentType =>
        forget (uploadImage env service buffer path contentType admin)
    | UploadBase64Image base64Data path =>
        forget (uploadBase64Image env service base64Data path admin)
    | SaveGeneratedImages generationId images =>
        forget (saveGeneratedImages env service generationId images admin)
    | GetImageUrl path => forget (getImageUrl env service path admin)
    | DeleteImage path => forget (deleteImage env service path admin)
    | DeleteGenerationImages generationId =>
        forget (deleteGenerationImages env service generationId admin)
    end.


(** ** The form ([GenerateForm], the fourth file of [src/types/database.ts]): its data *)

Definition CAMERA_NAMES : list (string * string) :=
  [ ("front", "正面"); ("angle45", "斜め45度"); ("aerial", "俯瞰");
    ("birdseye", "鳥瞰"); ("closeup", "接近"); ("distant", "遠景") ].

(** The values of the form, [FormData]. *)
Module FormData.
Record t (number : Type) : Type := {
  buildingType : string;
  floors : number;
  totalArea : number;
  landArea : number;
  landShape : string;
  style : string;
  wallMaterial : string;
  roofType : string;
  primaryColor : string;
  secondaryColor : string;
  accentColor : string;
  timeOfDay : string;
  season : string;
  cameraAngle : string;
  count : Z;
  resolution : string
}.
Arguments buildingType {number} _.
Arguments floors {number} _.
Arguments totalArea {number} _.
Arguments landArea {number} _.
Arguments landShape {number} _.
Arguments style {number} _.
Arguments wallMaterial {number} _.
Arguments roofType {number} _.
Arguments primaryColor {number} _.
Arguments secondaryColor {number} _.
Arguments accentColor {number} _.
Arguments timeOfDay {number} _.
Arguments season {number} _.
Arguments cameraAngle {number} _.
Arguments count {number} _.
Arguments resolution {number} _.
End FormData.

(** What the user can do to the form: pick an item of a select, move a
    slider, press a style button, type into a colour field.  A number comes
    as the integer it denotes: [parseInt] of an item's value, or the value of
    a slider. *)
Inductive FormAction : Type :=
| SelectBuildingType (value : string)
| SelectFloors (value : Z)
| SlideTotalArea (value : Z)
| SlideLandArea (value : Z)
| SelectLandShape (value : string)
| PressStyle (styleId : string)
| SelectWallMaterial (value : string)
| SelectRoofType (value : string)
| TypePrimaryColor (text : string)
| TypeSecondaryColor (text : string)
| TypeAccentColor (text : string)
| SelectTimeOfDay (value : string)
| SelectSeason (value : string)
| SelectCameraAngle (value : string)
| SelectCount (value : Z)
| SelectResolution (value : string).

(** The items, buttons and slider ranges that the form renders. *)
Definition offered (action : FormAction) : Prop :=
  match action with
  | SelectBuildingType value => In value ["house"; "apartment"; "building"; "shop"]
  | SelectFloors value => In value [1; 2; 3; 4; 5]%Z
  | SlideTotalArea value => (50 <= value <= 500)%Z
  | SlideLandArea value => (50 <= value <= 500)%Z
  | SelectLandShape value => In value ["rectangle"; "square"; "L-shape"; "flag"; "irregular"]
  | PressStyle styleId => In styleId (map StylePreset.id STYLE_PRESETS)
  | SelectWallMaterial value => In value (map fst MATERIAL_NAMES)
  | SelectRoofType value => In value (map fst ROOF_NAMES)
  | TypePrimaryColor _ | TypeSecondaryColor _ | TypeAccentColor _ => True
  | SelectTimeOfDay value => In value ["morning"; "noon"; "evening"; "night"]
  | SelectSeason value => In value ["spring"; "summer"; "autumn"; "winter"]
  | SelectCameraAngle value => In value (map fst CAMERA_NAMES)
  | SelectCount value => In value [1; 4]%Z
  | SelectResolution value => In value ["sd"; "hd"; "4k"]
  end.

(** The labels of the resolution items. *)
Definition resolutionItems : list (string * string) :=
  [ ("sd", "SD (1024×768)"); ("hd", "HD (1536×1024)"); ("4k", "4K (2048×1536)") ].

(** A value that [catch] receives: an [Error], kept as its message, or a
    value that is no [Error]. *)
Inductive Thrown : Type :=
| ErrorObject (message : string)
| OtherValue.

(** A settled promise of the browser: fulfilled, or rejected with any
    value. *)
Inductive Settled (A : Type) : Type :=
| Fulfilled (a : A)
| Rejected (thrown : Thrown).
Arguments Fulfilled {A} a.
Arguments Rejected {A} thrown.

(** The second argument of [fetch]: the method, the [Content-Type] header
    and the body, which is the JSON text of [JSON.stringify(request)], kept
    as the value it denotes. *)
Record RequestInit (number : Type) : Type := {
  init_method : string;
  init_contentType : string;
  init_body : Json number
}.
Arguments init_method {number} _.
Arguments init_contentType {number} _.
Arguments init_body {number} _.

(** What [fetch] resolves to, as far as the form reads it: [response.ok]
    and the promise of [response.json()], which is rejected when the body is
    not JSON.  A parsed body is taken at the type of the route's answers. *)
Record FormResponse (number : Type) : Type := {
  response_ok : bool;
  response_json : Settled (RouteBody number)
}.
Arguments response_ok {number} _.
Arguments response_json {number} _.

(** What submitting ends with: [onGenerated(result)], where [result] is the
    body of the response taken for a [GenerationResult] without a check, or
    [setError(message)]. *)
Inductive FormEffect (number : Type) : Type :=
| OnGenerated (result : RouteBody number)
| SetError (message : string).
Arguments OnGenerated {number} result.
Arguments SetError {number} message.

(** [err instanceof Error ? err.message : 'Unknown error'] *)
Definition caught (err : Thrown) : string :=
  match err with
  | ErrorObject message => message
  | OtherValue => "Unknown error"
  end.

(** ** The page ([src/app/page.tsx]) and the preview
    ([src/components/features/ImagePreview.tsx]) *)

(** The state of [Home]. *)
Module Home.
Record t (number : Type) : Type := {
  result : option (GenerationResult.t number);
  history : list (GenerationResult.t number)
}.
Arguments result {number} _.
Arguments history {number} _.
End Home.

(** [{ ...item, isFavorite: !item.isFavorite }] *)
Definition toggleFavorite {number} (item : GenerationResult.t number) : GenerationResult.t number :=
  {| GenerationResult.id := GenerationResult.id item;
     GenerationResult.userId := GenerationResult.userId item;
     GenerationResult.status := GenerationResult.status item;
     GenerationResult.prompt := GenerationResult.prompt item;
     GenerationResult.parameters := GenerationResult.parameters item;
     GenerationResult.images := GenerationResult.images item;
     GenerationResult.modelUsed := GenerationResult.modelUsed item;
     GenerationResult.generationTimeMs := GenerationResult.generationTimeMs item;
     GenerationResult.errorMessage := GenerationResult.errorMessage item;
     GenerationResult.isFavorite := negb (GenerationResult.isFavorite item);
     GenerationResult.createdAt := GenerationResult.createdAt item |}.

Definition handleGenerated {number} (newResult : GenerationResult.t number)
    (state : Home.t number) : Home.t number :=
  {| Home.result := Some newResult;
     Home.history := firstn 10 (newResult :: Home.history state) |}.

Definition handleFavorite {number} (id : string) (state : Home.t number) : Home.t number :=
  {| Home.result :=
       match Home.result state with
       | Some prev =>
           if String.eqb (GenerationResult.id prev) id then Some (toggleFavorite prev)
           else Some prev
       | None => None
       end;
     Home.history :=
       map (fun item =>
              if String.eqb (GenerationResult.id item) id then toggleFavorite item else item)
           (Home.history state) |}.

(** What the user and the form do to the page: a generation arrives, the
    heart button of the preview is pressed, which calls [handleFavorite] with
    the id of the result on show, or the [k]-th item of the history is
    clicked, which calls [setResult(item)]. *)
Inductive HomeAction (number : Type) : Type :=
| Arrives (newResult : GenerationResult.t number)
| PressHeart
| ClickHistory (k : nat).
Arguments Arrives {number} newResult.
Arguments PressHeart {number}.
Arguments ClickHistory {number} k.

Definition homeStep {number} (state : Home.t number) (action : HomeAction number) : Home.t number :=
  match action with
  | Arrives newResult => handleGenerated newResult state
  | PressHeart =>
      match Home.result state with
      | Some shown => handleFavorite (GenerationResult.id shown) state
      | None => state
      end
  | ClickHistory k =>
      match nth_error (Home.history state) k with
      | Some item => {| Home.result := Some item; Home.history := Home.history state |}
      | None => state
      end
  end.

Definition initialHome {number} : Home.t number :=
  {| Home.result := None; Home.history := [] |}.

(** The ids of the generations that arrive in a sequence of actions. *)
Definition arrivals {number} (actions : list (HomeAction number)) : list string :=
  flat_map (fun action => match action with
                          | Arrives newResult => [GenerationResult.id newResult]
                          | _ => []
                          end) actions.

(** The preview keeps [currentIndex] in its own state; [length] is
    [result.images.length]. *)
Definition handlePrev (length prev : Z) : Z :=
  if (prev =? 0)%Z then (length - 1)%Z else (prev - 1)%Z.

Definition handleNext (length prev : Z) : Z :=
  if (prev =? length - 1)%Z then 0%Z else (prev + 1)%Z.

(** [images[currentIndex]] *)
Definition currentImage (images : list GeneratedImage.t) (currentIndex : Z)
    : option GeneratedImage.t :=
  if (currentIndex <? 0)%Z then None else nth_error images (Z.to_nat currentIndex).

(** What the preview renders: the placeholder, the current image with or
    without the navigation, or nothing at all because reading
    [currentImage.url] on [undefined] throws a [TypeError]. *)
Inductive Rendering : Type :=
| Placeholder
| Showing (image : GeneratedImage.t) (hasMultiple : bool)
| RenderError.

Definition render {number} (result : option (GenerationResult.t number))
    (currentIndex : Z) : Rendering :=
  match result with
  | None => Placeholder
  | Some result =>
      match GenerationResult.images result with
      | [] => Placeholder
      | images =>
          match currentImage images currentIndex with
          | Some image => Showing image (1 <? length images)%nat
          | None => RenderError
          end
      end
  end.

(** The buttons of the preview that change the index, each with the
    condition under which it is rendered: the arrows and the thumbnails exist
    only beside more than one image. *)
Inductive PreviewAction : Type :=
| PressPrev
| PressNext
| PressThumbnail (idx : nat).

Definition previewStep {number} (result : GenerationResult.t number)
    (currentIndex : Z) (action : PreviewAction) : Z :=
  let length := Z.of_nat (length (GenerationResult.images result)) in
  if (1 <? length)%Z then
    match action with
    | PressPrev => handlePrev length currentIndex
    | PressNext => handleNext length currentIndex
    | PressThumbnail idx =>
        if (Z.of_nat idx <? length)%Z then Z.of_nat idx else currentIndex
    end
  else currentIndex.

Section RenderAI.

Variable number : Type.
Variable Number_toString : number -> string.

Definition buildPrompt (request : GenerationRequest number) : string :=
  let style := findStyle (style request) in
  let styleName := JS.or_else (option_map StylePreset.name style) "Modern" in
  let styleKeywords :=
    JS.or_else (option_map (fun s => JS.join ", " (StylePreset.keywords s)) style) "" in
  JS.trim ("
Photorealistic architectural exterior rendering of a " ++ styleName ++ " " ++ JS.interpolate (JS.get buildingTypeMap (buildingType request)) ++ ".

BUILDING SPECIFICATIONS:
- Number of floors: " ++ Number_toString (floors request) ++ "
- Total floor area: approximately " ++ Number_toString (totalArea request) ++ " square meters
- Land area: approximately " ++ Number_toString (landArea request) ++ " square meters
- Land shape: " ++ landShape request ++ "

ARCHITECTURAL STYLE:
- Style: " ++ styleName ++ "
- Design characteristics: " ++ styleKeywords ++ "

MATERIALS AND FINISHES:
- Exterior wall: " ++ JS.interpolate (JS.get MATERIAL_NAMES (wall (materials request))) ++ "
- Roof type: " ++ JS.interpolate (JS.get ROOF_NAMES (roof (materials request))) ++ "
- Primary color: " ++ primary (colors request) ++ "
- Secondary color: " ++ secondary (colors request) ++ "
- Accent color: " ++ accent (colors request) ++ "

ENVIRONMENT AND LIGHTING:
- Time of day: " ++ JS.interpolate (JS.get timeMap (timeOfDay (environment request))) ++ "
- Season: " ++ JS.interpolate (JS.get seasonMap (season (environment request))) ++ "
- Weather: clear sky with soft natural shadows

CAMERA AND COMPOSITION:
- View angle: " ++ JS.interpolate (JS.get cameraMap (angle (camera request))) ++ "
- Lens: professional architectural photography, 24mm wide-angle equivalent
- Focus: sharp throughout, architectural photography style

QUALITY REQUIREMENTS:
- Photorealistic quality
- High detail on materials and textures
- Professional architectural visualization
- Natural landscaping with appropriate vegetation
- Realistic shadows and reflections
- Clean, modern presentation
").

Definition buildNegativePrompt (_ : unit) : string :=
  JS.trim "
blurry, low quality, distorted, cartoon, anime, illustration, 
sketch, painting, unrealistic, fantasy, floating objects,
people, cars, animals, text overlay, watermark, signature,
unfinished construction, scaffolding, construction equipment,
disproportionate, impossible architecture, physically impossible
".

Definition buildSummary (request : GenerationRequest number) : string :=
  let style := findStyle (style request) in
  JS.or_else (option_map StylePreset.nameJa style) "モダン" ++ "スタイルの" ++
  Number_toString (floors request) ++ "階建て" ++
  (if String.eqb (buildingType request) "house" then "住宅"
   else if String.eqb (buildingType request) "apartment" then "マンション"
   else if String.eqb (buildingType request) "building" then "ビル"
   else "店舗") ++
  "（延床" ++ Number_toString (totalArea request) ++ "㎡）".

(** ** Provider clients *)

Local Open Scope async_scope.
Local Open Scope Z_scope.

(** *** [src/lib/ai/nano-banana.ts] *)

(** [n || d] for an optional number: [undefined] and [0] are falsy. *)
Definition number_or (n : option Z) (d : Z) : Z :=
  match n with
  | Some v => if Z.eqb v 0 then d else v
  | None => d
  end.

Definition isNanoBananaAvailable (env : Env) : bool := JS.truthy (FAL_KEY env).

Definition generateWithNanoBanana (env : Env) (w : World)
    (request : GenerationRequest number) : Async GenerationOutput.t :=
  emit (Enter NanoBanana) ;;
  match FAL_KEY env with
  | None => throw "FAL_KEY is not configured"
  | Some apiKey =>
    if String.eqb apiKey "" then throw "FAL_KEY is not configured" else
    let prompt := buildPrompt request in
    startTime <- Date_now w ;;
    let input :=
      {| NanoBananaInput.prompt := prompt;
         NanoBananaInput.resolution := nano_banana.getResolution (resolution (options request));
         NanoBananaInput.num_images := count (options request);
         NanoBananaInput.aspect_ratio := nano_banana.getAspectRatio tt;
         NanoBananaInput.output_format := "jpeg";
         NanoBananaInput.safety_tolerance := "4" |} in
    emit (Fetch (PostNanoBanana nano_banana.FAL_API_URL ("Key " ++ apiKey) input)) ;;
    response <- await (answerNanoBanana w ("Key " ++ apiKey) input) ;;
    if negb (ok response) then
      error <- await (text response) ;;
      throw ("Nano Banana Pro API error: " ++ JS.Z_toString (status response) ++ " - " ++ error)
    else
      data <- await (json response) ;;
      endTime <- Date_now w ;;
      let timeMs := endTime - startTime in
      let imageSize := nano_banana.getImageSize (resolution (options request)) in
      let images :=
        map (fun img =>
               {| GeneratedImage.url := NanoBananaOutput.url img;
                  GeneratedImage.thumbnailUrl := NanoBananaOutput.url img;
                  GeneratedImage.width := number_or (NanoBananaOutput.width img) (Size.width imageSize);
                  GeneratedImage.height := number_or (NanoBananaOutput.height img) (Size.height imageSize) |})
            (NanoBananaOutput.images data) in
      ret {| GenerationOutput.images := images;
             GenerationOutput.prompt := prompt;
             GenerationOutput.model := "nano-banana";
             GenerationOutput.timeMs := timeMs |}
  end.

(** *** [src/lib/ai/imagen.ts] *)

(** The token comes from google-auth-library; whatever fails inside the
    [try] block is logged and replaced by one error. *)
Definition getAccessToken (env : Env) (w : World) : Async string :=
  if negb (JS.truthy (GOOGLE_APPLICATION_CREDENTIALS env)) then
    throw "GOOGLE_APPLICATION_CREDENTIALS is not set"
  else
    try_catch
      (emit TokenRequest ;;
       tokenResponse <- await (googleAccessToken w) ;;
       match tokenResponse with
       | Some token =>
           if String.eqb token "" then throw "Failed to obtain access token"
           else ret token
       | None => throw "Failed to obtain access token"
       end)
      (fun error =>
         emit (ConsoleError "Failed to get access token:" error) ;;
         throw "Google Cloud authentication failed").

Definition isImagen4Available (env : Env) : bool :=
  JS.truthy (GOOGLE_CLOUD_PROJECT_ID env) && JS.truthy (GOOGLE_APPLICATION_CREDENTIALS env).

Definition generateWithImagen (env : Env) (w : World)
    (request : GenerationRequest number) : Async GenerationOutput.t :=
  emit (Enter Imagen4) ;;
  startTime <- Date_now w ;;
  match GOOGLE_CLOUD_PROJECT_ID env with
  | None => throw "GOOGLE_CLOUD_PROJECT_ID is not set"
  | Some projectId =>
    if String.eqb projectId "" then throw "GOOGLE_CLOUD_PROJECT_ID is not set" else
    let prompt := buildPrompt request in
    let negativePrompt := buildNegativePrompt tt in
    accessToken <- getAccessToken env w ;;
    let imagenRequest :=
      {| ImagenRequest.prompt := prompt;
         ImagenRequest.negativePrompt := negativePrompt;
         ImagenRequest.sampleCount := count (options request);
         ImagenRequest.aspectRatio := imagen.getAspectRatio (resolution (options request));
         ImagenRequest.mimeType := "image/png";
         ImagenRequest.addWatermark := false;
         ImagenRequest.safetySetting := "block_some";
         ImagenRequest.personGeneration := "dont_allow" |} in
    let endpoint :=
      imagen.VERTEX_AI_ENDPOINT ++ "/v1/projects/" ++ projectId ++
      "/locations/us-central1/publishers/google/models/" ++ imagen.MODEL_ID ++ ":predict" in
    emit (Fetch (PostImagen endpoint ("Bearer " ++ accessToken) imagenRequest)) ;;
    response <- await (answerImagen w endpoint ("Bearer " ++ accessToken) imagenRequest) ;;
    if negb (ok response) then
      errorText <- await (text response) ;;
      emit (ConsoleError "Imagen 4 API error:" errorText) ;;
      throw ("Imagen 4 API error: " ++ JS.Z_toString (status response) ++ " " ++ statusText response)
    else
      data <- await (json response) ;;
      let imageSize := imagen.getImageSize (resolution (options request)) in
      let images :=
        map (fun prediction =>
               let dataUrl :=
                 "data:" ++ ImagenResponse.mimeType prediction ++ ";base64," ++
                 ImagenResponse.bytesBase64Encoded prediction in
               {| GeneratedImage.url := dataUrl;
                  GeneratedImage.thumbnailUrl := dataUrl;
                  GeneratedImage.width := Size.width imageSize;
                  GeneratedImage.height := Size.height imageSize |})
            (ImagenResponse.predictions data) in
      endTime <- Date_now w ;;
      let timeMs := endTime - startTime in
      ret {| GenerationOutput.images := images;
             GenerationOutput.prompt := prompt;
             GenerationOutput.model := "imagen4";
             GenerationOutput.timeMs := timeMs |}
  end.

(** *** [flux.ts] *)

(** [sizeMap[request.options.resolution] || sizeMap.hd]: only [undefined]
    is falsy among the values a lookup can give. *)
Definition flux_size (resolution : string) : JS.Property Size.t :=
  match JS.get flux.sizeMap resolution with
  | JS.Undefined => JS.get flux.sizeMap "hd"
  | v => v
  end.

(** [size.width] and [size.height]: a member of [Object.prototype] has
    neither property. *)
Definition size_field (f : Size.t -> Z) (size : JS.Property Size.t) : option Z :=
  match size with
  | JS.Own s => Some (f s)
  | _ => None
  end.

Definition generateWithFlux (env : Env) (w : World)
    (request : GenerationRequest number) : Async GenerationOutput.t :=
  emit (Enter Flux2) ;;
  match FAL_KEY env with
  | None => throw "FAL_KEY is not configured"
  | Some apiKey =>
    if String.eqb apiKey "" then throw "FAL_KEY is not configured" else
    let prompt := buildPrompt request in
    let negativePrompt := buildNegativePrompt tt in
    let size := flux_size (resolution (options request)) in
    startTime <- Date_now w ;;
    let body :=
      {| FluxInput.prompt := prompt;
         FluxInput.negative_prompt := negativePrompt;
         FluxInput.image_width := size_field Size.width size;
         FluxInput.image_height := size_field Size.height size;
         FluxInput.num_images := count (options request);
         FluxInput.seed := random_seed w;
         FluxInput.safety_tolerance := "2";
         FluxInput.output_format := "jpeg" |} in
    emit (Fetch (PostFlux flux.FAL_API_URL ("Key " ++ apiKey) body)) ;;
    response <- await (answerFlux w ("Key " ++ apiKey) body) ;;
    if negb (ok response) then
      error <- await (text response) ;;
      throw ("FLUX API error: " ++ JS.Z_toString (status response) ++ " - " ++ error)
    else
      data <- await (json response) ;;
      endTime <- Date_now w ;;
      let timeMs := endTime - startTime in
      let images :=
        map (fun img =>
               {| GeneratedImage.url := FalResponse.url img;
                  GeneratedImage.thumbnailUrl := FalResponse.url img;
                  GeneratedImage.width := FalResponse.width img;
                  GeneratedImage.height := FalResponse.height img |})
            (FalResponse.images data) in
      ret {| GenerationOutput.images := images;
             GenerationOutput.prompt := prompt;
             GenerationOutput.model := "flux2";
             GenerationOutput.timeMs := timeMs |}
  end.

(** ** Model selection ([src/lib/ai/index.ts]) *)

Definition generateImages (env : Env) (w : World)
    (request : GenerationRequest number) : Async GenerationOutput.t :=
  let selectedModel := model (options request) in
  if String.eqb selectedModel "auto" then
    if isNanoBananaAvailable env then generateWithNanoBanana env w request
    else if isImagen4Available env then generateWithImagen env w request
    else generateWithFlux env w request
  else if String.eqb selectedModel "nano-banana" then
    if negb (isNanoBananaAvailable env) then
      throw "Nano Banana Pro is not configured. Please set FAL_KEY."
    else generateWithNanoBanana env w request
  else if String.eqb selectedModel "imagen4" then
    if negb (isImagen4Available env) then
      throw "Imagen 4 is not configured. Please set GOOGLE_CLOUD_PROJECT_ID and GOOGLE_APPLICATION_CREDENTIALS."
    else generateWithImagen env w request
  else if String.eqb selectedModel "flux2" then generateWithFlux env w request
  else if String.eqb selectedModel "gemini" then generateWithNanoBanana env w request
  else generateWithNanoBanana env w request.

Definition getAvailableModels (env : Env) : list ModelInfo.t :=
  [ {| ModelInfo.id := "auto"; ModelInfo.name := "自動選択";
       ModelInfo.available := true;
       ModelInfo.description := "最適なモデルを自動選択" |};
    {| ModelInfo.id := "nano-banana"; ModelInfo.name := "Nano Banana Pro";
       ModelInfo.available := isNanoBananaAvailable env;
       ModelInfo.description := "Gemini 3 Pro Image - 最高品質の建築パース生成" |};
    {| ModelInfo.id := "imagen4"; ModelInfo.name := "Imagen 4";
       ModelInfo.available := isImagen4Available env;
       ModelInfo.description := "Google製、高品質な建築パース向け" |};
    {| ModelInfo.id := "flux2"; ModelInfo.name := "FLUX 2 Pro";
       ModelInfo.available := JS.truthy (FAL_KEY env);
       ModelInfo.description := "高速生成、コスト効率が良い" |};
    {| ModelInfo.id := "gemini"; ModelInfo.name := "Gemini 3 Pro";
       ModelInfo.available := isNanoBananaAvailable env;
       ModelInfo.description := "Nano Banana Pro として利用可能" |} ].

(** ** Vocabulary of the statements *)

Definition client (p : Provider) :
    Env -> World -> GenerationRequest number -> Async GenerationOutput.t :=
  match p with
  | NanoBanana => generateWithNanoBanana
  | Imagen4 => generateWithImagen
  | Flux2 => generateWithFlux
  end.

(** The availability predicate of a provider.  [flux2] has no predicate
    function of its own: its availability is the expression of its entry in
    [getAvailableModels]. *)
Definition availability (p : Provider) (env : Env) : bool :=
  match p with
  | NanoBanana => isNanoBananaAvailable env
  | Imagen4 => isImagen4Available env
  | Flux2 => JS.truthy (FAL_KEY env)
  end.

(** The environment variables an availability predicate reads. *)
Definition settings (p : Provider) : list (string * (Env -> option string)) :=
  match p with
  | NanoBanana => [ ("FAL_KEY", FAL_KEY) ]
  | Imagen4 => [ ("GOOGLE_CLOUD_PROJECT_ID", GOOGLE_CLOUD_PROJECT_ID);
                 ("GOOGLE_APPLICATION_CREDENTIALS", GOOGLE_APPLICATION_CREDENTIALS) ]
  | Flux2 => [ ("FAL_KEY", FAL_KEY) ]
  end.

(** The prompt and the negative prompt carried by a generation call. *)
Definition sentPrompt (r : HttpRequest) : string :=
  match r with
  | PostNanoBanana _ _ body => NanoBananaInput.prompt body
  | PostFlux _ _ body => FluxInput.prompt body
  | PostImagen _ _ body => ImagenRequest.prompt body
  end.

Definition sentNegativePrompt (r : HttpRequest) : option string :=
  match r with
  | PostNanoBanana _ _ _ => None
  | PostFlux _ _ body => Some (FluxInput.negative_prompt body)
  | PostImagen _ _ body => Some (ImagenRequest.negativePrompt body)
  end.

(** The pixel pair a provider client associates with a resolution tier. *)
Definition tierSize (p : Provider) (resolution : string) : option Size.t :=
  match p with
  | NanoBanana => Some (nano_banana.getImageSize resolution)
  | Imagen4 => Some (imagen.getImageSize resolution)
  | Flux2 => match flux_size resolution with JS.Own s => Some s | _ => None end
  end.


(** Width and height of the images of a result. *)
Definition dimensions (out : GenerationOutput.t) : list (Z * Z) :=
  map (fun img => (GeneratedImage.width img, GeneratedImage.height img))
      (GenerationOutput.images out).

(** Which client [generateImages] hands the request to, or the error it
    throws itself. *)
Definition selection (env : Env) (selectedModel : string) : Outcome Provider :=
  if String.eqb selectedModel "auto" then
    if isNanoBananaAvailable env then Return NanoBanana
    else if isImagen4Available env then Return Imagen4
    else Return Flux2
  else if String.eqb selectedModel "nano-banana" then
    if negb (isNanoBananaAvailable env) then
      Throw "Nano Banana Pro is not configured. Please set FAL_KEY."
    else Return NanoBanana
  else if String.eqb selectedModel "imagen4" then
    if negb (isImagen4Available env) then
      Throw "Imagen 4 is not configured. Please set GOOGLE_CLOUD_PROJECT_ID and GOOGLE_APPLICATION_CREDENTIALS."
    else Return Imagen4
  else if String.eqb selectedModel "flux2" then Return Flux2
  else Return NanoBanana.

(** The enum-keyed tables read by [buildPrompt], each with the closed enum
    that types its key. *)
Definition lookupTables : list (list (string * string) * list string) :=
  [ (buildingTypeMap, BuildingType); (timeMap, TimeOfDay); (seasonMap, Season);
    (cameraMap, CameraAngle); (MATERIAL_NAMES, WallMaterial); (ROOF_NAMES, RoofType) ].

(** One generic phrase is printed for every key outside the enum. *)
Definition has_fallback_phrase (tbl : list (string * string)) (enum : list string) : Prop :=
  exists phrase : string,
    forall key, ~ In key enum -> JS.interpolate (JS.get tbl key) = phrase.

(** ** Sample requests, environments and worlds *)

(** The scenario of the specification: a two-storey Scandinavian house. *)
Definition exampleRequest : GenerationRequest Z :=
  {| buildingType := "house"; floors := 2%Z; totalArea := 120%Z; landArea := 200%Z;
     landShape := "rectangle"; style := "scandinavian";
     materials := {| wall := "wood"; roof := "gable" |};
     colors := {| primary := "#F5F5F0"; secondary := "#5C4033"; accent := "#E07B39" |};
     environment := {| timeOfDay := "morning"; season := "spring" |};
     camera := {| angle := "front" |};
     options := {| count := 1%Z; resolution := "hd"; model := "auto" |} |}.

Definition withStyle (s : string) (r : GenerationRequest Z) : GenerationRequest Z :=
  {| buildingType := buildingType r; floors := floors r; totalArea := totalArea r;
     landArea := landArea r; landShape := landShape r; style := s;
     materials := materials r; colors := colors r; environment := environment r;
     camera := camera r; options := options r |}.

Definition withBuildingType (b : string) (r : GenerationRequest Z) : GenerationRequest Z :=
  {| buildingType := b; floors := floors r; totalArea := totalArea r;
     landArea := landArea r; landShape := landShape r; style := style r;
     materials := materials r; colors := colors r; environment := environment r;
     camera := camera r; options := options r |}.

Definition withOptions (o : Options) (r : GenerationRequest Z) : GenerationRequest Z :=
  {| buildingType := buildingType r; floors := floors r; totalArea := totalArea r;
     landArea := landArea r; landShape := landShape r; style := style r;
     materials := materials r; colors := colors r; environment := environment r;
     camera := camera r; options := o |}.

(** The scenario, asking for Imagen 4 by name, for the "gemini" alias, and
    with a building type and a style outside their enums. *)
Definition imagenRequest : GenerationRequest Z :=
  withOptions {| count := 4%Z; resolution := "4k"; model := "imagen4" |} exampleRequest.

Definition geminiRequest : GenerationRequest Z :=
  withOptions {| count := 1%Z; resolution := "sd"; model := "gemini" |} exampleRequest.

Definition castleRequest : GenerationRequest Z := withBuildingType "castle" exampleRequest.

Definition brutalistRequest : GenerationRequest Z := withStyle "brutalist" exampleRequest.

Definition nothingConfigured : Env :=
  {| FAL_KEY := None; GOOGLE_CLOUD_PROJECT_ID := None;
     GOOGLE_APPLICATION_CREDENTIALS := None |}.

(** Only the second-priority provider, Imagen 4, is configured. *)
Definition googleOnly : Env :=
  {| FAL_KEY := None; GOOGLE_CLOUD_PROJECT_ID := Some "render-ai-dev";
     GOOGLE_APPLICATION_CREDENTIALS := Some "/secrets/service-account.json" |}.

Definition falOnly : Env :=
  {| FAL_KEY := Some "fal-secret"; GOOGLE_CLOUD_PROJECT_ID := None;
     GOOGLE_APPLICATION_CREDENTIALS := None |}.

Definition allConfigured : Env :=
  {| FAL_KEY := Some "fal-secret"; GOOGLE_CLOUD_PROJECT_ID := Some "render-ai-dev";
     GOOGLE_APPLICATION_CREDENTIALS := Some "/secrets/service-account.json" |}.

Definition responseOk {A} (body : A) : Outcome (Response A) :=
  Return {| ok := true; status := 200%Z; statusText := "OK";
            text := Return ""; json := Return body |}.

Definition response503 {A} : Outcome (Response A) :=
  Return {| ok := false; status := 503%Z; statusText := "Service Unavailable";
            text := Return "overloaded"; json := Throw "Unexpected token" |}.

(** Every provider answers with one image; fal.ai's flux endpoint returns
    the dimensions it was asked for, nano-banana leaves them out. *)
Definition cooperativeWorld : World :=
  {| now := fun k => (1000 + 250 * Z.of_nat k)%Z;
     random_seed := 424242%Z;
     answerNanoBanana := fun _ _ =>
       responseOk {| NanoBananaOutput.images :=
                       [ {| NanoBananaOutput.url := "https://fal.media/files/nb.jpg";
                            NanoBananaOutput.width := None;
                            NanoBananaOutput.height := None |} ] |};
     answerFlux := fun _ body =>
       responseOk {| FalResponse.images :=
                       [ {| FalResponse.url := "https://fal.media/files/flux.jpg";
                            FalResponse.width :=
                              match FluxInput.image_width body with Some v => v | None => 0%Z end;
                            FalResponse.height :=
                              match FluxInput.image_height body with Some v => v | None => 0%Z end |} ] |};
     answerImagen := fun _ _ _ =>
       responseOk {| ImagenResponse.predictions :=
                       [ {| ImagenResponse.bytesBase64Encoded := "iVBORw0KGgo=";
                            ImagenResponse.mimeType := "image/png" |} ] |};
     googleAccessToken := Return (Some "ya29.token") |}.

(** Every provider is overloaded. *)
Definition overloadedWorld : World :=
  {| now := fun k => (1000 + 250 * Z.of_nat k)%Z;
     random_seed := 424242%Z;
     answerNanoBanana := fun _ _ => response503;
     answerFlux := fun _ _ => response503;
     answerImagen := fun _ _ _ => response503;
     googleAccessToken := Return (Some "ya29.token") |}.

(** ** Further vocabulary: the outside world's behaviour *)

(** Client [p] has what it needs to reach its provider: the fal.ai key, or
    for Imagen 4 the project, the credentials path and a token from Google. *)
Definition ready (env : Env) (w : World) (p : Provider) : Prop :=
  match p with
  | NanoBanana | Flux2 => JS.truthy (FAL_KEY env) = true
  | Imagen4 =>
      isImagen4Available env = true /\
      exists token, googleAccessToken w = Return (Some token) /\ token <> ""
  end.

(** The provider of [p] cannot be reached: [fetch] rejects with [message]. *)
Definition unreachable (w : World) (p : Provider) (message : string) : Prop :=
  match p with
  | NanoBanana => forall auth body, answerNanoBanana w auth body = Throw message
  | Flux2 => forall auth body, answerFlux w auth body = Throw message
  | Imagen4 => forall url auth body, answerImagen w url auth body = Throw message
  end.

(** The provider of [p] answers every call with the HTTP error [code]
    [reason] and the body text [body]. *)
Definition answersError (w : World) (p : Provider) (code : Z) (reason body : string) : Prop :=
  match p with
  | NanoBanana =>
      exists resp, (forall auth input, answerNanoBanana w auth input = Return resp) /\
        ok resp = false /\ status resp = code /\ statusText resp = reason /\
        text resp = Return body
  | Flux2 =>
      exists resp, (forall auth input, answerFlux w auth input = Return resp) /\
        ok resp = false /\ status resp = code /\ statusText resp = reason /\
        text resp = Return body
  | Imagen4 =>
      exists resp, (forall url auth input, answerImagen w url auth input = Return resp) /\
        ok resp = false /\ status resp = code /\ statusText resp = reason /\
        text resp = Return body
  end.

(** The provider of [p] answers every call with a success status and a body
    that is not the JSON the client expects: [response.json()] rejects. *)
Definition answersGarbage (w : World) (p : Provider) (message : string) : Prop :=
  match p with
  | NanoBanana =>
      exists resp, (forall auth input, answerNanoBanana w auth input = Return resp) /\
        ok resp = true /\ json resp = Throw message
  | Flux2 =>
      exists resp, (forall auth input, answerFlux w auth input = Return resp) /\
        ok resp = true /\ json resp = Throw message
  | Imagen4 =>
      exists resp, (forall url auth input, answerImagen w url auth input = Return resp) /\
        ok resp = true /\ json resp = Throw message
  end.

(** The error a client throws for an HTTP error status. *)
Definition apiErrorMessage (p : Provider) (code : Z) (reason body : string) : string :=
  match p with
  | NanoBanana => "Nano Banana Pro API error: " ++ JS.Z_toString code ++ " - " ++ body
  | Flux2 => "FLUX API error: " ++ JS.Z_toString code ++ " - " ++ body
  | Imagen4 => "Imagen 4 API error: " ++ JS.Z_toString code ++ " " ++ reason
  end.

(** The receiver of a credential: the endpoint and the [Authorization]
    header of a generation call are those of the provider it goes to, built
    from that provider's own settings. *)
Definition credentialsAtHome (env : Env) (w : World) (req : HttpRequest) : Prop :=
  match req with
  | PostNanoBanana url auth _ =>
      url = nano_banana.FAL_API_URL /\
      exists key, FAL_KEY env = Some key /\ key <> "" /\ auth = "Key " ++ key
  | PostFlux url auth _ =>
      url = flux.FAL_API_URL /\
      exists key, FAL_KEY env = Some key /\ key <> "" /\ auth = "Key " ++ key
  | PostImagen url auth _ =>
      (exists projectId,
         GOOGLE_CLOUD_PROJECT_ID env = Some projectId /\ projectId <> "" /\
         url = imagen.VERTEX_AI_ENDPOINT ++ "/v1/projects/" ++ projectId ++
               "/locations/us-central1/publishers/google/models/" ++
               imagen.MODEL_ID ++ ":predict") /\
      exists token,
        googleAccessToken w = Return (Some token) /\ token <> "" /\
        auth = "Bearer " ++ token
  end.

(** Any network activity: a generation call or a token request. *)
Definition contactsNetwork (evs : list Event) : bool :=
  existsb (fun e => match e with Fetch _ | TokenRequest => true | _ => false end) evs.

(** The flag [getAvailableModels] shows for a model id. *)
Definition listedAvailable (env : Env) (id : string) : option bool :=
  option_map ModelInfo.available
    (find (fun m => String.eqb (ModelInfo.id m) id) (getAvailableModels env)).

(** ** The API route ([src/app/api/generate/route.ts])

    The comparisons of a JSON number with the integer literals of the schema
    are kept abstract, like the numbers themselves: [n >= k], [n <= k] and
    [n === k]. *)

Variable Number_ge : number -> Z -> bool.
Variable Number_le : number -> Z -> bool.
Variable Number_is : number -> Z -> bool.

(** The number denoted by an integer literal, and by [parseInt] on the
    numeral of an integer. *)
Variable Number_of : Z -> number.

Definition integer_literals : Prop :=
  forall a b : Z,
    Number_is (Number_of a) b = (a =? b) /\
    Number_ge (Number_of a) b = (b <=? a) /\
    Number_le (Number_of a) b = (a <=? b).

(** [value[key]] on a parsed JSON value; none of the keys of the schema is a
    member of [Object.prototype]. *)
Definition property (value : Json number) (key : string) : option (Json number) :=
  match value with
  | JObject properties => JS.own properties key
  | _ => None
  end.

(** zod's [z.enum(values)], [z.string()], [z.number().min(lo).max(hi)] and
    [z.union([z.literal(1), z.literal(4)])] on a property that may be
    missing; [None] stands for a validation issue. *)
Definition z_enum (values : list string) (value : option (Json number)) : option string :=
  match value with
  | Some (JString s) => if existsb (String.eqb s) values then Some s else None
  | _ => None
  end.

Definition z_string (value : option (Json number)) : option string :=
  match value with
  | Some (JString s) => Some s
  | _ => None
  end.

Definition z_number_min_max (lo hi : Z) (value : option (Json number)) : option number :=
  match value with
  | Some (JNumber n) => if Number_ge n lo && Number_le n hi then Some n else None
  | _ => None
  end.

Definition z_literal_1_or_4 (value : option (Json number)) : option Z :=
  match value with
  | Some (JNumber n) =>
      if Number_is n 1 then Some 1
      else if Number_is n 4 then Some 4
      else None
  | _ => None
  end.

(** [z.object({...})]: the value must be an object; its properties outside
    the schema are dropped. *)
Definition z_object {A} (value : option (Json number))
    (shape : Json number -> option A) : option A :=
  match value with
  | Some (JObject properties) => shape (JObject properties)
  | _ => None
  end.

Notation "'valid' x <- e ; k" :=
  (match e with Some x => k | None => None end)
  (at level 10, x name, e at level 100, k at level 200, only parsing).

(** [GenerationSchema.safeParse(body)]: the validated data, or [None] when
    validation fails.  The enum lists of the schema are those of
    [src/types/generation.ts], value for value. *)
Definition GenerationSchema_safeParse (body : Json number) : option (GenerationRequest number) :=
  z_object (Some body) (fun body =>
    valid buildingType <- z_enum ["house"; "apartment"; "building"; "shop"]
                                 (property body "buildingType");
    valid floors <- z_number_min_max 1 10 (property body "floors");
    valid totalArea <- z_number_min_max 50 1000 (property body "totalArea");
    valid landArea <- z_number_min_max 50 2000 (property body "landArea");
    valid landShape <- z_enum ["rectangle"; "square"; "L-shape"; "flag"; "irregular"]
                              (property body "landShape");
    valid style <- z_enum ["modern_minimal"; "japanese_modern"; "scandinavian";
                           "industrial"; "luxury"; "mediterranean"; "american"]
                          (property body "style");
    valid materials <- z_object (property body "materials") (fun materials =>
      valid wall <- z_enum ["siding"; "concrete"; "tile"; "wood"; "metal"; "stucco"]
                           (property materials "wall");
      valid roof <- z_enum ["flat"; "gable"; "hip"; "shed"; "gambrel"]
                           (property materials "roof");
      Some {| wall := wall; roof := roof |});
    valid colors <- z_object (property body "colors") (fun colors =>
      valid primary <- z_string (property colors "primary");
      valid secondary <- z_string (property colors "secondary");
      valid accent <- z_string (property colors "accent");
      Some {| primary := primary; secondary := secondary; accent := accent |});
    valid environment <- z_object (property body "environment") (fun environment =>
      valid timeOfDay <- z_enum ["morning"; "noon"; "evening"; "night"]
                                (property environment "timeOfDay");
      valid season <- z_enum ["spring"; "summer"; "autumn"; "winter"]
                             (property environment "season");
      Some {| timeOfDay := timeOfDay; season := season |});
    valid camera <- z_object (property body "camera") (fun camera =>
      valid angle <- z_enum ["front"; "angle45"; "aerial"; "birdseye"; "closeup"; "distant"]
                            (property camera "angle");
      Some {| angle := angle |});
    valid options <- z_object (property body "options") (fun options =>
      valid count <- z_literal_1_or_4 (property options "count");
      valid resolution <- z_enum ["sd"; "hd"; "4k"] (property options "resolution");
      valid model <- z_enum ["auto"; "imagen4"; "flux2"; "gemini"; "nano-banana"]
                            (property options "model");
      Some {| count := count; resolution := resolution; model := model |});
    Some {| buildingType := buildingType; floors := floors; totalArea := totalArea;
            landArea := landArea; landShape := landShape; style := style;
            materials := materials; colors := colors; environment := environment;
            camera := camera; options := options |}).

(** The [POST] handler.  [requestJson] is the promise of [request.json()];
    [new Date()] reads the clock like [Date.now()]. *)
Definition POST (env : Env) (w : World) (platform : Platform)
    (requestJson : Outcome (Json number)) : Async (NextResponse.t number) :=
  try_catch
    (body <- await requestJson ;;
     match GenerationSchema_safeParse body with
     | None =>
         ret {| NextResponse.status := 400;
                NextResponse.body := ValidationError "Invalid request parameters" |}
     | Some generationRequest =>
         result <- generateImages env w generationRequest ;;
         date <- Date_now w ;;
         let generationResult :=
           {| GenerationResult.id := randomUUID platform;
              GenerationResult.userId := "anonymous";
              GenerationResult.status := "completed";
              GenerationResult.prompt := GenerationOutput.prompt result;
              GenerationResult.parameters := generationRequest;
              GenerationResult.images := GenerationOutput.images result;
              GenerationResult.modelUsed := GenerationOutput.model result;
              GenerationResult.generationTimeMs := GenerationOutput.timeMs result;
              GenerationResult.errorMessage := None;
              GenerationResult.isFavorite := false;
              GenerationResult.createdAt := toISOString platform date |} in
         ret {| NextResponse.status := 200;
                NextResponse.body := Generated generationResult |}
     end)
    (fun errorMessage =>
       emit (ConsoleError "Generation error:" errorMessage) ;;
       ret {| NextResponse.status := 500;
              NextResponse.body := GenerationError "Generation failed" errorMessage |}).

(** The numeric bounds of the schema. *)
Definition within_bounds (request : GenerationRequest number) : Prop :=
  Number_ge (floors request) 1 = true /\ Number_le (floors request) 10 = true /\
  Number_ge (totalArea request) 50 = true /\ Number_le (totalArea request) 1000 = true /\
  Number_ge (landArea request) 50 = true /\ Number_le (landArea request) 2000 = true.

(** [JSON.parse(JSON.stringify(request))]: the body a client sends for a
    request object. *)
Definition toJson (request : GenerationRequest number) : Json number :=
  JObject
    [ ("buildingType", JString (buildingType request));
      ("floors", JNumber (floors request));
      ("totalArea", JNumber (totalArea request));
      ("landArea", JNumber (landArea request));
      ("landShape", JString (landShape request));
      ("style", JString (style request));
      ("materials", JObject
         [ ("wall", JString (wall (materials request)));
           ("roof", JString (roof (materials request))) ]);
      ("colors", JObject
         [ ("primary", JString (primary (colors request)));
           ("secondary", JString (secondary (colors request)));
           ("accent", JString (accent (colors request))) ]);
      ("environment", JObject
         [ ("timeOfDay", JString (timeOfDay (environment request)));
           ("season", JString (season (environment request))) ]);
      ("camera", JObject [ ("angle", JString (angle (camera request))) ]);
      ("options", JObject
         [ ("count", JNumber (Number_of (count (options request))));
           ("resolution", JString (resolution (options request)));
           ("model", JString (model (options request))) ]) ].

(** ** The form ([GenerateForm], the fourth file of [src/types/database.ts]) *)

Definition defaultValues : FormData.t number :=
  {| FormData.buildingType := "house";
     FormData.floors := Number_of 2;
     FormData.totalArea := Number_of 120;
     FormData.landArea := Number_of 150;
     FormData.landShape := "rectangle";
     FormData.style := "modern_minimal";
     FormData.wallMaterial := "concrete";
     FormData.roofType := "flat";
     FormData.primaryColor := "#FFFFFF";
     FormData.secondaryColor := "#2C2C2C";
     FormData.accentColor := "#4A90D9";
     FormData.timeOfDay := "noon";
     FormData.season := "summer";
     FormData.cameraAngle := "angle45";
     FormData.count := 4;
     FormData.resolution := "hd" |}.

(** [formSchema], run by [zodResolver] before [onSubmit] is called: enums
    for five fields, ranges for three numbers, any string or number for the
    rest. *)
Definition formSchema_accepts (data : FormData.t number) : bool :=
  existsb (String.eqb (FormData.buildingType data)) ["house"; "apartment"; "building"; "shop"] &&
  (Number_ge (FormData.floors data) 1 && Number_le (FormData.floors data) 10) &&
  (Number_ge (FormData.totalArea data) 50 && Number_le (FormData.totalArea data) 1000) &&
  (Number_ge (FormData.landArea data) 50 && Number_le (FormData.landArea data) 2000) &&
  existsb (String.eqb (FormData.landShape data))
          ["rectangle"; "square"; "L-shape"; "flag"; "irregular"] &&
  existsb (String.eqb (FormData.timeOfDay data)) ["morning"; "noon"; "evening"; "night"] &&
  existsb (String.eqb (FormData.season data)) ["spring"; "summer"; "autumn"; "winter"] &&
  existsb (String.eqb (FormData.resolution data)) ["sd"; "hd"; "4k"].

(** The request that [onSubmit] builds. *)
Definition onSubmit_request (data : FormData.t number) : GenerationRequest number :=
  {| buildingType := FormData.buildingType data;
     floors := FormData.floors data;
     totalArea := FormData.totalArea data;
     landArea := FormData.landArea data;
     landShape := FormData.landShape data;
     style := FormData.style data;
     materials := {| wall := FormData.wallMaterial data; roof := FormData.roofType data |};
     colors := {| primary := FormData.primaryColor data;
                  secondary := FormData.secondaryColor data;
                  accent := FormData.accentColor data |};
     environment := {| timeOfDay := FormData.timeOfDay data; season := FormData.season data |};
     camera := {| angle := FormData.cameraAngle data |};
     options := {| count := FormData.count data;
                   resolution := FormData.resolution data;
                   model := "auto" |} |}.

(** [errorData.message || 'Generation failed'] on the body of a response
    that is not ok. *)
Definition errorData_message (body : RouteBody number) : string :=
  match body with
  | GenerationError _ message => JS.or_else (Some message) "Generation failed"
  | _ => "Generation failed"
  end.

(** [fetch] as the browser gives it to the form: a computation that may
    make the server work and settles with a response or a rejection. *)
Definition BrowserFetch : Type :=
  string -> RequestInit number -> Async (Settled (FormResponse number)).

(** The call that [onSubmit] makes for a request. *)
Definition onSubmit_init (request : GenerationRequest number) : RequestInit number :=
  {| init_method := "POST";
     init_contentType := "application/json";
     init_body := toJson request |}.

(** [onSubmit].  Inside [try], [fetch] may reject, [response.json()] may
    reject, and a response that is not ok makes the form throw an [Error] of
    its own; [catch] turns whatever was thrown into the message shown.  A
    computation of the model that throws stands for a rejection with an
    [Error].  [onGenerated] is the page's [handleGenerated], which only sets
    state; the loading flag that is set around the call is not
    represented. *)
Definition onSubmit (fetch : BrowserFetch) (data : FormData.t number) : Async (FormEffect number) :=
  let request := onSubmit_request data in
  try_catch
    (settled <- fetch "/api/generate" (onSubmit_init request) ;;
     match settled with
     | Rejected err => ret (SetError (caught err))
     | Fulfilled response =>
         match response_json response with
         | Rejected err => ret (SetError (caught err))
         | Fulfilled body =>
             if negb (response_ok response)
             then ret (SetError (caught (ErrorObject (errorData_message body))))
             else ret (OnGenerated body)
         end
     end)
    (fun message => ret (SetError message)).

(** The answer of [fetch] when the request reaches the [POST] handler of
    this application and the handler's response comes back: [response.ok]
    is a status from 200 to 299, and the body parses to what the handler
    sent. *)
Definition handlerAnswer (env : Env) (w : World) (platform : Platform)
    (init : RequestInit number) : Async (Settled (FormResponse number)) :=
  response <- POST env w platform (Return (init_body init)) ;;
  ret (Fulfilled
         {| response_ok := (200 <=? NextResponse.status response) &&
                           (NextResponse.status response <=? 299);
            response_json := Fulfilled (NextResponse.body response) |}).

Definition reachesHandler (fetch : BrowserFetch) (env : Env) (w : World) (platform : Platform) : Prop :=
  forall init t,
    init_method init = "POST" ->
    fetch "/api/generate" init t = handlerAnswer env w platform init t.

(** [handleStyleChange(styleId)] on the values of the form. *)
Definition handleStyleChange (styleId : string) (data : FormData.t number) : FormData.t number :=
  match findStyle styleId with
  | Some preset =>
      {| FormData.buildingType := FormData.buildingType data;
         FormData.floors := FormData.floors data;
         FormData.totalArea := FormData.totalArea data;
         FormData.landArea := FormData.landArea data;
         FormData.landShape := FormData.landShape data;
         FormData.style := styleId;
         FormData.wallMaterial :=
           match StylePreset.materials preset with
           | first :: _ => first
           | [] => FormData.wallMaterial data
           end;
         FormData.roofType := FormData.roofType data;
         FormData.primaryColor := primary (StylePreset.colors preset);
         FormData.secondaryColor := secondary (StylePreset.colors preset);
         FormData.accentColor := accent (StylePreset.colors preset);
         FormData.timeOfDay := FormData.timeOfDay data;
         FormData.season := FormData.season data;
         FormData.cameraAngle := FormData.cameraAngle data;
         FormData.count := FormData.count data;
         FormData.resolution := FormData.resolution data |}
  | None => data
  end.

(** The handler of each widget: [form.setValue(field, value)], with
    [parseInt] for the two numeric selects, [handleStyleChange] for the style
    buttons and the registered input for the colour fields. *)
Definition act (data : FormData.t number) (action : FormAction) : FormData.t number :=
  match action with
  | PressStyle styleId => handleStyleChange styleId data
  | _ =>
      {| FormData.buildingType :=
           match action with SelectBuildingType v => v | _ => FormData.buildingType data end;
         FormData.floors :=
           match action with SelectFloors v => Number_of v | _ => FormData.floors data end;
         FormData.totalArea :=
           match action with SlideTotalArea v => Number_of v | _ => FormData.totalArea data end;
         FormData.landArea :=
           match action with SlideLandArea v => Number_of v | _ => FormData.landArea data end;
         FormData.landShape :=
           match action with SelectLandShape v => v | _ => FormData.landShape data end;
         FormData.style := FormData.style data;
         FormData.wallMaterial :=
           match action with SelectWallMaterial v => v | _ => FormData.wallMaterial data end;
         FormData.roofType :=
           match action with SelectRoofType v => v | _ => FormData.roofType data end;
         FormData.primaryColor :=
           match action with TypePrimaryColor v => v | _ => FormData.primaryColor data end;
         FormData.secondaryColor :=
           match action with TypeSecondaryColor v => v | _ => FormData.secondaryColor data end;
         FormData.accentColor :=
           match action with TypeAccentColor v => v | _ => FormData.accentColor data end;
         FormData.timeOfDay :=
           match action with SelectTimeOfDay v => v | _ => FormData.timeOfDay data end;
         FormData.season :=
           match action with SelectSeason v => v | _ => FormData.season data end;
         FormData.cameraAngle :=
           match action with SelectCameraAngle v => v | _ => FormData.cameraAngle data end;
         FormData.count :=
           match action with SelectCount v => v | _ => FormData.count data end;
         FormData.resolution :=
           match action with SelectResolution v => v | _ => FormData.resolution data end |}
  end.

(** The values a form holds after a sequence of actions on a fresh form. *)
Definition formAfter (actions : list FormAction) : FormData.t number :=
  fold_left act actions defaultValues.

(** Values that the widgets can produce: every enum field holds an item of
    its select, the numbers are integers of the select or the slider. *)
Definition selectable (data : FormData.t number) : Prop :=
  In (FormData.buildingType data) BuildingType /\
  (exists n, FormData.floors data = Number_of n /\ 1 <= n <= 5) /\
  (exists v, FormData.totalArea data = Number_of v /\ 50 <= v <= 500) /\
  (exists v, FormData.landArea data = Number_of v /\ 50 <= v <= 500) /\
  In (FormData.landShape data) LandShape /\
  In (FormData.style data) ArchitecturalStyle /\
  In (FormData.wallMaterial data) WallMaterial /\
  In (FormData.roofType data) RoofType /\
  In (FormData.timeOfDay data) TimeOfDay /\
  In (FormData.season data) Season /\
  In (FormData.cameraAngle data) CameraAngle /\
  In (FormData.resolution data) Resolution /\
  (FormData.count data = 1 \/ FormData.count data = 4).

(** The values that no style button touches. *)
Definition besidesStyle (data : FormData.t number) :=
  (FormData.buildingType data, FormData.floors data, FormData.totalArea data,
   FormData.landArea data, FormData.landShape data, FormData.roofType data,
   FormData.timeOfDay data, FormData.season data, FormData.cameraAngle data,
   FormData.count data, FormData.resolution data).

(** ** Further samples *)

(** No provider can be reached. *)
Definition unreachableWorld : World :=
  {| now := fun k => (1000 + 250 * Z.of_nat k)%Z;
     random_seed := 424242%Z;
     answerNanoBanana := fun _ _ => Throw "fetch failed";
     answerFlux := fun _ _ => Throw "fetch failed";
     answerImagen := fun _ _ _ => Throw "fetch failed";
     googleAccessToken := Return (Some "ya29.token") |}.

(** The clock is set back between two readings. *)
Definition clockSetBackWorld : World :=
  {| now := fun k => (1000 - 250 * Z.of_nat k)%Z;
     random_seed := random_seed cooperativeWorld;
     answerNanoBanana := answerNanoBanana cooperativeWorld;
     answerFlux := answerFlux cooperativeWorld;
     answerImagen := answerImagen cooperativeWorld;
     googleAccessToken := googleAccessToken cooperativeWorld |}.

(** Google refuses the service account. *)
Definition tokenlessWorld : World :=
  {| now := now cooperativeWorld;
     random_seed := random_seed cooperativeWorld;
     answerNanoBanana := answerNanoBanana cooperativeWorld;
     answerFlux := answerFlux cooperativeWorld;
     answerImagen := answerImagen cooperativeWorld;
     googleAccessToken := Throw "invalid_grant" |}.

Definition samplePlatform : Platform :=
  {| randomUUID := "0b5f4c1e-7a2d-4e0b-9c36-5d1f8a7e2b90";
     toISOString := fun ms => "1970-01-01T00:00:0" ++ JS.Z_toString (ms / 1000) ++ ".000Z" |}.

(** The browser is offline, and a gateway answers 504 with a page that is
    not JSON. *)
Definition offlineFetch {number} : string -> RequestInit number ->
    Async (Settled (FormResponse number)) :=
  fun _ _ => ret (Rejected (ErrorObject "Failed to fetch")).

Definition gatewayFetch {number} : string -> RequestInit number ->
    Async (Settled (FormResponse number)) :=
  fun _ _ =>
    ret (Fulfilled {| response_ok := false;
                      response_json := Rejected (ErrorObject "Unexpected token < in JSON") |}).

(** Numbers taken as integers, for the samples. *)
Definition Z_ge (n k : Z) : bool := k <=? n.
Definition Z_le (n k : Z) : bool := n <=? k.
Definition Z_of (k : Z) : Z := k.

(** A body whose building type is outside the enum. *)
Definition castleBody : Json Z :=
  JObject [ ("buildingType", JString "castle"); ("floors", JNumber 2) ].

(** Storage with and without credentials, a service that accepts
    everything and one that refuses thumbnails. *)
Definition storageConfigured : StorageEnv :=
  {| NEXT_PUBLIC_SUPABASE_URL := Some "https://render-ai.supabase.co";
     SUPABASE_SERVICE_ROLE_KEY := Some "service-role-secret" |}.

Definition storageUnconfigured : StorageEnv :=
  {| NEXT_PUBLIC_SUPABASE_URL := Some "https://render-ai.supabase.co";
     SUPABASE_SERVICE_ROLE_KEY := None |}.

Definition sampleClient : SupabaseClient :=
  {| supabaseUrl := "https://render-ai.supabase.co";
     serviceRoleKey := "service-role-secret";
     autoRefreshToken := false; persistSession := false |}.

Definition acceptingService : Supabase :=
  fun client bucket =>
    {| upload := fun _ _ _ => None;
       getPublicUrl := fun path =>
         supabaseUrl client ++ "/storage/v1/object/public/" ++ bucket ++ "/" ++ path;
       remove := fun _ => Some "permission denied";
       list_files := fun _ => {| data := Some ["0.png"; "0_thumb.png"]; error := None |} |}.

Definition thumbnailRefusingService : Supabase :=
  fun client bucket =>
    {| upload := fun path _ _ =>
         if JS.endsWith "_thumb.png" path then Some "quota exceeded" else None;
       getPublicUrl := getPublicUrl (acceptingService client bucket);
       remove := fun _ => None;
       list_files := fun _ => {| data := None; error := Some "timeout" |} |}.

(** What the user does in the scenario: a three-storey house of 200 square
    metres in the Japanese modern style, one image. *)
Definition sampleActions : list FormAction :=
  [ SelectFloors 3; SlideTotalArea 200; PressStyle "japanese_modern";
    SelectRoofType "gable"; TypeAccentColor "#AA3300"; SelectCount 1 ].

(** Two results for the page: four images and one image. *)
Definition sampleImage (name : string) : GeneratedImage.t :=
  {| GeneratedImage.url := "https://fal.media/files/" ++ name;
     GeneratedImage.thumbnailUrl := "https://fal.media/files/" ++ name;
     GeneratedImage.width := 1920; GeneratedImage.height := 1080 |}.

Definition sampleResult (id : string) (images : list GeneratedImage.t)
    : GenerationResult.t Z :=
  {| GenerationResult.id := id;
     GenerationResult.userId := "anonymous";
     GenerationResult.status := "completed";
     GenerationResult.prompt := "";
     GenerationResult.parameters := exampleRequest;
     GenerationResult.images := images;
     GenerationResult.modelUsed := "nano-banana";
     GenerationResult.generationTimeMs := 250;
     GenerationResult.errorMessage := None;
     GenerationResult.isFavorite := false;
     GenerationResult.createdAt := "2026-01-15T09:30:00.000Z" |}.

Definition fourImages : GenerationResult.t Z :=
  sampleResult "a" [sampleImage "1.jpg"; sampleImage "2.jpg"; sampleImage "3.jpg";
                    sampleImage "4.jpg"].

Definition oneImage : GenerationResult.t Z := sampleResult "b" [sampleImage "5.jpg"].

(** ** Facts about the string primitives *)

Local Close Scope Z_scope.
Local Close Scope async_scope.

Lemma append_assoc (s t u : string) : (s ++ t) ++ u = s ++ t ++ u.
Proof. induction s as [|c s IH]; simpl; [reflexivity | now rewrite IH]. Qed.

Lemma append_nil_r (s : string) : s ++ "" = s.
Proof. induction s as [|c s IH]; simpl; [reflexivity | now rewrite IH]. Qed.

Lemma contains_refl (s : string) : JS.contains s s.
Proof. exists "", "". simpl. now rewrite append_nil_r. Qed.

Lemma contains_here (x t : string) : JS.contains x (x ++ t).
Proof. exists "", t. reflexivity. Qed.

Lemma contains_skip (x s t : string) : JS.contains x t -> JS.contains x (s ++ t).
Proof.
  intros (pre & post & ->). exists (s ++ pre), post.
  now rewrite append_assoc.
Qed.

Lemma contains_trans (a b c : string) :
  JS.contains a b -> JS.contains b c -> JS.contains a c.
Proof.
  intros (p1 & q1 & ->) (p2 & q2 & ->).
  exists (p2 ++ p1), (q1 ++ q2).
  now rewrite !append_assoc.
Qed.

Lemma startsWith_sound (p s : string) :
  JS.startsWith p s = true -> exists post, s = p ++ post.
Proof.
  revert s. induction p as [|a p IH]; intros s H.
  - exists s. reflexivity.
  - destruct s as [|b s]; simpl in H; [discriminate|].
    apply andb_true_iff in H as [Hab Hps].
    apply Ascii.eqb_eq in Hab as ->.
    destruct (IH _ Hps) as [post ->]. exists post. reflexivity.
Qed.

Lemma includes_sound (sub s : string) :
  JS.includes sub s = true -> JS.contains sub s.
Proof.
  induction s as [|c s IH]; simpl; intros H.
  - rewrite orb_false_r in H.
    destruct (startsWith_sound _ _ H) as [post Hp]. exists "", post. exact Hp.
  - apply orb_true_iff in H as [H|H].
    + destruct (startsWith_sound _ _ H) as [post Hp]. exists "", post. exact Hp.
    + apply (contains_skip sub (String c "") s). now apply IH.
Qed.

Lemma trimStart_app (p x : string) :
  JS.trimStart p <> "" -> JS.trimStart (p ++ x) = JS.trimStart p ++ x.
Proof.
  induction p as [|c p IH]; simpl; intros H.
  - now contradiction H.
  - destruct (JS.isWhiteSpace c); [now apply IH | reflexivity].
Qed.

Lemma trimEnd_app (s t : string) :
  JS.trimEnd t <> "" -> JS.trimEnd (s ++ t) = s ++ JS.trimEnd t.
Proof.
  intros H. induction s as [|c s IH]; simpl; [reflexivity|].
  rewrite IH. destruct (s ++ JS.trimEnd t) eqn:E; [|reflexivity].
  destruct s; simpl in E; [now contradiction H | discriminate].
Qed.

Lemma trimEnd_app_nonempty (s t : string) :
  JS.trimEnd t <> "" -> JS.trimEnd (s ++ t) <> "".
Proof.
  intros H. rewrite trimEnd_app by exact H.
  destruct s; simpl; [exact H | discriminate].
Qed.

Lemma or_else_some (s d : string) : s <> "" -> JS.or_else (Some s) d = s.
Proof.
  intros H. unfold JS.or_else.
  destruct (String.eqb_spec s ""); [contradiction | reflexivity].
Qed.

(** The trimmed template, piece by piece: [trim] removes exactly the line
    feed at each end of the template literal. *)
Ltac unfold_prompt :=
  unfold buildPrompt, JS.trim;
  rewrite trimStart_app by (vm_compute; discriminate);
  repeat (rewrite trimEnd_app
            by (repeat apply trimEnd_app_nonempty; vm_compute; discriminate)).

(** A piece of a concatenation occurs in it. *)
Ltac find_piece := repeat first [ apply contains_here | apply contains_skip ].

Ltac split_all := repeat match goal with |- _ /\ _ => split end.

Lemma contains_drop_label (label x s : string) :
  JS.contains (label ++ x) s -> JS.contains x s.
Proof. apply contains_trans, contains_skip, contains_refl. Qed.

(** A piece that occurs in a literal segment of a concatenation. *)
Lemma contains_in_piece (x p t : string) :
  JS.includes x p = true -> JS.contains x (p ++ t).
Proof.
  intros H. destruct (includes_sound _ _ H) as (a & b & ->).
  exists a, (b ++ t). now rewrite !append_assoc.
Qed.

Lemma endsWith_sound (suffix s : string) :
  JS.endsWith suffix s = true -> exists a, s = a ++ suffix.
Proof.
  induction s as [|c s IH]; cbn [JS.endsWith]; intros H.
  - rewrite orb_false_r in H. apply String.eqb_eq in H as <-. now exists "".
  - apply orb_true_iff in H as [H|H].
    + apply String.eqb_eq in H as <-. now exists "".
    + destruct (IH H) as [a ->]. now exists (String c a).
Qed.

(** A value together with the label that ends the segment before it. *)
Lemma contains_labelled (label p x t : string) :
  JS.endsWith label p = true -> JS.contains (label ++ x) (p ++ x ++ t).
Proof.
  intros H. destruct (endsWith_sound _ _ H) as [a ->].
  exists a, t. now rewrite !append_assoc.
Qed.

(** A value between the text before it and the start of the segment after
    it. *)
Lemma contains_enclosed (a x suffix p t : string) :
  JS.startsWith suffix p = true ->
  JS.contains (a ++ x ++ suffix) (a ++ x ++ p ++ t).
Proof.
  intros H. destruct (startsWith_sound _ _ H) as [q ->].
  exists "", (q ++ t). simpl. now rewrite !append_assoc.
Qed.

Lemma contains_span5 (a b c d e t : string) :
  JS.contains (a ++ b ++ c ++ d ++ e) (a ++ b ++ c ++ d ++ e ++ t).
Proof. exists "", t. simpl. now rewrite !append_assoc. Qed.

Ltac find_labelled :=
  repeat first [ apply contains_labelled; vm_compute; reflexivity
               | apply contains_skip ].

Ltac find_literal :=
  repeat first [ apply contains_in_piece; vm_compute; reflexivity
               | apply contains_skip
               | apply includes_sound; vm_compute; reflexivity ].

(** ** Facts about the tables *)

Lemma find_id_none (l : list StylePreset.t) (s : string) :
  ~ In s (map StylePreset.id l) ->
  find (fun p => String.eqb (StylePreset.id p) s) l = None.
Proof.
  induction l as [|p l IH]; simpl; intros H; [reflexivity|].
  destruct (String.eqb_spec (StylePreset.id p) s) as [E|E].
  - exfalso. apply H. now left.
  - apply IH. intros Hin. apply H. now right.
Qed.

Lemma findStyle_none (s : string) :
  ~ In s (map StylePreset.id STYLE_PRESETS) -> findStyle s = None.
Proof. apply find_id_none. Qed.

Lemma findStyle_some (p : StylePreset.t) :
  In p STYLE_PRESETS -> findStyle (StylePreset.id p) = Some p.
Proof.
  intros H. repeat (destruct H as [<-|H]; [reflexivity|]). destruct H.
Qed.

Lemma preset_keywords_nonempty (p : StylePreset.t) :
  In p STYLE_PRESETS -> JS.join ", " (StylePreset.keywords p) <> "".
Proof.
  intros H. repeat (destruct H as [<-|H]; [vm_compute; discriminate|]). destruct H.
Qed.

Lemma preset_ids : map StylePreset.id STYLE_PRESETS = ArchitecturalStyle.
Proof. reflexivity. Qed.

Lemma own_none {A} (tbl : list (string * A)) (key : string) :
  ~ In key (map fst tbl) -> JS.own tbl key = None.
Proof.
  induction tbl as [|[k v] tbl IH]; simpl; intros H; [reflexivity|].
  destruct (String.eqb_spec k key) as [E|E].
  - exfalso. apply H. now left.
  - apply IH. intros Hin. apply H. now right.
Qed.

Lemma own_some {A} (tbl : list (string * A)) (key : string) :
  In key (map fst tbl) -> exists v, JS.own tbl key = Some v.
Proof.
  induction tbl as [|[k v] tbl IH]; simpl; intros H; [destruct H|].
  destruct (String.eqb_spec k key) as [E|E]; [now exists v|].
  destruct H as [H|H]; [contradiction | now apply IH].
Qed.

Lemma existsb_eqb_false (key : string) (l : list string) :
  ~ In key l -> existsb (String.eqb key) l = false.
Proof.
  induction l as [|x l IH]; simpl; intros H; [reflexivity|].
  destruct (String.eqb_spec key x) as [E|E].
  - exfalso. apply H. now left.
  - apply IH. intros Hin. apply H. now right.
Qed.

Lemma existsb_eqb_true (key : string) (l : list string) :
  In key l -> existsb (String.eqb key) l = true.
Proof.
  intros H. apply existsb_exists. exists key. split; [exact H | apply String.eqb_refl].
Qed.

Lemma get_own {A} (tbl : list (string * A)) (key : string) :
  In key (map fst tbl) -> exists v, JS.get tbl key = JS.Own v.
Proof.
  intros H. destruct (own_some tbl key H) as [v Hv].
  exists v. unfold JS.get. now rewrite Hv.
Qed.

Lemma get_undefined {A} (tbl : list (string * A)) (key : string) :
  ~ In key (map fst tbl) -> ~ In key JS.Object_prototype ->
  JS.get tbl key = JS.Undefined.
Proof.
  intros H1 H2. unfold JS.get.
  now rewrite (own_none tbl key H1), (existsb_eqb_false key _ H2).
Qed.

Lemma get_inherited {A} (tbl : list (string * A)) (key : string) :
  ~ In key (map fst tbl) -> In key JS.Object_prototype ->
  JS.get tbl key = JS.Inherited key.
Proof.
  intros H1 H2. unfold JS.get.
  now rewrite (own_none tbl key H1), (existsb_eqb_true key _ H2).
Qed.

(** ** The prompt builder *)

(** [trim] removes exactly the line feed at each end of the template
    literal: the prompt is the template between them. *)
Lemma buildPrompt_trimmed (request : GenerationRequest number) :
  let styleName := JS.or_else (option_map StylePreset.name (findStyle (style request))) "Modern" in
  let styleKeywords :=
    JS.or_else (option_map (fun s => JS.join ", " (StylePreset.keywords s))
                  (findStyle (style request))) "" in
  buildPrompt request =
  "Photorealistic architectural exterior rendering of a " ++ styleName ++ " " ++ JS.interpolate (JS.get buildingTypeMap (buildingType request)) ++ ".

BUILDING SPECIFICATIONS:
- Number of floors: " ++ Number_toString (floors request) ++ "
- Total floor area: approximately " ++ Number_toString (totalArea request) ++ " square meters
- Land area: approximately " ++ Number_toString (landArea request) ++ " square meters
- Land shape: " ++ landShape request ++ "

ARCHITECTURAL STYLE:
- Style: " ++ styleName ++ "
- Design characteristics: " ++ styleKeywords ++ "

MATERIALS AND FINISHES:
- Exterior wall: " ++ JS.interpolate (JS.get MATERIAL_NAMES (wall (materials request))) ++ "
- Roof type: " ++ JS.interpolate (JS.get ROOF_NAMES (roof (materials request))) ++ "
- Primary color: " ++ primary (colors request) ++ "
- Secondary color: " ++ secondary (colors request) ++ "
- Accent color: " ++ accent (colors request) ++ "

ENVIRONMENT AND LIGHTING:
- Time of day: " ++ JS.interpolate (JS.get timeMap (timeOfDay (environment request))) ++ "
- Season: " ++ JS.interpolate (JS.get seasonMap (season (environment request))) ++ "
- Weather: clear sky with soft natural shadows

CAMERA AND COMPOSITION:
- View angle: " ++ JS.interpolate (JS.get cameraMap (angle (camera request))) ++ "
- Lens: professional architectural photography, 24mm wide-angle equivalent
- Focus: sharp throughout, architectural photography style

QUALITY REQUIREMENTS:
- Photorealistic quality
- High detail on materials and textures
- Professional architectural visualization
- Natural landscaping with appropriate vegetation
- Realistic shadows and reflections
- Clean, modern presentation".
Proof.
  intros styleName styleKeywords. unfold_prompt. reflexivity.
Qed.

Ltac prompt_pieces :=
  rewrite !buildPrompt_trimmed; cbv zeta.

(** Every request value printed by the template stands after its label. *)
Lemma buildPrompt_lines (r : GenerationRequest number) :
  JS.contains ("- Number of floors: " ++ Number_toString (floors r)) (buildPrompt r) /\
  JS.contains ("- Total floor area: approximately " ++ Number_toString (totalArea r)) (buildPrompt r) /\
  JS.contains ("- Land area: approximately " ++ Number_toString (landArea r)) (buildPrompt r) /\
  JS.contains ("- Land shape: " ++ landShape r) (buildPrompt r) /\
  JS.contains ("- Primary color: " ++ primary (colors r)) (buildPrompt r) /\
  JS.contains ("- Secondary color: " ++ secondary (colors r)) (buildPrompt r) /\
  JS.contains ("- Accent color: " ++ accent (colors r)) (buildPrompt r).
Proof.
  prompt_pieces. repeat split; find_labelled.
Qed.

Lemma buildPrompt_style_lines (r : GenerationRequest number) (p : StylePreset.t) :
  In p STYLE_PRESETS -> style r = StylePreset.id p ->
  JS.contains ("- Style: " ++ StylePreset.name p) (buildPrompt r) /\
  JS.contains ("- Design characteristics: " ++ JS.join ", " (StylePreset.keywords p))
    (buildPrompt r).
Proof.
  intros Hin Hstyle.
  assert (Hname : StylePreset.name p <> "").
  { clear Hstyle. repeat (destruct Hin as [<-|Hin]; [vm_compute; discriminate|]). destruct Hin. }
  prompt_pieces. rewrite Hstyle, (findStyle_some p Hin). simpl option_map.
  rewrite (or_else_some _ _ Hname),
          (or_else_some _ _ (preset_keywords_nonempty p Hin)).
  split; find_labelled.
Qed.

(** The text printed for each enum-keyed lookup stands after its label. *)
Lemma buildPrompt_lookup_lines (r : GenerationRequest number) :
  JS.contains (" " ++ JS.interpolate (JS.get buildingTypeMap (buildingType r)) ++ ".")
    (buildPrompt r) /\
  JS.contains ("- Exterior wall: " ++ JS.interpolate (JS.get MATERIAL_NAMES (wall (materials r))))
    (buildPrompt r) /\
  JS.contains ("- Roof type: " ++ JS.interpolate (JS.get ROOF_NAMES (roof (materials r))))
    (buildPrompt r) /\
  JS.contains ("- Time of day: " ++ JS.interpolate (JS.get timeMap (timeOfDay (environment r))))
    (buildPrompt r) /\
  JS.contains ("- Season: " ++ JS.interpolate (JS.get seasonMap (season (environment r))))
    (buildPrompt r) /\
  JS.contains ("- View angle: " ++ JS.interpolate (JS.get cameraMap (angle (camera r))))
    (buildPrompt r).
Proof.
  prompt_pieces. split.
  - apply contains_skip, contains_skip, contains_enclosed. reflexivity.
  - split_all; find_labelled.
Qed.

Lemma unknown_style_opening (r : GenerationRequest number) :
  findStyle (style r) = None ->
  JS.startsWith "Photorealistic architectural exterior rendering of a Modern "
    (buildPrompt r) = true.
Proof.
  intros Hnone. prompt_pieces. rewrite Hnone. reflexivity.
Qed.

(** C6: for every request, the prompt contains the printed floor count, the
    printed total area and the three colour strings verbatim, and for each of
    the seven presets of [STYLE_PRESETS] a request of that style yields a
    prompt containing the preset's keyword list, joined by ", ". *)
Theorem buildPrompt_contains_request_values (r : GenerationRequest number) :
  JS.contains (Number_toString (floors r)) (buildPrompt r) /\
  JS.contains (Number_toString (totalArea r)) (buildPrompt r) /\
  JS.contains (primary (colors r)) (buildPrompt r) /\
  JS.contains (secondary (colors r)) (buildPrompt r) /\
  JS.contains (accent (colors r)) (buildPrompt r) /\
  length STYLE_PRESETS = 7 /\
  map StylePreset.id STYLE_PRESETS = ArchitecturalStyle /\
  (forall p, In p STYLE_PRESETS -> style r = StylePreset.id p ->
     JS.contains (JS.join ", " (StylePreset.keywords p)) (buildPrompt r)).
Proof.
  destruct (buildPrompt_lines r) as (Hf & Ha & _ & _ & Hp & Hs & Hc).
  split_all; try reflexivity; try (eapply contains_drop_label; eassumption).
  intros p Hin Hstyle.
  destruct (buildPrompt_style_lines r p Hin Hstyle) as [_ Hk].
  eapply contains_drop_label; exact Hk.
Qed.

(** C3: for a style id that no preset of [STYLE_PRESETS] carries, the prompt
    is still built: the name falls back to "Modern", the keyword list to the
    empty string, and all six sections, the style block among them, are
    there. *)
Theorem buildPrompt_unknown_style (r : GenerationRequest number) :
  ~ In (style r) (map StylePreset.id STYLE_PRESETS) ->
  findStyle (style r) = None /\
  JS.startsWith "Photorealistic architectural exterior rendering of a Modern " (buildPrompt r) = true /\
  JS.contains
    (JS.join JS.LF [ "ARCHITECTURAL STYLE:"; "- Style: Modern";
                     "- Design characteristics: "; ""; "MATERIALS AND FINISHES:" ])
    (buildPrompt r) /\
  Forall (fun header => JS.contains header (buildPrompt r))
    [ "BUILDING SPECIFICATIONS:"; "ARCHITECTURAL STYLE:"; "MATERIALS AND FINISHES:";
      "ENVIRONMENT AND LIGHTING:"; "CAMERA AND COMPOSITION:"; "QUALITY REQUIREMENTS:" ].
Proof.
  intros Hunknown. pose proof (findStyle_none _ Hunknown) as Hnone.
  split; [exact Hnone|]. split; [now apply unknown_style_opening|].
  prompt_pieces. rewrite Hnone. simpl option_map. unfold JS.or_else.
  split.
  - repeat first
      [ (eapply contains_trans; [| apply contains_span5 ];
         apply includes_sound; vm_compute; reflexivity)
      | apply contains_skip ].
  - repeat constructor; find_literal.
Qed.

(** C7, as amended: every enum-keyed lookup of [buildPrompt] (building
    type, time of day, season, camera angle, wall material, roof type) is
    defined on every value of its closed enum, so for a well-formed request
    each lookup finds its phrase.  Outside the enum nothing fails: whatever
    the lookup gives is printed after its label; but these six tables have no
    fallback phrase: an unknown key gives [undefined], printed as the text
    "undefined", or a member inherited from [Object.prototype].  Only the
    style ("Modern", in the summary "モダン") and the building-type noun of
    [buildSummary] ("店舗") fall back to a phrase. *)
Theorem lookups_defined_on_enums_undefined_beyond :
  (forall tbl enum, In (tbl, enum) lookupTables ->
     map fst tbl = enum /\
     (forall key, In key enum -> exists phrase, JS.get tbl key = JS.Own phrase) /\
     (forall key, ~ In key enum -> ~ In key JS.Object_prototype ->
        JS.get tbl key = JS.Undefined /\ JS.interpolate (JS.get tbl key) = "undefined") /\
     (forall key, ~ In key enum -> In key JS.Object_prototype ->
        JS.get tbl key = JS.Inherited key)) /\
  (forall r : GenerationRequest number, well_formed r ->
     exists b w f t s c,
       JS.get buildingTypeMap (buildingType r) = JS.Own b /\
       JS.get MATERIAL_NAMES (wall (materials r)) = JS.Own w /\
       JS.get ROOF_NAMES (roof (materials r)) = JS.Own f /\
       JS.get timeMap (timeOfDay (environment r)) = JS.Own t /\
       JS.get seasonMap (season (environment r)) = JS.Own s /\
       JS.get cameraMap (angle (camera r)) = JS.Own c) /\
  (forall r : GenerationRequest number,
     JS.contains (" " ++ JS.interpolate (JS.get buildingTypeMap (buildingType r)) ++ ".")
       (buildPrompt r) /\
     JS.contains ("- Exterior wall: " ++ JS.interpolate (JS.get MATERIAL_NAMES (wall (materials r))))
       (buildPrompt r) /\
     JS.contains ("- Roof type: " ++ JS.interpolate (JS.get ROOF_NAMES (roof (materials r))))
       (buildPrompt r) /\
     JS.contains ("- Time of day: " ++ JS.interpolate (JS.get timeMap (timeOfDay (environment r))))
       (buildPrompt r) /\
     JS.contains ("- Season: " ++ JS.interpolate (JS.get seasonMap (season (environment r))))
       (buildPrompt r) /\
     JS.contains ("- View angle: " ++ JS.interpolate (JS.get cameraMap (angle (camera r))))
       (buildPrompt r)) /\
  (forall r : GenerationRequest number,
     ~ In (buildingType r) BuildingType -> ~ In (buildingType r) JS.Object_prototype ->
     JS.contains " undefined." (buildPrompt r)) /\
  (forall r : GenerationRequest number,
     ~ In (style r) ArchitecturalStyle ->
     JS.startsWith "Photorealistic architectural exterior rendering of a Modern "
       (buildPrompt r) = true /\
     JS.startsWith "モダンスタイルの" (buildSummary r) = true) /\
  (forall r : GenerationRequest number,
     ~ In (buildingType r) BuildingType ->
     JS.contains ("階建て" ++ "店舗" ++ "（延床") (buildSummary r)).
Proof.
  split_all.
  - intros tbl enum Hin.
    assert (Hkeys : map fst tbl = enum).
    { repeat (destruct Hin as [E|Hin]; [inversion E; subst; reflexivity|]). destruct Hin. }
    rewrite <- Hkeys. split_all.
    + reflexivity.
    + intros key Hk. now apply get_own.
    + intros key H1 H2. now rewrite get_undefined.
    + intros key H1 H2. now apply get_inherited.
  - intros r (Hb & _ & _ & Hw & Hr & Ht & Hs & Hc & _).
    destruct (get_own buildingTypeMap _ Hb) as [b Eb].
    destruct (get_own MATERIAL_NAMES _ Hw) as [w Ew].
    destruct (get_own ROOF_NAMES _ Hr) as [f Ef].
    destruct (get_own timeMap _ Ht) as [t Et].
    destruct (get_own seasonMap _ Hs) as [s Es].
    destruct (get_own cameraMap _ Hc) as [c Ec].
    now exists b, w, f, t, s, c.
  - apply buildPrompt_lookup_lines.
  - intros r Hunknown Hproto.
    pose proof (proj1 (buildPrompt_lookup_lines r)) as H.
    now rewrite (get_undefined buildingTypeMap _ Hunknown Hproto) in H.
  - intros r Hunknown. rewrite <- preset_ids in Hunknown.
    pose proof (findStyle_none _ Hunknown) as Hnone.
    split; [now apply unknown_style_opening|].
    unfold buildSummary. now rewrite Hnone.
  - intros r Hunknown. unfold buildSummary.
    assert (Hh : String.eqb (buildingType r) "house" = false).
    { apply String.eqb_neq. intros E. apply Hunknown. rewrite E. simpl. tauto. }
    assert (Ha : String.eqb (buildingType r) "apartment" = false).
    { apply String.eqb_neq. intros E. apply Hunknown. rewrite E. simpl. tauto. }
    assert (Hb : String.eqb (buildingType r) "building" = false).
    { apply String.eqb_neq. intros E. apply Hunknown. rewrite E. simpl. tauto. }
    rewrite Hh, Ha, Hb.
    apply contains_skip, contains_skip, contains_skip.
    exists "", (Number_toString (totalArea r) ++ "㎡）").
    reflexivity.
Qed.

Lemma buildNegativePrompt_constant (u : unit) :
  buildNegativePrompt u =
  "blurry, low quality, distorted, cartoon, anime, illustration, 
sketch, painting, unrealistic, fantasy, floating objects,
people, cars, animals, text overlay, watermark, signature,
unfinished construction, scaffolding, construction equipment,
disproportionate, impossible architecture, physically impossible".
Proof. destruct u. reflexivity. Qed.

(** ** The provider clients *)

Opaque buildPrompt buildNegativePrompt.

Ltac async_unfold :=
  unfold generateWithNanoBanana, generateWithImagen, generateWithFlux,
    getAccessToken, bind, try_catch, emit, throw, ret, await, Date_now.

Ltac async_step :=
  match goal with
  | |- context [match ?x with _ => _ end] =>
      lazymatch x with
      | context [match _ with _ => _ end] => fail
      | _ => destruct x eqn:?
      end
  end.

Ltac async_cases :=
  async_unfold; cbn [events outcome clockReads app negb];
  repeat (async_step; cbn [events outcome clockReads app negb]).

Lemma generateWithNanoBanana_unconfigured env w (r : GenerationRequest number) t :
  JS.truthy (FAL_KEY env) = false ->
  generateWithNanoBanana env w r t =
  {| events := [Enter NanoBanana]; clockReads := t;
     outcome := Throw "FAL_KEY is not configured" |}.
Proof.
  unfold JS.truthy. intros H. async_cases; try reflexivity; discriminate.
Qed.

Lemma generateWithFlux_unconfigured env w (r : GenerationRequest number) t :
  JS.truthy (FAL_KEY env) = false ->
  generateWithFlux env w r t =
  {| events := [Enter Flux2]; clockReads := t;
     outcome := Throw "FAL_KEY is not configured" |}.
Proof.
  unfold JS.truthy. intros H. async_cases; try reflexivity; discriminate.
Qed.

(** What a run of a client looks like, whatever the environment and the
    outside world do: the client is entered once, makes no generation call or
    one, to its own provider and carrying the built prompt, and a fulfilled
    run made that call and names the provider and the prompt. *)
Lemma client_summary p env w (r : GenerationRequest number) t :
  let run := client p env w r t in
  enters (events run) = [p] /\
  (fetches (events run) = [] \/
   exists req, fetches (events run) = [req] /\ target req = p /\
               sentPrompt req = buildPrompt r /\
               (forall n, sentNegativePrompt req = Some n -> n = buildNegativePrompt tt)) /\
  (forall out, outcome run = Return out ->
     GenerationOutput.model out = providerId p /\
     GenerationOutput.prompt out = buildPrompt r /\
     exists req, fetches (events run) = [req]).
Proof.
  destruct p; unfold client; async_cases;
    (split; [reflexivity|]; split;
     [ first [ left; reflexivity
             | right; eexists; split_all; try reflexivity;
               cbn; intros n Hn; now inversion Hn ]
     | intros out Hout; inversion Hout; subst; cbn; split_all; try reflexivity;
       eexists; reflexivity ]).
Qed.





(** ** The dispatcher *)

Lemma generateImages_selection env w (r : GenerationRequest number) :
  generateImages env w r =
  match selection env (model (options r)) with
  | Return p => client p env w r
  | Throw message => throw message
  end.
Proof.
  unfold generateImages, selection.
  repeat match goal with
         | |- context [if ?b then _ else _] => destruct b
         end; reflexivity.
Qed.

Lemma selection_auto env :
  selection env "auto" =
  Return (if isNanoBananaAvailable env then NanoBanana
          else if isImagen4Available env then Imagen4 else Flux2).
Proof.
  unfold selection. cbn.
  destruct (isNanoBananaAvailable env), (isImagen4Available env); reflexivity.
Qed.

Lemma selection_nano_banana env :
  selection env "nano-banana" =
  if negb (isNanoBananaAvailable env)
  then Throw "Nano Banana Pro is not configured. Please set FAL_KEY."
  else Return NanoBanana.
Proof. reflexivity. Qed.

Lemma selection_imagen4 env :
  selection env "imagen4" =
  if negb (isImagen4Available env)
  then Throw "Imagen 4 is not configured. Please set GOOGLE_CLOUD_PROJECT_ID and GOOGLE_APPLICATION_CREDENTIALS."
  else Return Imagen4.
Proof. reflexivity. Qed.

Lemma selection_flux2 env : selection env "flux2" = Return Flux2.
Proof. reflexivity. Qed.

Lemma selection_gemini env : selection env "gemini" = Return NanoBanana.
Proof. reflexivity. Qed.

Lemma providerId_injective p q : providerId p = providerId q -> p = q.
Proof. destruct p, q; cbn; intros H; try reflexivity; discriminate. Qed.

(** Under "auto" the flux client is reached only when [FAL_KEY] is missing,
    where it rejects the call: a fulfilled "auto" run was served by the
    nano-banana or the imagen client. *)
Lemma auto_served_by env w (r : GenerationRequest number) t out :
  model (options r) = "auto" ->
  outcome (generateImages env w r t) = Return out ->
  (isNanoBananaAvailable env = true /\
   generateImages env w r = generateWithNanoBanana env w r /\
   GenerationOutput.model out = "nano-banana") \/
  (isNanoBananaAvailable env = false /\ isImagen4Available env = true /\
   generateImages env w r = generateWithImagen env w r /\
   GenerationOutput.model out = "imagen4").
Proof.
  intros Hauto. rewrite generateImages_selection, Hauto, selection_auto.
  destruct (isNanoBananaAvailable env) eqn:Hnano;
    [| destruct (isImagen4Available env) eqn:Himagen ]; cbn [client]; intros Hout.
  - left. split_all; try reflexivity.
    now destruct (client_summary NanoBanana env w r t) as (_ & _ & Hret);
      destruct (Hret out Hout) as (Hmodel & _).
  - right. split_all; try reflexivity.
    now destruct (client_summary Imagen4 env w r t) as (_ & _ & Hret);
      destruct (Hret out Hout) as (Hmodel & _).
  - rewrite (generateWithFlux_unconfigured env w r t Hnano) in Hout. discriminate.
Qed.

(** C1: under "auto" the dispatcher takes nano-banana when its predicate
    holds, else imagen4 when its predicate holds, else the flux2 client; the
    client taken is the only one entered, every generation call goes to its
    provider, and a fulfilled result names it in [model]. *)
Theorem auto_selection env w (r : GenerationRequest number) t :
  model (options r) = "auto" ->
  let chosen :=
    if isNanoBananaAvailable env then NanoBanana
    else if isImagen4Available env then Imagen4
    else Flux2 in
  let run := generateImages env w r t in
  generateImages env w r = client chosen env w r /\
  enters (events run) = [chosen] /\
  (forall req, In req (fetches (events run)) -> target req = chosen) /\
  (forall out, outcome run = Return out ->
     GenerationOutput.model out = providerId chosen).
Proof.
  intros Hauto chosen run.
  assert (E : generateImages env w r = client chosen env w r).
  { rewrite generateImages_selection, Hauto, selection_auto. reflexivity. }
  subst run. rewrite E.
  destruct (client_summary chosen env w r t) as (Henter & Hfetch & Hout).
  split_all; [reflexivity | exact Henter | | ].
  - intros req Hin. destruct Hfetch as [Hnone | (req' & Hone & Htarget & _)].
    + rewrite Hnone in Hin. destruct Hin.
    + rewrite Hone in Hin. destruct Hin as [<-|[]]. exact Htarget.
  - intros out Hret. now apply Hout.
Qed.

(** C2: a request that names nano-banana, imagen4 or flux2 while that
    provider's availability predicate is false is rejected with an error
    whose message names every setting that is missing; no generation call
    and no token request is made, and no client of another provider is
    entered. *)
Theorem explicit_unavailable_fails p env w (r : GenerationRequest number) t :
  model (options r) = providerId p ->
  availability p env = false ->
  let run := generateImages env w r t in
  exists message,
    outcome run = Throw message /\
    In message
      [ "Nano Banana Pro is not configured. Please set FAL_KEY.";
        "Imagen 4 is not configured. Please set GOOGLE_CLOUD_PROJECT_ID and GOOGLE_APPLICATION_CREDENTIALS.";
        "FAL_KEY is not configured" ] /\
    (exists name read, In (name, read) (settings p) /\ JS.truthy (read env) = false) /\
    (forall name read, In (name, read) (settings p) -> JS.contains name message) /\
    fetches (events run) = [] /\
    ~ In TokenRequest (events run) /\
    (forall q, In q (enters (events run)) -> q = p).
Proof.
  intros Hmodel Hunavailable run. subst run.
  rewrite generateImages_selection, Hmodel.
  destruct p; cbn [availability providerId] in *.
  - (* nano-banana: rejected by the dispatcher *)
    rewrite selection_nano_banana, Hunavailable.
    cbn [negb throw events outcome fetches enters flat_map In].
    eexists. split_all; try reflexivity; try tauto.
    + exists "FAL_KEY", FAL_KEY. split; [now left | exact Hunavailable].
    + intros name read [E|[]]. inversion E; subst.
      apply includes_sound. vm_compute. reflexivity.
  - (* imagen4: rejected by the dispatcher *)
    rewrite selection_imagen4, Hunavailable.
    cbn [negb throw events outcome fetches enters flat_map In].
    eexists. split_all; try reflexivity; try tauto.
    + unfold isImagen4Available in Hunavailable.
      apply andb_false_iff in Hunavailable as [H|H].
      * exists "GOOGLE_CLOUD_PROJECT_ID", GOOGLE_CLOUD_PROJECT_ID. split; [now left | exact H].
      * exists "GOOGLE_APPLICATION_CREDENTIALS", GOOGLE_APPLICATION_CREDENTIALS.
        split; [right; now left | exact H].
    + intros name read [E|[E|[]]]; inversion E; subst;
        apply includes_sound; vm_compute; reflexivity.
  - (* flux2: rejected by the client before it calls the provider *)
    rewrite selection_flux2. cbn [client].
    rewrite (generateWithFlux_unconfigured env w r t Hunavailable).
    cbn [events outcome fetches enters flat_map app In].
    eexists. split_all; try reflexivity; try tauto.
    + exists "FAL_KEY", FAL_KEY. split; [now left | exact Hunavailable].
    + intros name read [E|[]]. inversion E; subst.
      apply includes_sound. vm_compute. reflexivity.
    + intros [H|[]]. discriminate.
    + intros q [<-|[]]. reflexivity.
Qed.

(** C4: whatever the environment and the providers do, one invocation of
    [generateImages] enters at most one provider client and makes at most one
    generation call, which goes to the provider of the client entered; when
    the dispatcher hands the request to a client, that client is the only
    one entered whether its call succeeds or fails, so a failure under "auto"
    is not retried on the next provider. *)
Theorem one_client_one_call env w (r : GenerationRequest number) t :
  let run := generateImages env w r t in
  length (enters (events run)) <= 1 /\
  length (fetches (events run)) <= 1 /\
  (forall req, In req (fetches (events run)) -> enters (events run) = [target req]) /\
  (forall p, selection env (model (options r)) = Return p ->
     enters (events run) = [p] /\
     (forall message, outcome run = Throw message -> enters (events run) = [p])).
Proof.
  intros run. subst run. rewrite generateImages_selection.
  destruct (selection env (model (options r))) as [p|message] eqn:Hsel.
  - destruct (client_summary p env w r t) as (Henter & Hfetch & _).
    rewrite Henter. split_all.
    + cbn. lia.
    + destruct Hfetch as [-> | (req & -> & _)]; cbn; lia.
    + intros req Hin. destruct Hfetch as [Hnone | (req' & Hone & Htarget & _)].
      * rewrite Hnone in Hin. destruct Hin.
      * rewrite Hone in Hin. destruct Hin as [<-|[]]. now rewrite Htarget.
    + intros q Hq. inversion Hq; subst. split; [reflexivity | intros; reflexivity].
  - unfold throw. cbn [events outcome enters fetches flat_map length].
    split_all; [lia | lia | intros req [] | intros p Hp; discriminate].
Qed.

(** C9: a fulfilled result of [generateImages] names in [model] the provider
    whose client was entered and called, one of "nano-banana", "imagen4" and
    "flux2", never "auto" or "gemini"; and a request naming "gemini" runs the
    nano-banana client as it is, with no availability check before it. *)
Theorem result_names_serving_provider env w (r : GenerationRequest number) :
  (forall t out,
     outcome (generateImages env w r t) = Return out ->
     exists p,
       GenerationOutput.model out = providerId p /\
       enters (events (generateImages env w r t)) = [p] /\
       (exists req, fetches (events (generateImages env w r t)) = [req] /\ target req = p) /\
       In (GenerationOutput.model out) ["nano-banana"; "imagen4"; "flux2"] /\
       GenerationOutput.model out <> "auto" /\
       GenerationOutput.model out <> "gemini") /\
  (model (options r) = "gemini" ->
     generateImages env w r = generateWithNanoBanana env w r /\
     forall t out, outcome (generateImages env w r t) = Return out ->
                   GenerationOutput.model out = "nano-banana").
Proof.
  split.
  - intros t out. rewrite generateImages_selection.
    destruct (selection env (model (options r))) as [p|message]; [|discriminate].
    intros Hout.
    destruct (client_summary p env w r t) as (Henter & Hfetch & Hret).
    destruct (Hret out Hout) as (Hmodel & _ & req & Hreq).
    exists p. split_all; try assumption.
    + exists req. split; [exact Hreq|].
      destruct Hfetch as [Hnone | (req' & Hone & Htarget & _)].
      * rewrite Hnone in Hreq. discriminate.
      * rewrite Hone in Hreq. now inversion Hreq; subst.
    + rewrite Hmodel. destruct p; cbn; tauto.
    + rewrite Hmodel. destruct p; discriminate.
    + rewrite Hmodel. destruct p; discriminate.
  - intros Hgemini.
    assert (E : generateImages env w r = generateWithNanoBanana env w r).
    { rewrite generateImages_selection, Hgemini, selection_gemini. reflexivity. }
    split; [exact E|]. intros t out. rewrite E. intros Hout.
    now destruct (client_summary NanoBanana env w r t) as (_ & _ & Hret);
      destruct (Hret out Hout) as (Hmodel & _).
Qed.



(** C8: the prompt is a function of the request alone, and the negative
    prompt is one constant string.  Equal requests give equal prompts; every
    generation call of [generateImages] carries [buildPrompt request] and,
    where the provider takes one, the constant negative prompt, whatever the
    environment, the clock and the providers' answers; and two fulfilled
    runs on the same request return the same prompt. *)
Theorem prompt_deterministic :
  (forall r1 r2 : GenerationRequest number, r1 = r2 -> buildPrompt r1 = buildPrompt r2) /\
  (forall u : unit,
     buildNegativePrompt u =
     JS.join JS.LF
       [ "blurry, low quality, distorted, cartoon, anime, illustration, ";
         "sketch, painting, unrealistic, fantasy, floating objects,";
         "people, cars, animals, text overlay, watermark, signature,";
         "unfinished construction, scaffolding, construction equipment,";
         "disproportionate, impossible architecture, physically impossible" ]) /\
  (forall env w (r : GenerationRequest number) t req,
     In req (fetches (events (generateImages env w r t))) ->
     sentPrompt req = buildPrompt r /\
     (forall n, sentNegativePrompt req = Some n -> n = buildNegativePrompt tt)) /\
  (forall env w t env' w' t' (r : GenerationRequest number) out out',
     outcome (generateImages env w r t) = Return out ->
     outcome (generateImages env' w' r t') = Return out' ->
     GenerationOutput.prompt out = buildPrompt r /\
     GenerationOutput.prompt out = GenerationOutput.prompt out').
Proof.
  split_all.
  - intros r1 r2 ->. reflexivity.
  - intros u. rewrite buildNegativePrompt_constant. reflexivity.
  - intros env w r t req. rewrite generateImages_selection.
    destruct (selection env (model (options r))) as [p|message]; [|intros []].
    destruct (client_summary p env w r t) as (_ & [Hnone | (req' & Hone & _ & Hp & Hn)] & _).
    + rewrite Hnone. intros [].
    + rewrite Hone. intros [<-|[]]. split; assumption.
  - intros env w t env' w' t' r out out'. rewrite !generateImages_selection.
    destruct (selection env (model (options r))) as [p|message]; [|discriminate].
    destruct (selection env' (model (options r))) as [p'|message']; [|discriminate].
    intros Hout Hout'.
    destruct (client_summary p env w r t) as (_ & _ & Hret).
    destruct (client_summary p' env' w' r t') as (_ & _ & Hret').
    destruct (Hret out Hout) as (_ & Hprompt & _).
    destruct (Hret' out' Hout') as (_ & Hprompt' & _).
    split; [exact Hprompt | now rewrite Hprompt, Hprompt'].
Qed.

(** ** More about the provider clients *)

Lemma truthy_some (v : option string) :
  JS.truthy v = true -> exists s, v = Some s /\ String.eqb s "" = false /\ s <> "".
Proof.
  destruct v as [s|]; cbn; [|discriminate].
  destruct (String.eqb_spec s "") as [E|E]; cbn; [discriminate|].
  intros _. exists s. split; [reflexivity|]. split; [|exact E].
  now apply String.eqb_neq.
Qed.

Lemma nonempty_eqb (s : string) : s <> "" -> String.eqb s "" = false.
Proof. intros H. now apply String.eqb_neq. Qed.

Ltac async_simpl := cbn [events outcome clockReads app negb fetches enters flat_map].

(** Rewrite with what is known of the environment and the world, one
    [match] at a time. *)
Ltac async_known :=
  async_unfold; async_simpl;
  repeat (progress
            (repeat match goal with
                    | H : _ |- _ => rewrite H
                    end;
             async_simpl)).

(** X1. When the provider answers with an HTTP error status, the client
    rejects with a message carrying the status code; the fal.ai clients put
    the response body in the message, the Imagen client puts the status text
    there and only logs the body.  One generation call was made. *)
Theorem http_error_is_reported p env w (r : GenerationRequest number) t code reason body :
  ready env w p ->
  answersError w p code reason body ->
  outcome (client p env w r t) = Throw (apiErrorMessage p code reason body) /\
  length (fetches (events (client p env w r t))) = 1 /\
  (p = Imagen4 ->
   In (ConsoleError "Imagen 4 API error:" body) (events (client p env w r t))).
Proof.
  destruct p; cbn [ready answersError client apiErrorMessage].
  - intros Hready (resp & Hanswer & Hok & Hcode & Hreason & Htext).
    destruct (truthy_some _ Hready) as (key & Hkey & Hne & _).
    subst code reason. async_known.
    split_all; try reflexivity. discriminate.
  - intros (Havail & token & Htoken & Hne) (resp & Hanswer & Hok & Hcode & Hreason & Htext).
    unfold isImagen4Available in Havail. apply andb_true_iff in Havail as [Hp Hc].
    destruct (truthy_some _ Hp) as (pid & Hpid & Hpne & _).
    apply nonempty_eqb in Hne.
    subst code reason. async_known.
    split_all; try reflexivity. intros _. cbn. tauto.
  - intros Hready (resp & Hanswer & Hok & Hcode & Hreason & Htext).
    destruct (truthy_some _ Hready) as (key & Hkey & Hne & _).
    subst code reason. async_known.
    split_all; try reflexivity. discriminate.
Qed.

(** X2. A rejection of [fetch] (the provider cannot be reached) and a
    rejection of [response.json()] (a success status with a body that does
    not parse) come out of the client unchanged, after the one generation
    call. *)
Theorem transport_errors_propagate p env w (r : GenerationRequest number) t message :
  ready env w p ->
  unreachable w p message \/ answersGarbage w p message ->
  outcome (client p env w r t) = Throw message /\
  length (fetches (events (client p env w r t))) = 1 /\
  enters (events (client p env w r t)) = [p].
Proof.
  destruct p; cbn [ready unreachable answersGarbage client].
  - intros Hready [Hanswer | (resp & Hanswer & Hok & Hjson)];
      destruct (truthy_some _ Hready) as (key & Hkey & Hne & _);
      async_known; split_all; reflexivity.
  - intros (Havail & token & Htoken & Hne) Hworld.
    unfold isImagen4Available in Havail. apply andb_true_iff in Havail as [Hp Hc].
    destruct (truthy_some _ Hp) as (pid & Hpid & Hpne & _).
    apply nonempty_eqb in Hne.
    destruct Hworld as [Hanswer | (resp & Hanswer & Hok & Hjson)];
      async_known; split_all; reflexivity.
  - intros Hready [Hanswer | (resp & Hanswer & Hok & Hjson)];
      destruct (truthy_some _ Hready) as (key & Hkey & Hne & _);
      async_known; split_all; reflexivity.
Qed.

(** X3. When Google gives no token (the token request rejects, or its
    answer holds no token or an empty one), the Imagen client rejects with
    "Google Cloud authentication failed" whatever the cause, logs the cause,
    and never calls the generation endpoint. *)
Theorem imagen_without_token env w (r : GenerationRequest number) t :
  isImagen4Available env = true ->
  (forall token, googleAccessToken w = Return (Some token) -> token = "") ->
  let run := generateWithImagen env w r t in
  outcome run = Throw "Google Cloud authentication failed" /\
  fetches (events run) = [] /\
  exists cause,
    events run = [Enter Imagen4; TokenRequest;
                  ConsoleError "Failed to get access token:" cause] /\
    (forall message, googleAccessToken w = Throw message -> cause = message) /\
    (forall answer, googleAccessToken w = Return answer ->
                    cause = "Failed to obtain access token").
Proof.
  intros Havail Hnone run. subst run.
  unfold isImagen4Available in Havail. apply andb_true_iff in Havail as [Hp Hc].
  destruct (truthy_some _ Hp) as (pid & Hpid & Hpne & _).
  destruct (googleAccessToken w) as [[token|]|message] eqn:Htoken.
  - rewrite (Hnone token eq_refl) in *. async_known.
    split_all; try reflexivity. eexists. split_all; try reflexivity; discriminate.
  - async_known.
    split_all; try reflexivity. eexists. split_all; try reflexivity; discriminate.
  - async_known.
    split_all; try reflexivity. eexists. split_all; try reflexivity.
    + intros m E. now inversion E.
    + discriminate.
Qed.

(** X4. A fulfilled client run hands on what the provider returned, image
    by image: as many images as the provider gave, whatever count was asked
    for, each with its thumbnail URL equal to its URL; flux2 also reports the
    provider's dimensions, and an Imagen image is the data URL of the
    prediction's MIME type and base64 text. *)
Theorem images_pass_through p env w (r : GenerationRequest number) t out :
  outcome (client p env w r t) = Return out ->
  Forall (fun img => GeneratedImage.thumbnailUrl img = GeneratedImage.url img)
         (GenerationOutput.images out) /\
  match p with
  | NanoBanana =>
      exists auth input resp data,
        answerNanoBanana w auth input = Return resp /\ json resp = Return data /\
        map GeneratedImage.url (GenerationOutput.images out) =
        map NanoBananaOutput.url (NanoBananaOutput.images data)
  | Flux2 =>
      exists auth input resp data,
        answerFlux w auth input = Return resp /\ json resp = Return data /\
        map (fun img => (GeneratedImage.url img, GeneratedImage.width img,
                         GeneratedImage.height img))
            (GenerationOutput.images out) =
        map (fun img => (FalResponse.url img, FalResponse.width img,
                         FalResponse.height img))
            (FalResponse.images data)
  | Imagen4 =>
      exists url auth input resp data,
        answerImagen w url auth input = Return resp /\ json resp = Return data /\
        map GeneratedImage.url (GenerationOutput.images out) =
        map (fun prediction =>
               "data:" ++ ImagenResponse.mimeType prediction ++ ";base64," ++
               ImagenResponse.bytesBase64Encoded prediction)
            (ImagenResponse.predictions data)
  end.
Proof.
  destruct p; unfold client; async_cases; intros H; inversion H; subst; clear H;
    cbn [GenerationOutput.images];
    (split;
     [ apply Forall_forall; intros img Himg;
       apply in_map_iff in Himg as (x & <- & _); reflexivity
     | repeat eexists; try eassumption; rewrite map_map; reflexivity ]).
Qed.

(** X5. A fulfilled run of [generateImages] read the clock exactly twice,
    and [timeMs] is the second reading minus the first, whatever the clock
    does: it is negative exactly when the clock was set back between the two
    readings. *)
Theorem timeMs_is_elapsed env w (r : GenerationRequest number) t out :
  outcome (generateImages env w r t) = Return out ->
  clockReads (generateImages env w r t) = S (S t) /\
  GenerationOutput.timeMs out = (now w (S t) - now w t)%Z /\
  ((GenerationOutput.timeMs out < 0)%Z <-> (now w (S t) < now w t)%Z).
Proof.
  rewrite generateImages_selection.
  destruct (selection env (model (options r))) as [p|message]; [|discriminate].
  destruct p; unfold client; async_cases; intros H; inversion H; subst; clear H;
    cbn [GenerationOutput.timeMs]; split_all; try reflexivity; lia.
Qed.

(** X6. For a resolution outside the three tiers the clients disagree: the
    flux client falls back to its hd pair 1536x1024, the imagen and
    nano-banana clients to their sd pair 1280x720, and nano-banana asks the
    provider for "1K"; for a name that every object inherits, such as
    "constructor", the flux client sends no dimensions at all. *)
Theorem unknown_tier_defaults (tier : string) :
  ~ In tier Resolution ->
  (~ In tier JS.Object_prototype ->
   tierSize Flux2 tier = tierSize Flux2 "hd" /\
   tierSize Flux2 tier = Some {| Size.width := 1536; Size.height := 1024 |}) /\
  (In tier JS.Object_prototype ->
   size_field Size.width (flux_size tier) = None /\
   size_field Size.height (flux_size tier) = None) /\
  tierSize Imagen4 tier = Some {| Size.width := 1280; Size.height := 720 |} /\
  tierSize NanoBanana tier = Some {| Size.width := 1280; Size.height := 720 |} /\
  nano_banana.getResolution tier = "1K".
Proof.
  intros Hunknown.
  assert (Hkeys : ~ In tier (map fst flux.sizeMap)) by exact Hunknown.
  assert (H4k : String.eqb tier "4k" = false).
  { apply String.eqb_neq. intros ->. apply Hunknown. cbn. tauto. }
  assert (Hhd : String.eqb tier "hd" = false).
  { apply String.eqb_neq. intros ->. apply Hunknown. cbn. tauto. }
  split_all.
  - intros Hproto. unfold tierSize, flux_size.
    rewrite (get_undefined _ _ Hkeys Hproto). split; reflexivity.
  - intros Hproto. unfold flux_size.
    rewrite (get_inherited _ _ Hkeys Hproto). split; reflexivity.
  - unfold tierSize, imagen.getImageSize. now rewrite H4k, Hhd.
  - unfold tierSize, nano_banana.getImageSize. now rewrite H4k, Hhd.
  - unfold nano_banana.getResolution. now rewrite H4k, Hhd.
Qed.

(** X7. Whatever the request and the world, a generation call goes to the
    endpoint of its own provider with that provider's credential: the
    fal.ai key only to the two fal.run endpoints, the Google token only to
    the Vertex AI endpoint of the configured project. *)
Theorem credentials_stay_at_home env w (r : GenerationRequest number) t req :
  In req (fetches (events (generateImages env w r t))) ->
  credentialsAtHome env w req.
Proof.
  rewrite generateImages_selection.
  destruct (selection env (model (options r))) as [p|message]; [|intros []].
  destruct p; unfold client; async_cases; cbn [fetches flat_map app In];
    intros H; repeat (destruct H as [<-|H]; [| try contradiction]);
    try contradiction; cbn [credentialsAtHome];
    repeat match goal with
           | H : String.eqb ?s "" = false |- _ => apply String.eqb_neq in H
           end;
    split_all; try reflexivity; repeat eexists; try eassumption; try reflexivity.
Qed.

(** ** The list of models and the connection test *)

(** A client reaches the network exactly when its provider is configured. *)
Lemma client_contacts_network p env w (r : GenerationRequest number) t :
  contactsNetwork (events (client p env w r t)) = availability p env.
Proof.
  destruct p; cbn [client availability];
    unfold isNanoBananaAvailable, isImagen4Available, JS.truthy; async_unfold;
    unfold JS.truthy.
  - destruct (FAL_KEY env) as [key|]; [destruct (String.eqb key "")|];
      async_cases; reflexivity.
  - destruct (GOOGLE_CLOUD_PROJECT_ID env) as [pid|]; [destruct (String.eqb pid "")|];
      (destruct (GOOGLE_APPLICATION_CREDENTIALS env) as [path|];
       [destruct (String.eqb path "")|]);
      async_cases; reflexivity.
  - destruct (FAL_KEY env) as [key|]; [destruct (String.eqb key "")|];
      async_cases; reflexivity.
Qed.

(** X8. [getAvailableModels] lists the five model ids, and for the four
    named models the flag it shows is exact: a request naming the model
    reaches the network (a generation call or a token request) exactly when
    the flag is set.  "auto" is always shown as available, although an "auto"
    request reaches the network only when nano-banana or imagen4 is
    configured. *)
Theorem availability_flags_are_exact env w (r : GenerationRequest number) t :
  map ModelInfo.id (getAvailableModels env) =
    ["auto"; "nano-banana"; "imagen4"; "flux2"; "gemini"] /\
  (In (model (options r)) ["nano-banana"; "imagen4"; "flux2"; "gemini"] ->
   listedAvailable env (model (options r)) =
   Some (contactsNetwork (events (generateImages env w r t)))) /\
  (model (options r) = "auto" ->
   listedAvailable env "auto" = Some true /\
   contactsNetwork (events (generateImages env w r t)) =
   isNanoBananaAvailable env || isImagen4Available env).
Proof.
  split; [reflexivity|]. rewrite generateImages_selection. split.
  - intros [E|[E|[E|[E|[]]]]]; rewrite <- E.
    + rewrite selection_nano_banana.
      change (listedAvailable env "nano-banana") with (Some (isNanoBananaAvailable env)).
      destruct (isNanoBananaAvailable env) eqn:Havail; cbn [negb]; [|reflexivity].
      rewrite (client_contacts_network NanoBanana). cbn [availability]. now rewrite Havail.
    + rewrite selection_imagen4.
      change (listedAvailable env "imagen4") with (Some (isImagen4Available env)).
      destruct (isImagen4Available env) eqn:Havail; cbn [negb]; [|reflexivity].
      rewrite (client_contacts_network Imagen4). cbn [availability]. now rewrite Havail.
    + rewrite selection_flux2.
      change (listedAvailable env "flux2") with (Some (JS.truthy (FAL_KEY env))).
      now rewrite (client_contacts_network Flux2).
    + rewrite selection_gemini.
      change (listedAvailable env "gemini") with (Some (isNanoBananaAvailable env)).
      now rewrite (client_contacts_network NanoBanana).
  - intros Hauto. rewrite Hauto, selection_auto. split; [reflexivity|].
    rewrite client_contacts_network.
    destruct (isNanoBananaAvailable env) eqn:Hnano; cbn [availability orb];
      [exact Hnano|].
    destruct (isImagen4Available env) eqn:Himagen; cbn [availability];
      [exact Himagen | exact Hnano].
Qed.

(** X9. The connection test never fails: without [FAL_KEY] it answers
    [false] without any call; with a key it makes exactly one call, to the
    generation endpoint of the flux client itself, asking for one 256x256
    image, and answers [response.ok], or [false] when the call is rejected.
    A positive answer means that flux2, nano-banana and gemini are listed as
    available and that a request naming flux2 reaches the provider. *)
Theorem connection_test_is_a_generation fetch env w (r : GenerationRequest number) t :
  let probe := testFluxConnection env fetch in
  let body := {| FluxProbe.prompt := "test"; FluxProbe.image_width := 256;
                 FluxProbe.image_height := 256; FluxProbe.num_images := 1 |} in
  (JS.truthy (FAL_KEY env) = false ->
   probeCalls probe = [] /\ probeAnswer probe = false) /\
  (forall key, FAL_KEY env = Some key -> key <> "" ->
     probeCalls probe = [(flux.FAL_API_URL, "Key " ++ key, body)] /\
     probeAnswer probe =
     match fetch flux.FAL_API_URL ("Key " ++ key) body with
     | Return responseOk => responseOk
     | Throw _ => false
     end) /\
  (probeAnswer probe = true ->
   Forall (fun id => listedAvailable env id = Some true) ["flux2"; "nano-banana"; "gemini"] /\
   (model (options r) = "flux2" ->
    exists req, fetches (events (generateImages env w r t)) = [req] /\ target req = Flux2)).
Proof.
  intros probe body. subst probe body. unfold testFluxConnection, JS.truthy.
  destruct (FAL_KEY env) as [key|] eqn:Hkey;
    [destruct (String.eqb key "") eqn:Hne|]; cbn [probeCalls probeAnswer].
  - split_all; [intros _; split; reflexivity | | discriminate].
    intros key' [= <-] Hnonempty. apply String.eqb_eq in Hne. contradiction.
  - split_all.
    + discriminate.
    + intros key' [= <-] _. split; reflexivity.
    + intros _. split.
      * repeat constructor; unfold listedAvailable; cbn;
          unfold isNanoBananaAvailable, JS.truthy; now rewrite Hkey, Hne.
      * intros Hmodel. rewrite generateImages_selection, Hmodel, selection_flux2.
        cbn [client]. async_unfold. rewrite Hkey, Hne. async_cases;
          eexists; split; reflexivity.
  - split_all; [intros _; split; reflexivity | discriminate | discriminate].
Qed.
(** ** Image storage *)

Ltac store_unfold :=
  unfold uploadBase64Image, uploadImage, getImageUrl, deleteImage, deleteGenerationImages,
    getSupabaseAdmin, Store.bind, Store.call, Store.ret, Store.throw.


Lemma createSupabaseAdmin_unconfigured env :
  isStorageConfigured env = false ->
  createSupabaseAdmin env = Throw "Supabase credentials not configured".
Proof.
  unfold isStorageConfigured, createSupabaseAdmin, JS.truthy.
  destruct (NEXT_PUBLIC_SUPABASE_URL env) as [url |]; [| reflexivity].
  destruct (SUPABASE_SERVICE_ROLE_KEY env) as [key |]; [| reflexivity].
  destruct (String.eqb url ""), (String.eqb key ""); cbn; intros H;
    try reflexivity; discriminate.
Qed.

(** [getSupabaseAdmin] when there is a client to work with, and when there
    is none. *)
Lemma getSupabaseAdmin_client env admin client :
  clientFor env admin = Some client ->
  getSupabaseAdmin env admin =
  {| Store.calls := creation admin client;
     Store.supabaseAdmin := Some client;
     Store.settled := Return client |}.
Proof.
  unfold clientFor, getSupabaseAdmin, creation. destruct admin as [cached |].
  - now intros [= ->].
  - destruct (createSupabaseAdmin env); [now intros [= ->] | discriminate].
Qed.



Lemma uploadImage_run env service buffer path contentType admin client :
  clientFor env admin = Some client ->
  uploadImage env service buffer path contentType admin =
  let options :=
    uploadOptions (match contentType with Some c => c | None => "image/png" end) in
  {| Store.calls := creation admin client ++ [Upload BUCKET_NAME path buffer options];
     Store.supabaseAdmin := Some client;
     Store.settled :=
       match upload (service client BUCKET_NAME) path buffer options with
       | Some reason => Throw ("Failed to upload image: " ++ reason)
       | None => Return (getPublicUrl (service client BUCKET_NAME) path)
       end |}.
Proof.
  intros Hclient. unfold uploadImage, Store.bind, Store.call, Store.ret, Store.throw.
  rewrite (getSupabaseAdmin_client _ _ _ Hclient). cbn. unfold uploadOptions.
  destruct (upload _ _ _ _); reflexivity.
Qed.

Lemma uploadBase64Image_run env service base64Data path admin client :
  clientFor env admin = Some client ->
  uploadBase64Image env service base64Data path admin =
  let buffer := Buffer_from_base64 (snd (dataUrlParts base64Data)) in
  let options := uploadOptions (fst (dataUrlParts base64Data)) in
  {| Store.calls := creation admin client ++ [Upload BUCKET_NAME path buffer options];
     Store.supabaseAdmin := Some client;
     Store.settled :=
       match upload (service client BUCKET_NAME) path buffer options with
       | Some reason => Throw ("Failed to upload image: " ++ reason)
       | None => Return (getPublicUrl (service client BUCKET_NAME) path)
       end |}.
Proof.
  intros Hclient. unfold uploadBase64Image, dataUrlParts.
  destruct (matchDataUrl base64Data) as [[group1 group2] |];
    now rewrite (uploadImage_run _ _ _ _ _ _ _ Hclient).
Qed.

Lemma uploadBase64Image_unconfigured env service base64Data path :
  isStorageConfigured env = false ->
  uploadBase64Image env service base64Data path None =
  {| Store.calls := []; Store.supabaseAdmin := None;
     Store.settled := Throw "Supabase credentials not configured" |}.
Proof.
  intros Hconf. unfold uploadBase64Image.
  destruct (match matchDataUrl base64Data with Some _ => _ | None => _ end) as [type content].
  unfold uploadImage, Store.bind, getSupabaseAdmin.
  now rewrite (createSupabaseAdmin_unconfigured _ Hconf).
Qed.


(** *** The data URL pattern *)

Lemma startsWith_drop (p s : string) :
  JS.startsWith p s = true -> s = p ++ drop (String.length p) s.
Proof.
  revert s. induction p as [| a p IH]; intros s H; [reflexivity |].
  destruct s as [| b s]; cbn in H; [discriminate |].
  apply andb_true_iff in H as [Hab Hps]. apply Ascii.eqb_eq in Hab as ->.
  cbn. f_equal. now apply IH.
Qed.

Lemma untilSemicolon_sound (s before rest : string) :
  untilSemicolon s = Some (before, rest) ->
  s = before ++ rest /\ JS.startsWith ";" rest = true /\ JS.includes ";" before = false.
Proof.
  revert before. induction s as [| c s IH]; intros before; cbn; [discriminate |].
  destruct (Ascii.eqb c ";") eqn:Hc.
  - intros [= <- <-]. apply Ascii.eqb_eq in Hc as ->. auto.
  - destruct (untilSemicolon s) as [[before' rest'] |]; [| discriminate].
    intros [= <- <-]. destruct (IH _ eq_refl) as (-> & Hrest & Hnone).
    cbn [append JS.includes JS.startsWith]. rewrite Ascii.eqb_sym, Hc, Hnone. auto.
Qed.

Lemma untilSemicolon_complete (before rest : string) :
  JS.includes ";" before = false -> JS.startsWith ";" rest = true ->
  untilSemicolon (before ++ rest) = Some (before, rest).
Proof.
  intros Hnone Hrest. induction before as [| c before IH]; cbn.
  - destruct rest as [| r rest]; cbn [JS.startsWith] in Hrest; [discriminate |].
    rewrite andb_true_r in Hrest. cbn [append untilSemicolon].
    now rewrite Ascii.eqb_sym, Hrest.
  - cbn [JS.includes JS.startsWith] in Hnone. apply orb_false_iff in Hnone as [Hc Hnone].
    rewrite andb_true_r in Hc. cbn [append untilSemicolon].
    rewrite Ascii.eqb_sym, Hc. now rewrite (IH Hnone).
Qed.

(** X10. The pattern of [uploadBase64Image] matches exactly the texts
    [data:<type>;base64,<content>] whose type is not empty and has no
    semicolon and whose content is not empty and has no line terminator, and
    its two groups are that type and that content. *)
Theorem data_url_pattern (base64Data type content : string) :
  matchDataUrl base64Data = Some (type, content) <->
  base64Data = "data:" ++ type ++ ";base64," ++ content /\
  type <> "" /\ JS.includes ";" type = false /\
  content <> "" /\ hasLineTerminator content = false.
Proof.
  unfold matchDataUrl. split.
  - destruct (JS.startsWith "data:" base64Data) eqn:Hdata; [| discriminate].
    destruct (untilSemicolon _) as [[group1 rest] |] eqn:Hgroup1; [| discriminate].
    destruct (String.eqb group1 "") eqn:Hempty1; [discriminate |].
    destruct (JS.startsWith ";base64," rest) eqn:Hbase64; [| discriminate].
    destruct (String.eqb (drop 8 rest) "") eqn:Hempty2; [discriminate |].
    destruct (hasLineTerminator (drop 8 rest)) eqn:Hline; [discriminate |].
    intros [= <- <-].
    apply startsWith_drop in Hdata, Hbase64.
    apply untilSemicolon_sound in Hgroup1 as (Hsplit & _ & Hnone).
    apply String.eqb_neq in Hempty1, Hempty2.
    split_all; try assumption.
    rewrite Hdata at 1. cbn [String.length]. rewrite Hsplit.
    rewrite Hbase64 at 1. reflexivity.
  - intros (-> & Htype & Hnone & Hcontent & Hline).
    pose proof (untilSemicolon_complete type (";base64," ++ content) Hnone eq_refl) as Hgroup1.
    apply String.eqb_neq in Htype, Hcontent.
    cbn [append] in Hgroup1.
    cbn [JS.startsWith Ascii.eqb Bool.eqb andb drop append].
    rewrite Hgroup1, Htype.
    cbn [JS.startsWith Ascii.eqb Bool.eqb andb drop append].
    now rewrite Hcontent, Hline.
Qed.

Lemma uploads_app (xs ys : list StorageCall) : uploads (xs ++ ys) = (uploads xs ++ uploads ys)%list.
Proof. apply flat_map_app. Qed.

Lemma removals_app (xs ys : list StorageCall) : removals (xs ++ ys) = (removals xs ++ removals ys)%list.
Proof. apply flat_map_app. Qed.


Lemma uploads_creation admin client : uploads (creation admin client) = [].
Proof. now destruct admin. Qed.

Lemma removals_creation admin client : removals (creation admin client) = [].
Proof. now destruct admin. Qed.

(** X11. With a client at hand, [uploadBase64Image] makes exactly one
    upload, to the given path, whatever the text.  A text that the pattern
    matches is uploaded as its base64 content under its own type; every
    other text, such as the https URL of an image or a data URL with a line
    feed in its content, is taken whole for the base64 of a PNG.  The promise
    is fulfilled with the public URL of the path when the service accepts
    that upload, and rejected with the service's reason when it refuses. *)
Theorem uploadBase64Image_content env service base64Data path admin client :
  clientFor env admin = Some client ->
  let run := uploadBase64Image env service base64Data path admin in
  let parts := dataUrlParts base64Data in
  let buffer := Buffer_from_base64 (snd parts) in
  let options := uploadOptions (fst parts) in
  (forall type content,
     matchDataUrl base64Data = Some (type, content) -> parts = (type, content)) /\
  (matchDataUrl base64Data = None -> parts = ("image/png", base64Data)) /\
  (JS.startsWith "data:" base64Data = false -> matchDataUrl base64Data = None) /\
  Store.calls run = (creation admin client ++ [Upload BUCKET_NAME path buffer options])%list /\
  uploads (Store.calls run) = [(path, buffer, fst parts)] /\
  removals (Store.calls run) = [] /\
  Store.supabaseAdmin run = Some client /\
  Store.settled run =
  match upload (service client BUCKET_NAME) path buffer options with
  | Some reason => Throw ("Failed to upload image: " ++ reason)
  | None => Return (getPublicUrl (service client BUCKET_NAME) path)
  end.
Proof.
  intros Hclient run parts buffer options. subst run parts buffer options.
  rewrite (uploadBase64Image_run _ _ _ _ _ _ Hclient).
  cbn [Store.calls Store.supabaseAdmin Store.settled].
  rewrite uploads_app, removals_app, uploads_creation, removals_creation.
  unfold dataUrlParts. split_all; try reflexivity.
  - intros type content ->. reflexivity.
  - intros ->. reflexivity.
  - intros Hdata. unfold matchDataUrl. now rewrite Hdata.
Qed.







Lemma storage_unconfigured_run env service op :
  isStorageConfigured env = false ->
  Store.calls (perform env service op None) = [] /\
  Store.supabaseAdmin (perform env service op None) = None /\
  Store.settled (perform env service op None) =
  match op with
  | SaveGeneratedImages _ [] => Return tt
  | _ => Throw "Supabase credentials not configured"
  end.
Proof.
  intros Hconf.
  destruct op as [buffer path contentType | base64Data path | generationId [| image rest]
                  | path | path | generationId];
    unfold perform, forget, saveGeneratedImages; cbn [saveGeneratedImages_from];
    unfold Store.bind; rewrite ?(uploadBase64Image_unconfigured _ _ _ _ Hconf);
    store_unfold; rewrite ?(createSupabaseAdmin_unconfigured _ Hconf); cbn; auto.
Qed.

(** X14. Without the two credentials and with no client cached, every
    storage function is rejected with "Supabase credentials not configured"
    before it makes any call, [deleteGenerationImages] included, although it
    swallows the errors of the service.  The one exception is
    [saveGeneratedImages] on an empty list, which returns without ever asking
    for the client. *)
Theorem storage_needs_credentials env service op :
  isStorageConfigured env = false ->
  let run := perform env service op None in
  Store.calls run = [] /\ Store.supabaseAdmin run = None /\
  Store.settled run =
  match op with
  | SaveGeneratedImages _ [] => Return tt
  | _ => Throw "Supabase credentials not configured"
  end.
Proof. intros Hconf run. subst run. now apply storage_unconfigured_run. Qed.





Lemma append_assoc' (s t u : string) : s ++ t ++ u = (s ++ t) ++ u.
Proof. induction s as [| c s IH]; cbn; [reflexivity | now rewrite IH]. Qed.

Lemma startsWith_app (p s : string) : JS.startsWith p (p ++ s) = true.
Proof.
  induction p as [| a p IH]; [reflexivity |].
  cbn [append JS.startsWith]. now rewrite Ascii.eqb_refl, IH.
Qed.

(** X16. With a client at hand [deleteGenerationImages] is always
    fulfilled, whatever the service answers: an error of the listing or of
    the removal is logged and swallowed.  It removes at most once, every
    listed file in one call, each by its path inside the folder of the
    generation, and only when the listing succeeded and was not empty.
    [deleteImage], in contrast, is rejected with the service's reason. *)
Theorem deleteGenerationImages_swallows_errors env service generationId admin client :
  clientFor env admin = Some client ->
  let run := deleteGenerationImages env service generationId admin in
  let bucket := service client BUCKET_NAME in
  let listing := list_files bucket ("generations/" ++ generationId) in
  Store.settled run = Return tt /\
  uploads (Store.calls run) = [] /\
  removals (Store.calls run) =
  match error listing, data listing with
  | None, Some (file :: others) =>
      [map (fun name => "generations/" ++ generationId ++ "/" ++ name) (file :: others)]
  | _, _ => []
  end /\
  (forall paths path,
     In paths (removals (Store.calls run)) -> In path paths ->
     JS.startsWith ("generations/" ++ generationId ++ "/") path = true) /\
  (forall reason,
     error listing = Some reason ->
     In (LogError "Failed to list files:" reason) (Store.calls run)) /\
  (forall paths reason,
     In paths (removals (Store.calls run)) -> remove bucket paths = Some reason ->
     In (LogError "Failed to delete files:" reason) (Store.calls run)) /\
  (forall path reason,
     remove bucket [path] = Some reason ->
     Store.settled (deleteImage env service path admin) =
     Throw ("Failed to delete image: " ++ reason)).
Proof.
  intros Hclient run bucket listing.
  assert (forall path reason,
            remove bucket [path] = Some reason ->
            Store.settled (deleteImage env service path admin) =
            Throw ("Failed to delete image: " ++ reason)) as Hdelete.
  { intros path reason Hremove. unfold deleteImage, Store.bind, Store.call, Store.throw.
    rewrite (getSupabaseAdmin_client _ _ _ Hclient). cbn. fold bucket. now rewrite Hremove. }
  subst run. unfold deleteGenerationImages, Store.bind, Store.call, Store.ret, Store.throw.
  rewrite (getSupabaseAdmin_client _ _ _ Hclient).
  cbn [Store.calls Store.supabaseAdmin Store.settled]. fold bucket. fold listing.
  destruct (error listing) as [listError |];
    [| destruct (data listing) as [[| file others] |];
       [| match goal with
          | |- context [match remove bucket ?paths with _ => _ end] =>
              destruct (remove bucket paths) as [deleteError |] eqn:Hremove
          end |]];
    cbn [Store.settled Store.calls Store.supabaseAdmin];
    rewrite ?uploads_app, ?removals_app, ?uploads_creation, ?removals_creation;
    cbn [app uploads removals flat_map];
    rewrite ?app_nil_r; split_all; try reflexivity; try exact Hdelete.
  all: try solve [intros ? ? []].
  all: try solve [intros ? [=]].
  all: try solve [intros ? [= <-]; apply in_or_app; right; cbn; auto].
  all: try solve [intros paths path [<- | []] Hin;
                  apply in_map_iff in Hin as (name & <- & _);
                  rewrite (append_assoc' generationId "/" name),
                    (append_assoc' "generations/" (generationId ++ "/") name);
                  apply startsWith_app].
  all: intros paths reason [<- | []] Hreason;
    pose proof (eq_trans (eq_sym Hremove) Hreason) as Hsame;
    first [discriminate | injection Hsame as <-; apply in_or_app; right; cbn; auto].
Qed.

(** ** The API route *)

Local Open Scope Z_scope.

Lemma z_object_sound {A} value (shape : Json number -> option A) a :
  z_object value shape = Some a ->
  exists properties, value = Some (JObject properties) /\ shape (JObject properties) = Some a.
Proof.
  unfold z_object. destruct value as [[]|]; try discriminate. eauto.
Qed.

Lemma z_enum_sound values value s :
  z_enum values value = Some s -> value = Some (JString s) /\ In s values.
Proof.
  unfold z_enum. destruct value as [[]|]; try discriminate.
  destruct (existsb _ values) eqn:Hmember; try discriminate.
  intros [= <-]. split; [reflexivity|].
  apply existsb_exists in Hmember as (x & Hin & Heq).
  apply String.eqb_eq in Heq. now subst.
Qed.

Lemma z_enum_complete values s :
  In s values -> z_enum values (Some (JString s)) = Some s.
Proof.
  intros Hin. unfold z_enum.
  replace (existsb (String.eqb s) values) with true; [reflexivity|].
  symmetry. apply existsb_exists. exists s. split; [assumption | apply String.eqb_refl].
Qed.

Lemma z_string_sound value s :
  z_string value = Some s -> value = Some (JString s).
Proof. unfold z_string. destruct value as [[]|]; try discriminate. now intros [= <-]. Qed.

Lemma z_number_min_max_sound lo hi value n :
  z_number_min_max lo hi value = Some n ->
  value = Some (JNumber n) /\ Number_ge n lo = true /\ Number_le n hi = true.
Proof.
  unfold z_number_min_max. destruct value as [[]|]; try discriminate.
  destruct (Number_ge _ lo) eqn:Hge; [| discriminate].
  destruct (Number_le _ hi) eqn:Hle; [| discriminate].
  cbn. intros [= <-]. auto.
Qed.

Lemma z_literal_1_or_4_sound value k :
  z_literal_1_or_4 value = Some k ->
  (k = 1 \/ k = 4) /\ exists n, value = Some (JNumber n) /\ Number_is n k = true.
Proof.
  unfold z_literal_1_or_4. destruct value as [[]|]; try discriminate.
  destruct (Number_is _ 1) eqn:H1; [intros [= <-]; eauto |].
  destruct (Number_is _ 4) eqn:H4; [intros [= <-]; eauto | discriminate].
Qed.

(** Taking a successful validation apart, one property at a time. *)
Ltac schema_step H :=
  match type of H with
  | z_object _ _ = Some _ =>
      let ps := fresh "properties" in
      let Hv := fresh "Hobject" in
      apply z_object_sound in H as (ps & Hv & H)
  | match ?e with Some _ => _ | None => None end = Some _ =>
      let E := fresh "Hfield" in
      destruct e eqn:E; [| discriminate H]
  end.

Ltac schema_fields :=
  repeat match goal with
         | H : z_enum _ _ = Some _ |- _ => apply z_enum_sound in H as [? ?]
         | H : z_string _ = Some _ |- _ => apply z_string_sound in H
         | H : z_number_min_max _ _ _ = Some _ |- _ =>
             apply z_number_min_max_sound in H as (? & ? & ?)
         | H : z_literal_1_or_4 _ = Some _ |- _ =>
             apply z_literal_1_or_4_sound in H as (? & ? & ? & ?)
         end.

Lemma GenerationSchema_fields body request :
  GenerationSchema_safeParse body = Some request ->
  z_enum BuildingType (property body "buildingType") = Some (buildingType request) /\
  z_number_min_max 1 10 (property body "floors") = Some (floors request) /\
  z_number_min_max 50 1000 (property body "totalArea") = Some (totalArea request) /\
  z_number_min_max 50 2000 (property body "landArea") = Some (landArea request) /\
  z_enum LandShape (property body "landShape") = Some (landShape request) /\
  z_enum ArchitecturalStyle (property body "style") = Some (style request) /\
  (exists part, property body "materials" = Some part /\
     z_enum WallMaterial (property part "wall") = Some (wall (materials request)) /\
     z_enum RoofType (property part "roof") = Some (roof (materials request))) /\
  (exists part, property body "colors" = Some part /\
     z_string (property part "primary") = Some (primary (colors request)) /\
     z_string (property part "secondary") = Some (secondary (colors request)) /\
     z_string (property part "accent") = Some (accent (colors request))) /\
  (exists part, property body "environment" = Some part /\
     z_enum TimeOfDay (property part "timeOfDay") = Some (timeOfDay (environment request)) /\
     z_enum Season (property part "season") = Some (season (environment request))) /\
  (exists part, property body "camera" = Some part /\
     z_enum CameraAngle (property part "angle") = Some (angle (camera request))) /\
  (exists part, property body "options" = Some part /\
     z_literal_1_or_4 (property part "count") = Some (count (options request)) /\
     z_enum Resolution (property part "resolution") = Some (resolution (options request)) /\
     z_enum AIModel (property part "model") = Some (model (options request))).
Proof.
  unfold GenerationSchema_safeParse. intros H.
  apply z_object_sound in H as (properties & [= ->] & H).
  repeat schema_step H.
  repeat match goal with
         | Hpart : z_object _ _ = Some _ |- _ =>
             apply z_object_sound in Hpart as (? & ? & Hpart); repeat schema_step Hpart;
             injection Hpart as <-
         end.
  injection H as <-. cbn.
  split_all; eauto 10.
Qed.

Lemma GenerationSchema_valid body request :
  GenerationSchema_safeParse body = Some request ->
  well_formed request /\ within_bounds request.
Proof.
  intros H. pose proof (GenerationSchema_fields _ _ H) as Hfields.
  destruct Hfields as (? & ? & ? & ? & ? & ? & (? & ? & ? & ?) & _ &
                       (? & ? & ? & ?) & (? & ? & ?) & (? & ? & ? & ? & ?)).
  schema_fields.
  unfold well_formed, within_bounds. split_all; assumption.
Qed.

(** X17. Whatever [GenerationSchema.safeParse] accepts is a JSON object and
    yields a well-formed request within the numeric bounds of the schema:
    every enum field is in its closed set and the count is 1 or 4.  A body
    that is not an object, such as an array or [null], is never accepted. *)
Theorem schema_accepts_only_valid_requests body request :
  GenerationSchema_safeParse body = Some request ->
  well_formed request /\ within_bounds request /\
  exists properties, body = JObject properties.
Proof.
  intros H. destruct (GenerationSchema_valid _ _ H) as [Hwf Hbounds].
  split_all; try assumption.
  unfold GenerationSchema_safeParse in H.
  apply z_object_sound in H as (properties & [= ->] & _). eauto.
Qed.

Lemma toJson_accepted request :
  integer_literals -> well_formed request -> within_bounds request ->
  GenerationSchema_safeParse (toJson request) = Some request.
Proof.
  intros Hlit (? & ? & ? & ? & ? & ? & ? & ? & ? & ? & Hcount) (? & ? & ? & ? & ? & ?).
  unfold GenerationSchema_safeParse, toJson, z_object, property.
  cbn [JS.own String.eqb Ascii.eqb Bool.eqb].
  change ["house"; "apartment"; "building"; "shop"] with BuildingType.
  change ["rectangle"; "square"; "L-shape"; "flag"; "irregular"] with LandShape.
  change ["modern_minimal"; "japanese_modern"; "scandinavian"; "industrial"; "luxury";
          "mediterranean"; "american"] with ArchitecturalStyle.
  change ["siding"; "concrete"; "tile"; "wood"; "metal"; "stucco"] with WallMaterial.
  change ["flat"; "gable"; "hip"; "shed"; "gambrel"] with RoofType.
  change ["morning"; "noon"; "evening"; "night"] with TimeOfDay.
  change ["spring"; "summer"; "autumn"; "winter"] with Season.
  change ["front"; "angle45"; "aerial"; "birdseye"; "closeup"; "distant"] with CameraAngle.
  change ["sd"; "hd"; "4k"] with Resolution.
  change ["auto"; "imagen4"; "flux2"; "gemini"; "nano-banana"] with AIModel.
  rewrite !z_enum_complete by assumption.
  unfold z_number_min_max, z_string, z_literal_1_or_4.
  repeat match goal with H : _ = true |- _ => rewrite H; clear H end.
  cbn [andb].
  destruct (Hlit (count (options request)) 1) as (-> & _).
  destruct (Hlit (count (options request)) 4) as (-> & _).
  destruct request as [? ? ? ? ? ? [] [] [] [] [c ? ?]]. cbn in *.
  destruct Hcount as [-> | ->]; reflexivity.
Qed.

Lemma toJson_parsed_back request accepted :
  integer_literals ->
  GenerationSchema_safeParse (toJson request) = Some accepted -> accepted = request.
Proof.
  intros Hlit H. pose proof (GenerationSchema_fields _ _ H) as Hfields.
  unfold toJson, property in Hfields. cbn [JS.own String.eqb Ascii.eqb Bool.eqb] in Hfields.
  destruct Hfields as (? & ? & ? & ? & ? & ? & (? & [= <-] & ? & ?) & (? & [= <-] & ? & ? & ?) &
                       (? & [= <-] & ? & ?) & (? & [= <-] & ?) & (? & [= <-] & ? & ? & ?)).
  cbn [JS.own String.eqb Ascii.eqb Bool.eqb] in *.
  schema_fields.
  repeat match goal with
         | E : Some (JString _) = Some (JString _) |- _ => injection E as E
         | E : Some (JNumber _) = Some (JNumber _) |- _ => injection E as E
         end.
  assert (count (options request) = count (options accepted)) as Hcount.
  { subst. destruct (Hlit (count (options request)) (count (options accepted))) as (Heq & _).
    match goal with Hn : Number_is _ _ = true |- _ => rewrite Heq in Hn; now apply Z.eqb_eq in Hn end. }
  destruct request as [? ? ? ? ? ? [] [] [] [] []], accepted as [? ? ? ? ? ? [] [] [] [] []].
  cbn in *. congruence.
Qed.

(** X18. The route accepts the JSON of a request exactly when the request
    is well formed and within the numeric bounds, and what it then hands to
    the generator is the request that was sent, field for field. *)
Theorem schema_round_trip request :
  integer_literals ->
  (GenerationSchema_safeParse (toJson request) = Some request <->
   well_formed request /\ within_bounds request) /\
  (forall accepted,
     GenerationSchema_safeParse (toJson request) = Some accepted -> accepted = request).
Proof.
  intros Hlit. split; [split |].
  - apply GenerationSchema_valid.
  - intros []. now apply toJson_accepted.
  - intros accepted. now apply toJson_parsed_back.
Qed.

(** The handler with the request body already awaited and validated. *)
Lemma POST_valid env w platform body request t :
  GenerationSchema_safeParse body = Some request ->
  POST env w platform (Return body) t =
  match generateImages env w request t with
  | {| events := evs; clockReads := t'; outcome := Return result |} =>
      {| events := evs; clockReads := S t';
         outcome := Return
           {| NextResponse.status := 200;
              NextResponse.body := Generated
                {| GenerationResult.id := randomUUID platform;
                   GenerationResult.userId := "anonymous";
                   GenerationResult.status := "completed";
                   GenerationResult.prompt := GenerationOutput.prompt result;
                   GenerationResult.parameters := request;
                   GenerationResult.images := GenerationOutput.images result;
                   GenerationResult.modelUsed := GenerationOutput.model result;
                   GenerationResult.generationTimeMs := GenerationOutput.timeMs result;
                   GenerationResult.errorMessage := None;
                   GenerationResult.isFavorite := false;
                   GenerationResult.createdAt := toISOString platform (now w t') |} |} |}
  | {| events := evs; clockReads := t'; outcome := Throw message |} =>
      {| events := evs ++ [ConsoleError "Generation error:" message]; clockReads := t';
         outcome := Return
           {| NextResponse.status := 500;
              NextResponse.body := GenerationError "Generation failed" message |} |}
  end.
Proof.
  intros Hvalid. unfold POST, try_catch, bind, await, emit, ret, Date_now. rewrite Hvalid.
  destruct (generateImages env w request t) as [evs t' [result | message]];
    cbn; rewrite ?app_nil_r; reflexivity.
Qed.

Lemma POST_invalid env w platform body t :
  GenerationSchema_safeParse body = None ->
  POST env w platform (Return body) t =
  {| events := []; clockReads := t;
     outcome := Return {| NextResponse.status := 400;
                          NextResponse.body := ValidationError "Invalid request parameters" |} |}.
Proof.
  intros Hinvalid. unfold POST, try_catch, bind, await, emit, ret. now rewrite Hinvalid.
Qed.

Lemma POST_unparsable env w platform message t :
  POST env w platform (Throw message) t =
  {| events := [ConsoleError "Generation error:" message]; clockReads := t;
     outcome := Return {| NextResponse.status := 500;
                          NextResponse.body := GenerationError "Generation failed" message |} |}.
Proof. reflexivity. Qed.

(** X19. The handler never rejects: whatever the body, the environment and
    the providers do, it answers 200 with a generation result, 400 with the
    validation error, or 500 with the failure, and nothing else. *)
Theorem POST_always_answers env w platform requestJson t :
  exists response,
    outcome (POST env w platform requestJson t) = Return response /\
    ((NextResponse.status response = 200 /\
      exists result, NextResponse.body response = Generated result) \/
     (NextResponse.status response = 400 /\
      NextResponse.body response = ValidationError "Invalid request parameters") \/
     (NextResponse.status response = 500 /\
      exists message,
        NextResponse.body response = GenerationError "Generation failed" message)).
Proof.
  destruct requestJson as [body | message].
  - destruct (GenerationSchema_safeParse body) as [request |] eqn:Hschema.
    + rewrite (POST_valid _ _ _ _ _ _ Hschema).
      destruct (generateImages env w request t) as [evs t' [result | message]];
        cbn; eexists; split; try reflexivity; cbn; eauto 6.
    + rewrite (POST_invalid _ _ _ _ _ Hschema). eexists; split; [reflexivity |]. cbn. auto.
  - rewrite POST_unparsable. eexists; split; [reflexivity |]. cbn. eauto 6.
Qed.

(** X20. A body that fails validation is answered with 400 before anything
    else happens: no provider is entered, no call is made, the clock is not
    read and nothing is logged.  A body that is not JSON at all is answered
    with 500, not 400, carrying the parser's message, which is also logged. *)
Theorem POST_rejects_before_generating env w platform requestJson t :
  (forall body, requestJson = Return body -> GenerationSchema_safeParse body = None) ->
  let run := POST env w platform requestJson t in
  enters (events run) = [] /\ fetches (events run) = [] /\ clockReads run = t /\
  match requestJson with
  | Return _ =>
      events run = [] /\
      outcome run = Return {| NextResponse.status := 400;
                              NextResponse.body := ValidationError "Invalid request parameters" |}
  | Throw message =>
      events run = [ConsoleError "Generation error:" message] /\
      outcome run = Return {| NextResponse.status := 500;
                              NextResponse.body := GenerationError "Generation failed" message |}
  end.
Proof.
  intros Hinvalid run. subst run. destruct requestJson as [body | message].
  - rewrite (POST_invalid _ _ _ _ _ (Hinvalid body eq_refl)). cbn. auto.
  - rewrite POST_unparsable. cbn. auto.
Qed.

(** X21. For a valid body the handler relays [generateImages] on the
    validated request, making the same provider calls.  On success it reads
    the clock once more and answers 200 with a result that carries the
    generator's prompt, images, model and time, the validated request as
    parameters, that last clock reading as creation date, the fixed user
    [anonymous], status [completed] and no favourite mark; on failure it
    answers 500 with the error's message, logged once after the generator's
    own events. *)
Theorem POST_relays_generation env w platform body request t :
  GenerationSchema_safeParse body = Some request ->
  let run := POST env w platform (Return body) t in
  let generation := generateImages env w request t in
  fetches (events run) = fetches (events generation) /\
  enters (events run) = enters (events generation) /\
  match outcome generation with
  | Return result =>
      events run = events generation /\
      clockReads run = S (clockReads generation) /\
      exists response generated,
        outcome run = Return response /\
        NextResponse.status response = 200 /\
        NextResponse.body response = Generated generated /\
        GenerationResult.parameters generated = request /\
        GenerationResult.prompt generated = GenerationOutput.prompt result /\
        GenerationResult.images generated = GenerationOutput.images result /\
        GenerationResult.modelUsed generated = GenerationOutput.model result /\
        GenerationResult.generationTimeMs generated = GenerationOutput.timeMs result /\
        GenerationResult.id generated = randomUUID platform /\
        GenerationResult.createdAt generated =
          toISOString platform (now w (clockReads generation)) /\
        GenerationResult.userId generated = "anonymous" /\
        GenerationResult.status generated = "completed" /\
        GenerationResult.isFavorite generated = false /\
        GenerationResult.errorMessage generated = None
  | Throw message =>
      events run = (events generation ++ [ConsoleError "Generation error:" message])%list /\
      clockReads run = clockReads generation /\
      outcome run = Return {| NextResponse.status := 500;
                              NextResponse.body := GenerationError "Generation failed" message |}
  end.
Proof.
  intros Hvalid run generation. subst run generation.
  rewrite (POST_valid _ _ _ _ _ _ Hvalid).
  destruct (generateImages env w request t) as [evs t' [result | message]];
    cbn [events clockReads outcome].
  - split_all; try reflexivity. do 2 eexists. split_all; reflexivity.
  - unfold fetches, enters. rewrite !flat_map_app. cbn. rewrite !app_nil_r.
    split_all; reflexivity.
Qed.

(** ** The form *)

Lemma findStyle_known styleId :
  In styleId (map StylePreset.id STYLE_PRESETS) ->
  exists preset,
    findStyle styleId = Some preset /\ In preset STYLE_PRESETS /\
    StylePreset.id preset = styleId /\
    exists first others, StylePreset.materials preset = first :: others /\ In first WallMaterial.
Proof.
  cbn [map STYLE_PRESETS StylePreset.id In].
  intros H; repeat destruct H as [<- | H]; try contradiction;
    (eexists; split; [reflexivity |]; split; [cbn; tauto |]; split; [reflexivity |];
     do 2 eexists; split; [reflexivity |]; cbn; tauto).
Qed.

Lemma act_selectable data action :
  selectable data -> offered action -> selectable (act data action).
Proof.
  intros (? & ? & ? & ? & ? & ? & ? & ? & ? & ? & ? & ? & ?) Hoffered.
  destruct action; cbn [offered] in Hoffered;
    try (unfold selectable, act; cbn [FormData.buildingType FormData.floors FormData.totalArea
           FormData.landArea FormData.landShape FormData.style FormData.wallMaterial
           FormData.roofType FormData.primaryColor FormData.secondaryColor FormData.accentColor
           FormData.timeOfDay FormData.season FormData.cameraAngle FormData.count
           FormData.resolution];
         split_all; try assumption; try solve [eexists; split; [reflexivity |]; cbn in *; lia];
         cbn in Hoffered |- *; first [tauto | lia]).
  (* a style button *)
  destruct (findStyle_known _ Hoffered) as
    (preset & Hfind & _ & Hid & first & others & Hmaterials & Hfirst).
  unfold selectable, act, handleStyleChange. rewrite Hfind, Hmaterials.
  cbn [FormData.buildingType FormData.floors FormData.totalArea
       FormData.landArea FormData.landShape FormData.style FormData.wallMaterial
       FormData.roofType FormData.primaryColor FormData.secondaryColor FormData.accentColor
       FormData.timeOfDay FormData.season FormData.cameraAngle FormData.count
       FormData.resolution].
  split_all; assumption.
Qed.

Lemma formAfter_selectable actions :
  Forall offered actions -> selectable (formAfter actions).
Proof.
  unfold formAfter. intros Hall.
  assert (selectable defaultValues) as Hstart.
  { unfold selectable, defaultValues. cbn.
    split_all; try tauto; try (eexists; split; [reflexivity | lia]). }
  revert Hstart. generalize defaultValues.
  induction Hall as [| action rest Haction _ IH]; intros data Hdata; [exact Hdata |].
  cbn [fold_left]. apply IH. now apply act_selectable.
Qed.

Lemma existsb_eqb_in (s : string) (l : list string) :
  In s l -> existsb (String.eqb s) l = true.
Proof.
  intros Hin. apply existsb_exists. exists s. split; [assumption | apply String.eqb_refl].
Qed.

Lemma selectable_valid data :
  integer_literals -> selectable data ->
  formSchema_accepts data = true /\
  well_formed (onSubmit_request data) /\ within_bounds (onSubmit_request data).
Proof.
  intros Hlit (? & (n & Hn & ?) & (v & Hv & ?) & (u & Hu & ?) & ? & ? & ? & ? & ? & ? & ? & ? & ?).
  assert (forall k lo hi, lo <= k <= hi ->
            Number_ge (Number_of k) lo = true /\ Number_le (Number_of k) hi = true) as Hrange.
  { intros k lo hi Hk. destruct (Hlit k lo) as (_ & -> & _), (Hlit k hi) as (_ & _ & ->).
    split; apply Z.leb_le; lia. }
  split_all.
  - unfold formSchema_accepts. rewrite Hn, Hv, Hu.
    destruct (Hrange n 1 10 ltac:(lia)) as [-> ->].
    destruct (Hrange v 50 1000 ltac:(lia)) as [-> ->].
    destruct (Hrange u 50 2000 ltac:(lia)) as [-> ->].
    change ["house"; "apartment"; "building"; "shop"] with BuildingType.
    change ["rectangle"; "square"; "L-shape"; "flag"; "irregular"] with LandShape.
    change ["morning"; "noon"; "evening"; "night"] with TimeOfDay.
    change ["spring"; "summer"; "autumn"; "winter"] with Season.
    change ["sd"; "hd"; "4k"] with Resolution.
    now rewrite !existsb_eqb_in by assumption.
  - unfold well_formed, onSubmit_request. cbn. split_all; try assumption. tauto.
  - unfold within_bounds, onSubmit_request. cbn. rewrite Hn, Hv, Hu.
    destruct (Hrange n 1 10 ltac:(lia)) as [-> ->].
    destruct (Hrange v 50 1000 ltac:(lia)) as [-> ->].
    destruct (Hrange u 50 2000 ltac:(lia)) as [-> ->].
    auto 10.
Qed.

(** X22. Whatever the user does with the widgets of the form, in any order
    and any number of times, the values pass the form's own validation and
    the request built from them is accepted by the route as it was sent: the
    API never answers 400 to the form.  The form's schema alone would not
    ensure it, since it takes any string for the style, the materials and
    the camera angle. *)
Theorem form_submits_only_valid_requests actions :
  integer_literals -> Forall offered actions ->
  let data := formAfter actions in
  formSchema_accepts data = true /\
  GenerationSchema_safeParse (toJson (onSubmit_request data)) = Some (onSubmit_request data) /\
  model (options (onSubmit_request data)) = "auto".
Proof.
  intros Hlit Hall data. subst data.
  destruct (selectable_valid _ Hlit (formAfter_selectable _ Hall)) as (Hform & Hwf & Hbounds).
  split_all; [assumption | now apply toJson_accepted | reflexivity].
Qed.

(** X23. Submitting the form never rejects and makes nothing happen but
    the one call of [fetch]: it ends with [onGenerated] on the body of an ok
    response, and otherwise with the message to show, which is the message
    of the [Error] that [fetch] or [response.json()] rejected with, "Unknown
    error" for a rejection with anything else, and for a parsed response
    that is not ok its [message], or "Generation failed" when that is missing
    or empty.  When the request reaches the [POST] handler of the
    application and the answer comes back, then, whatever was clicked
    before, the provider calls are those of [generateImages] on the built
    request; on success the page is handed a result carrying the request,
    the generator's images and prompt, made by nano-banana or by imagen4,
    never by flux2, which the form has no way to ask for; on failure the
    form shows the error's message, or "Generation failed" if that is
    empty. *)
Theorem submission_shows_result_or_error (fetch : BrowserFetch) (data : FormData.t number) t :
  let request := onSubmit_request data in
  let call := fetch "/api/generate" (onSubmit_init request) t in
  let run := onSubmit fetch data t in
  events run = events call /\ clockReads run = clockReads call /\
  outcome run =
  Return match outcome call with
         | Throw message => SetError message
         | Return (Rejected (ErrorObject message)) => SetError message
         | Return (Rejected OtherValue) => SetError "Unknown error"
         | Return (Fulfilled response) =>
             match response_json response with
             | Rejected (ErrorObject message) => SetError message
             | Rejected OtherValue => SetError "Unknown error"
             | Fulfilled body =>
                 if response_ok response then OnGenerated body
                 else match body with
                      | GenerationError _ message =>
                          SetError (if String.eqb message "" then "Generation failed"
                                    else message)
                      | _ => SetError "Generation failed"
                      end
             end
         end /\
  (forall env w platform actions,
     integer_literals -> Forall offered actions -> data = formAfter actions ->
     reachesHandler fetch env w platform ->
     let generation := generateImages env w request t in
     fetches (events run) = fetches (events generation) /\
     match outcome generation with
     | Return out =>
         exists result,
           outcome run = Return (OnGenerated (Generated result)) /\
           GenerationResult.parameters result = request /\
           GenerationResult.images result = GenerationOutput.images out /\
           GenerationResult.prompt result = GenerationOutput.prompt out /\
           (GenerationResult.modelUsed result = "nano-banana" \/
            GenerationResult.modelUsed result = "imagen4")
     | Throw message =>
         outcome run =
         Return (SetError (if String.eqb message "" then "Generation failed" else message))
     end).
Proof.
  intros request call run.
  assert (events run = events call /\ clockReads run = clockReads call /\
          outcome run =
          Return match outcome call with
                 | Throw message => SetError message
                 | Return (Rejected (ErrorObject message)) => SetError message
                 | Return (Rejected OtherValue) => SetError "Unknown error"
                 | Return (Fulfilled response) =>
                     match response_json response with
                     | Rejected (ErrorObject message) => SetError message
                     | Rejected OtherValue => SetError "Unknown error"
                     | Fulfilled body =>
                         if response_ok response then OnGenerated body
                         else match body with
                              | GenerationError _ message =>
                                  SetError (if String.eqb message "" then "Generation failed"
                                            else message)
                              | _ => SetError "Generation failed"
                              end
                     end
                 end) as Hrun.
  { subst run. unfold onSubmit, try_catch, bind, ret. fold request. fold call.
    destruct call as [evs reads [[response | [message |]] | message]];
      cbn [events clockReads outcome caught]; rewrite ?app_nil_r;
      try (split_all; reflexivity).
    destruct (response_json response) as [body | [message |]];
      [destruct (response_ok response), body |..];
      cbn [events clockReads outcome caught negb errorData_message JS.or_else];
      rewrite ?app_nil_r; split_all; reflexivity. }
  destruct Hrun as (Hevents & Hreads & Houtcome).
  split_all; try assumption.
  intros env w platform actions Hlit Hall -> Hreaches generation.
  destruct (selectable_valid _ Hlit (formAfter_selectable _ Hall)) as (_ & Hwf & Hbounds).
  pose proof (toJson_accepted _ Hlit Hwf Hbounds) as Hschema. fold request in Hschema.
  rewrite Houtcome, Hevents. subst call.
  rewrite (Hreaches (onSubmit_init request) t eq_refl).
  unfold handlerAnswer, bind, ret, onSubmit_init. cbn [init_body].
  rewrite (POST_valid _ _ _ _ _ _ Hschema). fold generation.
  pose proof (auto_served_by env w request t) as Hserved.
  fold generation in Hserved.
  destruct generation as [evs t' [out | message]]; cbn.
  - rewrite app_nil_r. split; [reflexivity |].
    eexists. split; [reflexivity |]. cbn. split_all; try reflexivity.
    destruct (Hserved out eq_refl eq_refl) as [(_ & _ & ->) | (_ & _ & _ & ->)]; auto.
  - unfold fetches. rewrite !flat_map_app. cbn. rewrite !app_nil_r. auto.
Qed.

(** X24. Pressing the button of a preset sets the style to the preset's
    id, the three colours to the preset's colours and the wall material to
    the first material of the preset, which is always one of the selectable
    wall materials; every other value of the form, the roof included, stays
    as it was, and pressing again changes nothing.  A style id that is not a
    preset leaves the form untouched. *)
Theorem handleStyleChange_applies_preset (data : FormData.t number) :
  (forall preset, In preset STYLE_PRESETS ->
     let data' := handleStyleChange (StylePreset.id preset) data in
     FormData.style data' = StylePreset.id preset /\
     FormData.primaryColor data' = primary (StylePreset.colors preset) /\
     FormData.secondaryColor data' = secondary (StylePreset.colors preset) /\
     FormData.accentColor data' = accent (StylePreset.colors preset) /\
     (exists others, StylePreset.materials preset = FormData.wallMaterial data' :: others) /\
     In (FormData.wallMaterial data') WallMaterial /\
     besidesStyle data' = besidesStyle data /\
     handleStyleChange (StylePreset.id preset) data' = data') /\
  (forall styleId, ~ In styleId ArchitecturalStyle -> handleStyleChange styleId data = data).
Proof.
  split.
  - intros preset Hin data'. subst data'.
    assert (In (StylePreset.id preset) (map StylePreset.id STYLE_PRESETS)) as Hid
      by now apply in_map.
    destruct (findStyle_known _ Hid) as (found & _ & _ & _ & first & others & _ & _).
    clear found first others.
    unfold handleStyleChange. rewrite (findStyle_some _ Hin).
    assert (exists first others,
              StylePreset.materials preset = first :: others /\ In first WallMaterial)
      as (first & others & Hmaterials & Hfirst).
    { repeat (destruct Hin as [<- | Hin]; [do 2 eexists; split; [reflexivity | cbn; tauto] |]).
      destruct Hin. }
    rewrite Hmaterials. cbn. split_all; eauto.
  - intros styleId Hunknown. unfold handleStyleChange.
    now rewrite (findStyle_none _ Hunknown).
Qed.

(** X25. Each label of the resolution select quotes a pixel size, and that
    size is the pair the flux2 client sends for the tier: it is not the pair
    that the nano-banana or the imagen4 client attaches to the tier, the two
    clients that serve the form. *)
Theorem resolution_labels_quote_flux_sizes tier label :
  In (tier, label) resolutionItems ->
  exists size,
    tierSize Flux2 tier = Some size /\
    JS.contains (JS.Z_toString (Size.width size) ++ "×" ++ JS.Z_toString (Size.height size))
                label /\
    tierSize NanoBanana tier <> Some size /\ tierSize Imagen4 tier <> Some size.
Proof.
  intros H. repeat destruct H as [[= <- <-] | H]; try contradiction;
    (eexists; split; [reflexivity |]; split;
     [apply includes_sound; reflexivity | split; discriminate]).
Qed.

(** ** The page and the preview *)

Lemma toggleFavorite_involutive (item : GenerationResult.t number) :
  toggleFavorite (toggleFavorite item) = item.
Proof. destruct item. unfold toggleFavorite. cbn. now rewrite negb_involutive. Qed.

Lemma handleFavorite_ids id (state : Home.t number) :
  map GenerationResult.id (Home.history (handleFavorite id state)) =
  map GenerationResult.id (Home.history state).
Proof.
  unfold handleFavorite. cbn [Home.history]. rewrite map_map. apply map_ext.
  intros item. now destruct (String.eqb _ id).
Qed.

Lemma firstn_cons_firstn {A} (n : nat) (x : A) (l : list A) :
  firstn (S n) (x :: firstn (S n) l) = firstn (S n) (x :: l).
Proof.
  rewrite !firstn_cons. f_equal. rewrite firstn_firstn. f_equal. lia.
Qed.

Lemma in_firstn {A} (n : nat) (x : A) (l : list A) : In x (firstn n l) -> In x l.
Proof.
  intros H. rewrite <- (firstn_skipn n l). apply in_or_app. now left.
Qed.

Lemma fold_left_snoc {A B} (f : A -> B -> A) (l : list B) (b : B) (a : A) :
  fold_left f (l ++ [b]) a = f (fold_left f l a) b.
Proof. now rewrite fold_left_app. Qed.

Lemma arrivals_snoc (actions : list (HomeAction number)) action :
  arrivals (actions ++ [action]) =
  (arrivals actions ++
   match action with Arrives newResult => [GenerationResult.id newResult] | _ => [] end)%list.
Proof. unfold arrivals. rewrite flat_map_app. cbn. now rewrite app_nil_r. Qed.

(** The history after any sequence of actions, by ids. *)
Lemma history_ids (actions : list (HomeAction number)) :
  map GenerationResult.id (Home.history (fold_left homeStep actions initialHome)) =
  firstn 10 (rev (arrivals actions)).
Proof.
  induction actions as [| action actions IH] using rev_ind; [reflexivity |].
  rewrite fold_left_snoc, arrivals_snoc, rev_app_distr.
  destruct action as [newResult | | k]; cbn [homeStep rev app].
  - unfold handleGenerated. cbn [Home.history].
    rewrite <- firstn_map. cbn [map]. rewrite IH.
    apply (firstn_cons_firstn 9).
  - destruct (Home.result _) as [shown |]; [rewrite handleFavorite_ids |]; exact IH.
  - destruct (nth_error _ k); exact IH.
Qed.

Lemma shown_has_arrived (actions : list (HomeAction number)) shown :
  Home.result (fold_left homeStep actions initialHome) = Some shown ->
  In (GenerationResult.id shown) (arrivals actions).
Proof.
  revert shown. induction actions as [| action actions IH] using rev_ind; intros shown;
    [discriminate |].
  rewrite fold_left_snoc, arrivals_snoc.
  destruct action as [newResult | | k]; cbn [homeStep]; rewrite ?app_nil_r.
  - cbn. intros [= <-]. apply in_or_app. right. now left.
  - destruct (Home.result _) as [prev |] eqn:Hprev; [| intros H; cbn beta iota in H; congruence].
    cbn [handleFavorite Home.result]. rewrite Hprev, String.eqb_refl.
    intros [= <-]. cbn. now apply IH.
  - destruct (nth_error _ k) as [item |] eqn:Hitem; [| apply IH].
    cbn. intros [= <-]. apply nth_error_In in Hitem.
    apply (in_map GenerationResult.id) in Hitem. rewrite history_ids in Hitem.
    apply In_rev. apply (in_firstn 10). exact Hitem.
Qed.

(** X26. The history holds the latest ten generations, newest first:
    after any sequence of arrivals, heart presses and history clicks, its
    ids are the ids of the last ten arrivals in reverse order of arrival, so
    it never grows beyond ten, and the result on show is one that arrived. *)
Theorem history_holds_latest_ten (actions : list (HomeAction number)) :
  let state := fold_left homeStep actions initialHome in
  map GenerationResult.id (Home.history state) = firstn 10 (rev (arrivals actions)) /\
  (length (Home.history state) <= 10)%nat /\
  (forall shown,
     Home.result state = Some shown -> In (GenerationResult.id shown) (arrivals actions)).
Proof.
  cbn zeta. split_all.
  - apply history_ids.
  - rewrite <- (length_map GenerationResult.id), history_ids. apply firstn_le_length.
  - apply shown_has_arrived.
Qed.

(** X27. [handleFavorite] flips the favourite mark of the result on show
    when it has the given id, and of every history item that has it, and
    changes nothing else: a shown result of another id and the absence of a
    shown result stay, the history keeps its items in their order with their
    ids, prompts, parameters and images, and calling it twice restores the
    state. *)
Theorem handleFavorite_flips_and_restores id (state : Home.t number) :
  handleFavorite id (handleFavorite id state) = state /\
  (forall shown,
     Home.result state = Some shown -> GenerationResult.id shown = id ->
     exists flipped,
       Home.result (handleFavorite id state) = Some flipped /\
       GenerationResult.isFavorite flipped = negb (GenerationResult.isFavorite shown) /\
       GenerationResult.id flipped = GenerationResult.id shown /\
       GenerationResult.prompt flipped = GenerationResult.prompt shown /\
       GenerationResult.parameters flipped = GenerationResult.parameters shown /\
       GenerationResult.images flipped = GenerationResult.images shown) /\
  (forall shown,
     Home.result state = Some shown -> GenerationResult.id shown <> id ->
     Home.result (handleFavorite id state) = Some shown) /\
  (Home.result state = None -> Home.result (handleFavorite id state) = None) /\
  Forall2 (fun before after =>
             GenerationResult.id after = GenerationResult.id before /\
             GenerationResult.prompt after = GenerationResult.prompt before /\
             GenerationResult.parameters after = GenerationResult.parameters before /\
             GenerationResult.images after = GenerationResult.images before /\
             GenerationResult.isFavorite after =
             xorb (GenerationResult.isFavorite before)
                  (String.eqb (GenerationResult.id before) id))
          (Home.history state) (Home.history (handleFavorite id state)).
Proof.
  split_all.
  - destruct state as [shown history]. unfold handleFavorite. cbn [Home.result Home.history].
    f_equal.
    + destruct shown as [prev |]; [| reflexivity].
      destruct (String.eqb (GenerationResult.id prev) id) eqn:Hid; cbn; rewrite Hid;
        [now rewrite toggleFavorite_involutive | reflexivity].
    + rewrite map_map. rewrite <- (map_id history) at 2. apply map_ext.
      intros item. destruct (String.eqb (GenerationResult.id item) id) eqn:Hid;
        cbn; rewrite Hid; [apply toggleFavorite_involutive | reflexivity].
  - intros shown Hshown Hsame. unfold handleFavorite. cbn [Home.result]. rewrite Hshown.
    apply String.eqb_eq in Hsame. rewrite Hsame.
    exists (toggleFavorite shown). split_all; reflexivity.
  - intros shown Hshown Hother. unfold handleFavorite. cbn [Home.result]. rewrite Hshown.
    apply String.eqb_neq in Hother. now rewrite Hother.
  - intros Hnone. unfold handleFavorite. cbn [Home.result]. now rewrite Hnone.
  - unfold handleFavorite. cbn [Home.history].
    induction (Home.history state) as [| item rest IH]; constructor; [| exact IH].
    destruct (String.eqb (GenerationResult.id item) id); cbn;
      split_all; try reflexivity; now destruct (GenerationResult.isFavorite item).
Qed.

Lemma NoDup_map_injective {A B} (f : A -> B) (l : list A) a b :
  NoDup (map f l) -> In a l -> In b l -> f a = f b -> a = b.
Proof.
  induction l as [| x l IH]; cbn; [contradiction |].
  intros Hnodup Ha Hb Hf. inversion Hnodup as [| ? ? Hx Hrest]; subst.
  destruct Ha as [<- | Ha], Hb as [<- | Hb]; try reflexivity.
  - exfalso. apply Hx. rewrite Hf. now apply in_map.
  - exfalso. apply Hx. rewrite <- Hf. now apply in_map.
  - now apply IH.
Qed.

Lemma NoDup_firstn {A} (n : nat) (l : list A) : NoDup l -> NoDup (firstn n l).
Proof.
  intros H. rewrite <- (firstn_skipn n l) in H. now apply NoDup_app_remove_r in H.
Qed.

(** X28. When every generation arrives under an id of its own, the
    history never holds two items of one id, and the result on show agrees
    with the history: a history item with the id of the shown result is that
    very result, favourite mark included, after any sequence of actions. *)
Theorem shown_result_agrees_with_history (actions : list (HomeAction number)) :
  NoDup (arrivals actions) ->
  let state := fold_left homeStep actions initialHome in
  NoDup (map GenerationResult.id (Home.history state)) /\
  forall shown item,
    Home.result state = Some shown -> In item (Home.history state) ->
    GenerationResult.id item = GenerationResult.id shown -> item = shown.
Proof.
  cbn zeta. intros Hfresh. split.
  { rewrite history_ids. apply NoDup_firstn. now apply NoDup_rev. }
  induction actions as [| action actions IH] using rev_ind; [discriminate |].
  rewrite arrivals_snoc in Hfresh.
  assert (NoDup (arrivals actions)) as Hbefore by now apply NoDup_app_remove_r in Hfresh.
  specialize (IH Hbefore).
  assert (NoDup (map GenerationResult.id
                     (Home.history (fold_left homeStep actions initialHome)))) as Hnodup.
  { rewrite history_ids. apply NoDup_firstn. now apply NoDup_rev. }
  rewrite fold_left_snoc.
  destruct action as [newResult | | k]; cbn [homeStep].
  - intros shown item [= <-] Hitem Hid. cbn [handleGenerated Home.history] in Hitem.
    apply (in_firstn 10) in Hitem. destruct Hitem as [<- | Hitem]; [reflexivity |].
    exfalso. apply NoDup_remove_2 in Hfresh. rewrite app_nil_r in Hfresh. apply Hfresh.
    rewrite <- Hid. apply (in_map GenerationResult.id) in Hitem.
    rewrite history_ids in Hitem. apply In_rev. apply (in_firstn 10). exact Hitem.
  - destruct (Home.result _) as [prev |] eqn:Hprev;
      [| intros ? ? H; cbn beta iota in H; congruence].
    unfold handleFavorite. cbn [Home.result Home.history]. rewrite Hprev, String.eqb_refl.
    intros shown item [= <-] Hitem Hid.
    apply in_map_iff in Hitem as (before & <- & Hbeforein).
    destruct (String.eqb (GenerationResult.id before) (GenerationResult.id prev)) eqn:Hsame.
    + f_equal. apply (IH prev before eq_refl Hbeforein). now apply String.eqb_eq.
    + exfalso. apply String.eqb_neq in Hsame. apply Hsame. exact Hid.
  - destruct (nth_error _ k) as [clicked |] eqn:Hclicked; [| exact IH].
    cbn [Home.result Home.history]. intros shown item [= <-] Hitem Hid.
    apply nth_error_In in Hclicked.
    now apply (NoDup_map_injective GenerationResult.id _ _ _ Hnodup Hitem Hclicked).
Qed.

Lemma currentImage_in_range (images : list GeneratedImage.t) (index : Z) :
  0 <= index < Z.of_nat (length images) -> exists image, currentImage images index = Some image.
Proof.
  intros Hrange. unfold currentImage.
  destruct (index <? 0) eqn:Hneg; [apply Z.ltb_lt in Hneg; lia |].
  destruct (nth_error images (Z.to_nat index)) as [image |] eqn:Hnth; [eauto |].
  apply nth_error_None in Hnth. lia.
Qed.

Lemma currentImage_out_of_range (images : list GeneratedImage.t) (index : Z) :
  index < 0 \/ Z.of_nat (length images) <= index -> currentImage images index = None.
Proof.
  intros Hrange. unfold currentImage.
  destruct (index <? 0) eqn:Hneg; [reflexivity |].
  apply Z.ltb_ge in Hneg. apply nth_error_None. lia.
Qed.

Lemma render_in_range (result : GenerationResult.t number) (index : Z) :
  0 <= index < Z.of_nat (length (GenerationResult.images result)) ->
  exists image,
    render (Some result) index =
    Showing image (1 <? length (GenerationResult.images result))%nat.
Proof.
  unfold render. intros Hrange.
  destruct (currentImage_in_range _ _ Hrange) as [image Himage]. revert Hrange Himage.
  destruct (GenerationResult.images result) as [| first others]; intros Hrange Himage;
    [cbn in Hrange; lia |].
  rewrite Himage. eauto.
Qed.

Lemma render_out_of_range (result : GenerationResult.t number) (index : Z) :
  GenerationResult.images result <> [] ->
  index < 0 \/ Z.of_nat (length (GenerationResult.images result)) <= index ->
  render (Some result) index = RenderError.
Proof.
  unfold render. intros Himages Hrange.
  pose proof (currentImage_out_of_range _ _ Hrange) as Hnone. revert Himages Hnone.
  destruct (GenerationResult.images result) as [| first others]; intros Himages Hnone;
    [contradiction |].
  now rewrite Hnone.
Qed.

(** X29. Beside a result with images, an index in range stays in range
    whatever button of the preview is pressed, so an image is always shown;
    next and previous wrap around at the two ends and undo each other. *)
Theorem carousel_stays_in_range (result : GenerationResult.t number) (index : Z) action :
  let n := Z.of_nat (length (GenerationResult.images result)) in
  0 <= index < n ->
  0 <= previewStep result index action < n /\
  (exists image hasMultiple,
     render (Some result) (previewStep result index action) = Showing image hasMultiple) /\
  previewStep result (previewStep result index PressNext) PressPrev = index /\
  previewStep result (previewStep result index PressPrev) PressNext = index /\
  (1 < n -> previewStep result (n - 1) PressNext = 0 /\ previewStep result 0 PressPrev = n - 1).
Proof.
  intros n Hrange.
  assert (0 <= previewStep result index action < n) as Hstep.
  { unfold previewStep, handlePrev, handleNext. fold n.
    destruct (1 <? n) eqn:Hmultiple; [| assumption]. apply Z.ltb_lt in Hmultiple.
    destruct action as [| | idx].
    - destruct (index =? 0) eqn:H0; [lia |]. apply Z.eqb_neq in H0. lia.
    - destruct (index =? n - 1) eqn:Hlast; [lia |]. apply Z.eqb_neq in Hlast. lia.
    - destruct (Z.of_nat idx <? n) eqn:Hidx; [| assumption]. apply Z.ltb_lt in Hidx. lia. }
  split_all.
  - apply Hstep.
  - apply Hstep.
  - destruct (render_in_range result _ Hstep) as [image ->]. eauto.
  - unfold previewStep, handlePrev, handleNext. fold n.
    destruct (1 <? n) eqn:Hmultiple; [| reflexivity]. apply Z.ltb_lt in Hmultiple.
    destruct (index =? n - 1) eqn:Hlast.
    + apply Z.eqb_eq in Hlast. cbn. lia.
    + apply Z.eqb_neq in Hlast. destruct (index + 1 =? 0) eqn:H0; [| lia].
      apply Z.eqb_eq in H0. lia.
  - unfold previewStep, handlePrev, handleNext. fold n.
    destruct (1 <? n) eqn:Hmultiple; [| reflexivity]. apply Z.ltb_lt in Hmultiple.
    destruct (index =? 0) eqn:H0.
    + apply Z.eqb_eq in H0. rewrite Z.eqb_refl. lia.
    + apply Z.eqb_neq in H0. destruct (index - 1 =? n - 1) eqn:Hlast; [| lia].
      apply Z.eqb_eq in Hlast. lia.
  - intros Hmultiple. unfold previewStep, handlePrev, handleNext. fold n.
    apply Z.ltb_lt in Hmultiple. now rewrite Hmultiple, Z.eqb_refl.
Qed.

(** X30. The index is not reset when the result changes.  After a
    thumbnail of one result was pressed, a result with fewer images than that
    thumbnail's position, but at least one, cannot be rendered: the current
    image is [undefined] and reading its URL throws.  The preview throws
    exactly when the result has images and the index is outside them. *)
Theorem stale_index_breaks_preview (first second : GenerationResult.t number) (idx : nat) :
  (idx < length (GenerationResult.images first))%nat ->
  (0 < length (GenerationResult.images second) <= idx)%nat ->
  let index := previewStep first 0 (PressThumbnail idx) in
  index = Z.of_nat idx /\
  (exists image, render (Some first) index = Showing image true) /\
  render (Some second) index = RenderError /\
  (forall (result : GenerationResult.t number) (i : Z),
     render (Some result) i = RenderError <->
     GenerationResult.images result <> [] /\
     (i < 0 \/ Z.of_nat (length (GenerationResult.images result)) <= i)).
Proof.
  intros Hfirst Hsecond index.
  assert (forall (result : GenerationResult.t number) (i : Z),
            render (Some result) i = RenderError <->
            GenerationResult.images result <> [] /\
            (i < 0 \/ Z.of_nat (length (GenerationResult.images result)) <= i)) as Hthrows.
  { intros result i. split.
    - intros Hthrown.
      assert (GenerationResult.images result <> []) as Himages.
      { intros Hempty. unfold render in Hthrown. now rewrite Hempty in Hthrown. }
      split; [assumption |].
      destruct (Z_lt_ge_dec i 0) as [Hneg | Hpos]; [now left |].
      destruct (Z_lt_ge_dec i (Z.of_nat (length (GenerationResult.images result))))
        as [Hin | Hout]; [| right; lia].
      destruct (render_in_range result i ltac:(lia)) as [image Hshown]. congruence.
    - intros [Himages Hrange]. now apply render_out_of_range. }
  assert (index = Z.of_nat idx) as Hindex.
  { subst index. unfold previewStep.
    replace (1 <? Z.of_nat (length (GenerationResult.images first))) with true
      by (symmetry; apply Z.ltb_lt; lia).
    replace (Z.of_nat idx <? Z.of_nat (length (GenerationResult.images first))) with true
      by (symmetry; apply Z.ltb_lt; lia).
    reflexivity. }
  split_all.
  - exact Hindex.
  - rewrite Hindex.
    destruct (render_in_range first (Z.of_nat idx) ltac:(lia)) as [image ->].
    exists image. f_equal. apply Nat.ltb_lt. lia.
  - apply Hthrows. rewrite Hindex. split; [| lia].
    intros Hempty. rewrite Hempty in Hsecond. cbn in Hsecond. lia.
  - exact Hthrows.
Qed.

End RenderAI.

(** ** The scenario of the specification, run *)

(** Only Imagen 4 is configured: "auto" is served by it, with the hd pair. *)
Example auto_served_by_second_priority :
  exists out,
    outcome (generateImages Z JS.Z_toString googleOnly cooperativeWorld exampleRequest 0)
      = Return out /\
    GenerationOutput.model out = "imagen4" /\
    dimensions out = [(1920, 1080)%Z] /\
    GenerationOutput.timeMs out = 250%Z /\
    enters (events (generateImages Z JS.Z_toString googleOnly cooperativeWorld exampleRequest 0))
      = [Imagen4].
Proof. eexists. split; [vm_compute; reflexivity|]. repeat split. Qed.

(** Everything is configured: "auto" is served by nano-banana. *)
Example auto_served_by_first_priority :
  exists out,
    outcome (generateImages Z JS.Z_toString allConfigured cooperativeWorld exampleRequest 0)
      = Return out /\
    GenerationOutput.model out = "nano-banana" /\
    dimensions out = [(1920, 1080)%Z] /\
    length (GenerationOutput.images out) = 1%nat.
Proof. eexists. split; [vm_compute; reflexivity|]. repeat split. Qed.

(** Nothing is configured: "auto" falls back to the flux client, which
    rejects the call for want of [FAL_KEY]. *)
Example auto_falls_back_to_flux :
  generateImages Z JS.Z_toString nothingConfigured cooperativeWorld exampleRequest 0 =
  {| events := [Enter Flux2]; clockReads := 0;
     outcome := Throw "FAL_KEY is not configured" |}.
Proof. vm_compute. reflexivity. Qed.

(** The first-priority provider is overloaded: the call fails, and neither
    imagen4 nor flux2 is tried although both are configured. *)
Example auto_failure_is_final :
  outcome (generateImages Z JS.Z_toString allConfigured overloadedWorld exampleRequest 0)
    = Throw "Nano Banana Pro API error: 503 - overloaded" /\
  enters (events (generateImages Z JS.Z_toString allConfigured overloadedWorld exampleRequest 0))
    = [NanoBanana] /\
  length (fetches (events (generateImages Z JS.Z_toString allConfigured overloadedWorld
                             exampleRequest 0))) = 1%nat.
Proof. repeat split; vm_compute; reflexivity. Qed.

(** The prompt of the scenario mentions the floors, the area, the keywords of
    the Scandinavian preset, the camera phrase and the material names. *)
Example scenario_prompt :
  Forall (fun piece => JS.includes piece (buildPrompt Z JS.Z_toString exampleRequest) = true)
    [ "- Number of floors: 2"; "approximately 120 square meters";
      "三角屋根, 温かみ, 自然素材, シンプル"; "front elevation view";
      "- Exterior wall: 木材"; "- Roof type: 切妻屋根" ].
Proof. repeat constructor; vm_compute; reflexivity. Qed.

(** The scenario is a well-formed request. *)
Example exampleRequest_well_formed : well_formed exampleRequest.
Proof. unfold well_formed. cbn. intuition. Qed.

(** ** Witnesses and counterexamples *)

(** C1 at the scenario with only Imagen 4 configured: the run is fulfilled
    and names "imagen4". *)
Lemma auto_selection_witness :
  model (options exampleRequest) = "auto" /\
  exists out,
    outcome (generateImages Z JS.Z_toString googleOnly cooperativeWorld exampleRequest 0)
      = Return out /\
    GenerationOutput.model out = "imagen4" /\
    enters (events (generateImages Z JS.Z_toString googleOnly cooperativeWorld
                      exampleRequest 0)) = [Imagen4].
Proof.
  split; [reflexivity|].
  destruct (auto_selection Z JS.Z_toString googleOnly cooperativeWorld exampleRequest 0
              eq_refl) as (_ & Henter & _ & Hmodel).
  eexists. split; [vm_compute; reflexivity|].
  split; [apply Hmodel; vm_compute; reflexivity | exact Henter].
Defined.

(** C2 at a request for Imagen 4 where only [FAL_KEY] is set. *)
Lemma explicit_unavailable_fails_witness :
  model (options imagenRequest) = providerId Imagen4 /\
  availability Imagen4 falOnly = false /\
  exists message,
    outcome (generateImages Z JS.Z_toString falOnly cooperativeWorld imagenRequest 0)
      = Throw message /\
    JS.contains "GOOGLE_CLOUD_PROJECT_ID" message /\
    fetches (events (generateImages Z JS.Z_toString falOnly cooperativeWorld imagenRequest 0))
      = [].
Proof.
  split; [reflexivity|]. split; [reflexivity|].
  destruct (explicit_unavailable_fails Z JS.Z_toString Imagen4 falOnly cooperativeWorld
              imagenRequest 0 eq_refl eq_refl)
    as (message & Hthrow & _ & _ & Hnames & Hfetch & _).
  exists message. split; [exact Hthrow|]. split; [|exact Hfetch].
  apply (Hnames "GOOGLE_CLOUD_PROJECT_ID" GOOGLE_CLOUD_PROJECT_ID). now left.
Defined.

(** C3 at the style id "brutalist". *)
Lemma buildPrompt_unknown_style_witness :
  ~ In (style brutalistRequest) (map StylePreset.id STYLE_PRESETS) /\
  JS.startsWith "Photorealistic architectural exterior rendering of a Modern "
    (buildPrompt Z JS.Z_toString brutalistRequest) = true /\
  JS.contains
    (JS.join JS.LF [ "ARCHITECTURAL STYLE:"; "- Style: Modern";
                     "- Design characteristics: "; ""; "MATERIALS AND FINISHES:" ])
    (buildPrompt Z JS.Z_toString brutalistRequest).
Proof.
  assert (H : ~ In (style brutalistRequest) (map StylePreset.id STYLE_PRESETS)).
  { cbn. intros H. repeat (destruct H as [H|H]; [discriminate|]). exact H. }
  split; [exact H|].
  destruct (buildPrompt_unknown_style Z JS.Z_toString _ H) as (_ & Hopening & Hblock & _).
  split; [exact Hopening | exact Hblock].
Defined.

(** C6 at the scenario: two floors, 120 square metres, the accent colour and
    the keywords of the Scandinavian preset. *)
Lemma buildPrompt_contains_request_values_witness :
  JS.contains "2" (buildPrompt Z JS.Z_toString exampleRequest) /\
  JS.contains "120" (buildPrompt Z JS.Z_toString exampleRequest) /\
  JS.contains "#E07B39" (buildPrompt Z JS.Z_toString exampleRequest) /\
  JS.contains "三角屋根, 温かみ, 自然素材, シンプル"
    (buildPrompt Z JS.Z_toString exampleRequest).
Proof.
  destruct (buildPrompt_contains_request_values Z JS.Z_toString exampleRequest)
    as (Hf & Ha & _ & _ & Hc & _ & _ & Hk).
  split; [exact Hf|]. split; [exact Ha|]. split; [exact Hc|].
  assert (Hpreset : exists p, In p STYLE_PRESETS /\
            style exampleRequest = StylePreset.id p /\
            JS.join ", " (StylePreset.keywords p) = "三角屋根, 温かみ, 自然素材, シンプル").
  { eexists. split; [right; right; left; reflexivity|]. split; reflexivity. }
  destruct Hpreset as (p & Hin & Hid & Hkw).
  rewrite <- Hkw. exact (Hk p Hin Hid).
Defined.

(** C8 at the scenario, served once by Imagen 4 and once by nano-banana, at
    different times: the same prompt comes back. *)
Lemma prompt_deterministic_witness :
  exampleRequest = exampleRequest /\
  buildPrompt Z JS.Z_toString exampleRequest = buildPrompt Z JS.Z_toString exampleRequest /\
  exists out out',
    outcome (generateImages Z JS.Z_toString googleOnly cooperativeWorld exampleRequest 0)
      = Return out /\
    outcome (generateImages Z JS.Z_toString falOnly cooperativeWorld exampleRequest 7)
      = Return out' /\
    GenerationOutput.model out <> GenerationOutput.model out' /\
    GenerationOutput.prompt out = GenerationOutput.prompt out'.
Proof.
  destruct (prompt_deterministic Z JS.Z_toString) as (Hsame & _ & _ & Hruns).
  split; [reflexivity|]. split; [exact (Hsame _ _ eq_refl)|].
  do 2 eexists.
  split; [vm_compute; reflexivity|]. split; [vm_compute; reflexivity|].
  split; [discriminate|].
  refine (proj2 (Hruns googleOnly cooperativeWorld 0 falOnly cooperativeWorld 7
                   exampleRequest _ _ _ _)); vm_compute; reflexivity.
Defined.

(** C9 at a request naming "gemini": with nothing configured the dispatcher
    still runs the nano-banana client, and with [FAL_KEY] set the result
    names "nano-banana". *)
Lemma result_names_serving_provider_witness :
  model (options geminiRequest) = "gemini" /\
  generateImages Z JS.Z_toString nothingConfigured cooperativeWorld geminiRequest =
  generateWithNanoBanana Z JS.Z_toString nothingConfigured cooperativeWorld geminiRequest /\
  exists out,
    outcome (generateImages Z JS.Z_toString falOnly cooperativeWorld geminiRequest 0)
      = Return out /\
    GenerationOutput.model out = "nano-banana".
Proof.
  split; [reflexivity|]. split.
  - exact (proj1 (proj2 (result_names_serving_provider Z JS.Z_toString nothingConfigured
                           cooperativeWorld geminiRequest) eq_refl)).
  - eexists. split; [vm_compute; reflexivity|].
    apply (proj2 (proj2 (result_names_serving_provider Z JS.Z_toString falOnly
                           cooperativeWorld geminiRequest) eq_refl) 0).
    vm_compute. reflexivity.
Defined.

(** The "gemini" alias with nothing configured: the error is the client's
    own, not the dispatcher's "Nano Banana Pro is not configured". *)
Example gemini_unchecked :
  generateImages Z JS.Z_toString nothingConfigured cooperativeWorld geminiRequest 0 =
  {| events := [Enter NanoBanana]; clockReads := 0;
     outcome := Throw "FAL_KEY is not configured" |} /\
  exists out,
    outcome (generateImages Z JS.Z_toString falOnly cooperativeWorld geminiRequest 0)
      = Return out /\
    GenerationOutput.model out = "nano-banana" /\
    dimensions out = [(1280, 720)%Z].
Proof.
  split; [vm_compute; reflexivity|].
  eexists. split; [vm_compute; reflexivity|]. split; reflexivity.
Qed.

(** C4 at the scenario with every provider configured and overloaded: the
    nano-banana call fails and no other client is entered. *)
Lemma one_client_one_call_witness :
  selection allConfigured (model (options exampleRequest)) = Return NanoBanana /\
  outcome (generateImages Z JS.Z_toString allConfigured overloadedWorld exampleRequest 0)
    = Throw "Nano Banana Pro API error: 503 - overloaded" /\
  enters (events (generateImages Z JS.Z_toString allConfigured overloadedWorld
                    exampleRequest 0)) = [NanoBanana].
Proof.
  split; [reflexivity|]. split; [vm_compute; reflexivity|].
  destruct (one_client_one_call Z JS.Z_toString allConfigured overloadedWorld
              exampleRequest 0) as (_ & _ & _ & Hsel).
  destruct (Hsel NanoBanana eq_refl) as [_ Hfail].
  apply (Hfail "Nano Banana Pro API error: 503 - overloaded").
  vm_compute. reflexivity.
Defined.


(** C7, counterexample: the building type "castle" is outside the enum; its
    lookup is [undefined], the prompt reads "... Scandinavian undefined.",
    and since the key "constructor" prints differently again, no one phrase
    stands for the unknown keys. *)
Lemma no_generic_fallback_phrase :
  ~ In "castle" BuildingType /\
  JS.get buildingTypeMap "castle" = JS.Undefined /\
  JS.startsWith
    "Photorealistic architectural exterior rendering of a Scandinavian undefined."
    (buildPrompt Z JS.Z_toString castleRequest) = true /\
  JS.interpolate (JS.get buildingTypeMap "constructor") = "function Object() { [native code] }" /\
  ~ has_fallback_phrase buildingTypeMap BuildingType.
Proof.
  assert (Hcastle : ~ In "castle" BuildingType).
  { cbn. intros H. repeat (destruct H as [H|H]; [discriminate|]). exact H. }
  assert (Hctor : ~ In "constructor" BuildingType).
  { cbn. intros H. repeat (destruct H as [H|H]; [discriminate|]). exact H. }
  split; [exact Hcastle|]. split; [reflexivity|].
  split; [vm_compute; reflexivity|]. split; [reflexivity|].
  intros [phrase Hphrase].
  pose proof (Hphrase "castle" Hcastle) as H1.
  pose proof (Hphrase "constructor" Hctor) as H2.
  rewrite <- H2 in H1. vm_compute in H1. discriminate H1.
Qed.

(** C7 as amended, at the building types "shop" and "castle". *)
Lemma lookups_defined_on_enums_undefined_beyond_witness :
  In (buildingTypeMap, BuildingType) lookupTables /\
  In "shop" BuildingType /\
  ~ In (buildingType castleRequest) BuildingType /\
  ~ In (buildingType castleRequest) JS.Object_prototype /\
  (exists phrase, JS.get buildingTypeMap "shop" = JS.Own phrase) /\
  JS.contains " undefined." (buildPrompt Z JS.Z_toString castleRequest).
Proof.
  assert (Htbl : In (buildingTypeMap, BuildingType) lookupTables) by (now left).
  assert (Hshop : In "shop" BuildingType) by (cbn; tauto).
  assert (Hcastle : ~ In (buildingType castleRequest) BuildingType).
  { cbn. intros H. repeat (destruct H as [H|H]; [discriminate|]). exact H. }
  assert (Hproto : ~ In (buildingType castleRequest) JS.Object_prototype).
  { cbn. intros H. repeat (destruct H as [H|H]; [discriminate|]). exact H. }
  destruct (lookups_defined_on_enums_undefined_beyond Z JS.Z_toString)
    as (Htables & _ & _ & Hundefined & _).
  destruct (Htables buildingTypeMap BuildingType Htbl) as (_ & Hown & _).
  split; [exact Htbl|]. split; [exact Hshop|]. split; [exact Hcastle|].
  split; [exact Hproto|]. split; [exact (Hown "shop" Hshop)|].
  exact (Hundefined castleRequest Hcastle Hproto).
Defined.



(** ** Witnesses of the further properties *)

(** X1 at the nano-banana client with every provider overloaded. *)
Lemma http_error_is_reported_witness :
  ready falOnly overloadedWorld NanoBanana /\
  answersError overloadedWorld NanoBanana 503 "Service Unavailable" "overloaded" /\
  outcome (client Z JS.Z_toString NanoBanana falOnly overloadedWorld exampleRequest 0)
    = Throw "Nano Banana Pro API error: 503 - overloaded".
Proof.
  assert (Hready : ready falOnly overloadedWorld NanoBanana) by reflexivity.
  assert (Herror : answersError overloadedWorld NanoBanana 503
                     "Service Unavailable" "overloaded").
  { eexists. split; [intros; reflexivity |]. repeat split. }
  split; [exact Hready |]. split; [exact Herror |].
  exact (proj1 (http_error_is_reported Z JS.Z_toString NanoBanana falOnly overloadedWorld
                  exampleRequest 0 503%Z "Service Unavailable" "overloaded" Hready Herror)).
Defined.

(** X2 at the flux client when fal.ai cannot be reached. *)
Lemma transport_errors_propagate_witness :
  ready falOnly unreachableWorld Flux2 /\
  unreachable unreachableWorld Flux2 "fetch failed" /\
  outcome (client Z JS.Z_toString Flux2 falOnly unreachableWorld exampleRequest 0)
    = Throw "fetch failed" /\
  enters (events (client Z JS.Z_toString Flux2 falOnly unreachableWorld exampleRequest 0))
    = [Flux2].
Proof.
  assert (Hready : ready falOnly unreachableWorld Flux2) by reflexivity.
  assert (Hdown : unreachable unreachableWorld Flux2 "fetch failed")
    by (intros auth body; reflexivity).
  split; [exact Hready |]. split; [exact Hdown |].
  destruct (transport_errors_propagate Z JS.Z_toString Flux2 falOnly unreachableWorld
              exampleRequest 0 "fetch failed" Hready (or_introl Hdown))
    as (Hthrown & _ & Hentered).
  split; [exact Hthrown | exact Hentered].
Defined.

(** X3 when Google refuses the service account. *)
Lemma imagen_without_token_witness :
  isImagen4Available googleOnly = true /\
  googleAccessToken tokenlessWorld = Throw "invalid_grant" /\
  outcome (generateWithImagen Z JS.Z_toString googleOnly tokenlessWorld exampleRequest 0)
    = Throw "Google Cloud authentication failed" /\
  fetches (events (generateWithImagen Z JS.Z_toString googleOnly tokenlessWorld
                     exampleRequest 0)) = [].
Proof.
  split; [reflexivity |]. split; [reflexivity |].
  assert (Hnone : forall token,
            googleAccessToken tokenlessWorld = Return (Some token) -> token = "")
    by (intros token H; discriminate H).
  destruct (imagen_without_token Z JS.Z_toString googleOnly tokenlessWorld exampleRequest 0
              eq_refl Hnone) as (Hthrown & Hnocall & _).
  split; [exact Hthrown | exact Hnocall].
Defined.

(** X4 at the scenario served by nano-banana. *)
Lemma images_pass_through_witness :
  exists out,
    outcome (client Z JS.Z_toString NanoBanana falOnly cooperativeWorld exampleRequest 0)
      = Return out /\
    Forall (fun img => GeneratedImage.thumbnailUrl img = GeneratedImage.url img)
           (GenerationOutput.images out).
Proof.
  eexists. split; [vm_compute; reflexivity |].
  refine (proj1 (images_pass_through Z JS.Z_toString NanoBanana falOnly cooperativeWorld
                   exampleRequest 0 _ _)).
  vm_compute. reflexivity.
Defined.

(** X5 at the scenario with a clock that is set back by 250 ms between the
    two readings. *)
Lemma timeMs_is_elapsed_witness :
  exists out,
    outcome (generateImages Z JS.Z_toString googleOnly clockSetBackWorld exampleRequest 0)
      = Return out /\
    clockReads (generateImages Z JS.Z_toString googleOnly clockSetBackWorld exampleRequest 0)
      = 2 /\
    GenerationOutput.timeMs out = (-250)%Z.
Proof.
  eexists. split; [vm_compute; reflexivity |].
  refine ((fun H => conj (proj1 H) (proj1 (proj2 H)))
            (timeMs_is_elapsed Z JS.Z_toString googleOnly clockSetBackWorld
               exampleRequest 0 _ _)).
  vm_compute. reflexivity.
Defined.

(** X6 at the tier "8k". *)
Lemma unknown_tier_defaults_witness :
  ~ In "8k" Resolution /\
  tierSize Flux2 "8k" = Some {| Size.width := 1536; Size.height := 1024 |} /\
  tierSize Imagen4 "8k" = Some {| Size.width := 1280; Size.height := 720 |}.
Proof.
  assert (Htier : ~ In "8k" Resolution).
  { cbn. intros H. repeat (destruct H as [H | H]; [discriminate |]). exact H. }
  assert (Hproto : ~ In "8k" JS.Object_prototype).
  { cbn. intros H. repeat (destruct H as [H | H]; [discriminate |]). exact H. }
  split; [exact Htier |].
  destruct (unknown_tier_defaults "8k" Htier) as (Hflux & _ & Himagen & _).
  split; [exact (proj2 (Hflux Hproto)) | exact Himagen].
Defined.

(** X7 at a request for Imagen 4 with every provider configured. *)
Lemma credentials_stay_at_home_witness :
  exists req,
    In req (fetches (events (generateImages Z JS.Z_toString allConfigured cooperativeWorld
                               imagenRequest 0))) /\
    target req = Imagen4 /\
    credentialsAtHome allConfigured cooperativeWorld req.
Proof.
  eexists. split; [vm_compute; left; reflexivity |]. split; [reflexivity |].
  apply (credentials_stay_at_home Z JS.Z_toString allConfigured cooperativeWorld
           imagenRequest 0).
  vm_compute. left. reflexivity.
Defined.

(** X11 at a PNG data URL, at the URL of an image and at a data URL with a
    line feed in its content. *)
Lemma uploadBase64Image_content_witness :
  clientFor storageConfigured None = Some sampleClient /\
  uploads (Store.calls (uploadBase64Image storageConfigured acceptingService
                          "data:image/png;base64,iVBORw0KGgo=" "generations/g1/0.png" None))
    = [("generations/g1/0.png", Buffer_from_base64 "iVBORw0KGgo=", "image/png")] /\
  uploads (Store.calls (uploadBase64Image storageConfigured acceptingService
                          "https://fal.media/files/nb.jpg" "generations/g1/0.png" None))
    = [("generations/g1/0.png", Buffer_from_base64 "https://fal.media/files/nb.jpg",
        "image/png")] /\
  uploads (Store.calls (uploadBase64Image storageConfigured acceptingService
                          ("data:image/jpeg;base64,/9j/" ++ JS.LF ++ "4AAQ")
                          "generations/g1/0.png" None))
    = [("generations/g1/0.png",
        Buffer_from_base64 ("data:image/jpeg;base64,/9j/" ++ JS.LF ++ "4AAQ"), "image/png")] /\
  Store.settled (uploadBase64Image storageConfigured thumbnailRefusingService
                   "data:image/png;base64,iVBORw0KGgo=" "generations/g1/0_thumb.png" None)
    = Throw "Failed to upload image: quota exceeded".
Proof.
  split; [reflexivity |].
  pose proof (fun service text path =>
                uploadBase64Image_content storageConfigured service text path None
                  sampleClient eq_refl) as Hupload.
  cbv zeta in Hupload.
  split; [exact (proj1 (proj2 (proj2 (proj2 (proj2 (Hupload acceptingService _ _)))))) |].
  split; [exact (proj1 (proj2 (proj2 (proj2 (proj2 (Hupload acceptingService _ _)))))) |].
  split; [exact (proj1 (proj2 (proj2 (proj2 (proj2 (Hupload acceptingService _ _)))))) |].
  exact (proj2 (proj2 (proj2 (proj2 (proj2 (proj2 (proj2 (Hupload thumbnailRefusingService _ _)))))))).
Defined.



(** X14 at [deleteGenerationImages] with the service role key missing. *)
Lemma storage_needs_credentials_witness :
  isStorageConfigured storageUnconfigured = false /\
  Store.calls (perform storageUnconfigured acceptingService
                 (DeleteGenerationImages "g1") None) = [] /\
  Store.settled (perform storageUnconfigured acceptingService
                   (DeleteGenerationImages "g1") None)
    = Throw "Supabase credentials not configured".
Proof.
  split; [reflexivity |].
  destruct (storage_needs_credentials storageUnconfigured acceptingService
              (DeleteGenerationImages "g1") eq_refl) as (Hcalls & _ & Hsettled).
  split; [exact Hcalls | exact Hsettled].
Defined.

(** X16 at a service that lists two files and refuses to remove them. *)
Lemma deleteGenerationImages_swallows_errors_witness :
  clientFor storageConfigured None = Some sampleClient /\
  Store.settled (deleteGenerationImages storageConfigured acceptingService "g1" None)
    = Return tt /\
  removals (Store.calls (deleteGenerationImages storageConfigured acceptingService "g1" None))
    = [["generations/g1/0.png"; "generations/g1/0_thumb.png"]] /\
  Store.settled (deleteImage storageConfigured acceptingService "generations/g1/0.png" None)
    = Throw "Failed to delete image: permission denied".
Proof.
  split; [reflexivity |].
  destruct (deleteGenerationImages_swallows_errors storageConfigured acceptingService "g1"
              None sampleClient eq_refl)
    as (Hsettled & _ & Hremoved & _ & _ & _ & Hdelete).
  split; [exact Hsettled |]. split; [exact Hremoved |].
  exact (Hdelete "generations/g1/0.png" "permission denied" eq_refl).
Defined.

(** X17 at the JSON of the scenario. *)
Lemma schema_accepts_only_valid_requests_witness :
  GenerationSchema_safeParse Z Z_ge Z_le Z.eqb (toJson Z Z_of exampleRequest)
    = Some exampleRequest /\
  well_formed exampleRequest /\ within_bounds Z Z_ge Z_le exampleRequest.
Proof.
  assert (Haccepted :
    GenerationSchema_safeParse Z Z_ge Z_le Z.eqb (toJson Z Z_of exampleRequest)
    = Some exampleRequest) by (vm_compute; reflexivity).
  split; [exact Haccepted |].
  destruct (schema_accepts_only_valid_requests Z Z_ge Z_le Z.eqb _ _ Haccepted)
    as (Hwf & Hbounds & _).
  split; [exact Hwf | exact Hbounds].
Defined.

(** X18 at integers and the scenario with an unknown style, which the route
    refuses. *)
Lemma schema_round_trip_witness :
  integer_literals Z Z_ge Z_le Z.eqb Z_of /\
  ~ well_formed brutalistRequest /\
  GenerationSchema_safeParse Z Z_ge Z_le Z.eqb (toJson Z Z_of brutalistRequest)
    <> Some brutalistRequest.
Proof.
  assert (Hlit : integer_literals Z Z_ge Z_le Z.eqb Z_of)
    by (intros a b; repeat split).
  assert (Hstyle : ~ well_formed brutalistRequest).
  { intros (_ & _ & H & _). cbn in H.
    repeat (destruct H as [H | H]; [discriminate |]). exact H. }
  split; [exact Hlit |]. split; [exact Hstyle |].
  intros Haccepted.
  apply Hstyle.
  exact (proj1 (proj1 (proj1 (schema_round_trip Z Z_ge Z_le Z.eqb Z_of brutalistRequest Hlit))
                  Haccepted)).
Defined.

(** X20 at a body with the building type "castle". *)
Lemma POST_rejects_before_generating_witness :
  GenerationSchema_safeParse Z Z_ge Z_le Z.eqb castleBody = None /\
  POST Z JS.Z_toString Z_ge Z_le Z.eqb allConfigured cooperativeWorld samplePlatform
    (Return castleBody) 0 =
  {| events := []; clockReads := 0;
     outcome := Return {| NextResponse.status := 400;
                          NextResponse.body := ValidationError "Invalid request parameters" |} |}.
Proof.
  split; [reflexivity |].
  assert (Hinvalid : forall body,
            Return castleBody = Return body ->
            GenerationSchema_safeParse Z Z_ge Z_le Z.eqb body = None)
    by (intros body [= <-]; reflexivity).
  destruct (POST_rejects_before_generating Z JS.Z_toString Z_ge Z_le Z.eqb allConfigured
              cooperativeWorld samplePlatform (Return castleBody) 0 Hinvalid)
    as (_ & _ & Hclock & Hevents & Hanswer).
  destruct (POST Z JS.Z_toString Z_ge Z_le Z.eqb allConfigured cooperativeWorld
              samplePlatform (Return castleBody) 0) as [evs reads answer].
  cbn in Hclock, Hevents, Hanswer. now subst.
Defined.

(** X21 at a request naming Imagen 4 where only [FAL_KEY] is set: a valid
    body, answered with 500 and the dispatcher's message. *)
Lemma POST_relays_generation_witness :
  GenerationSchema_safeParse Z Z_ge Z_le Z.eqb (toJson Z Z_of imagenRequest)
    = Some imagenRequest /\
  outcome (POST Z JS.Z_toString Z_ge Z_le Z.eqb falOnly cooperativeWorld samplePlatform
             (Return (toJson Z Z_of imagenRequest)) 0) =
  Return {| NextResponse.status := 500;
            NextResponse.body :=
              GenerationError "Generation failed"
                "Imagen 4 is not configured. Please set GOOGLE_CLOUD_PROJECT_ID and GOOGLE_APPLICATION_CREDENTIALS." |}.
Proof.
  assert (Hvalid :
    GenerationSchema_safeParse Z Z_ge Z_le Z.eqb (toJson Z Z_of imagenRequest)
    = Some imagenRequest) by (vm_compute; reflexivity).
  split; [exact Hvalid |].
  destruct (POST_relays_generation Z JS.Z_toString Z_ge Z_le Z.eqb falOnly cooperativeWorld
              samplePlatform _ _ 0 Hvalid) as (_ & _ & Hrelayed).
  exact (proj2 (proj2 Hrelayed)).
Defined.

(** X22 at the sample session with the form. *)
Lemma form_submits_only_valid_requests_witness :
  integer_literals Z Z_ge Z_le Z.eqb Z_of /\
  Forall offered sampleActions /\
  FormData.wallMaterial (formAfter Z Z_of sampleActions) = "wood" /\
  GenerationSchema_safeParse Z Z_ge Z_le Z.eqb
    (toJson Z Z_of (onSubmit_request Z (formAfter Z Z_of sampleActions)))
  = Some (onSubmit_request Z (formAfter Z Z_of sampleActions)).
Proof.
  assert (Hlit : integer_literals Z Z_ge Z_le Z.eqb Z_of)
    by (intros a b; repeat split).
  assert (Hoffered : Forall offered sampleActions).
  { repeat constructor; cbn; try lia; tauto. }
  split; [exact Hlit |]. split; [exact Hoffered |]. split; [reflexivity |].
  exact (proj1 (proj2 (form_submits_only_valid_requests Z Z_ge Z_le Z.eqb Z_of sampleActions
                         Hlit Hoffered))).
Defined.

(** X23 at the sample session: offline, behind a gateway that answers with
    a page, and served by the application where only Imagen 4 is
    configured. *)
Lemma submission_shows_result_or_error_witness :
  outcome (onSubmit Z Z_of offlineFetch (formAfter Z Z_of sampleActions) 0)
    = Return (SetError "Failed to fetch") /\
  outcome (onSubmit Z Z_of gatewayFetch (formAfter Z Z_of sampleActions) 0)
    = Return (SetError "Unexpected token < in JSON") /\
  integer_literals Z Z_ge Z_le Z.eqb Z_of /\
  Forall offered sampleActions /\
  reachesHandler Z JS.Z_toString Z_ge Z_le Z.eqb
    (fun _ => handlerAnswer Z JS.Z_toString Z_ge Z_le Z.eqb googleOnly cooperativeWorld
                samplePlatform)
    googleOnly cooperativeWorld samplePlatform /\
  exists result,
    outcome (onSubmit Z Z_of
               (fun _ => handlerAnswer Z JS.Z_toString Z_ge Z_le Z.eqb googleOnly
                           cooperativeWorld samplePlatform)
               (formAfter Z Z_of sampleActions) 0)
      = Return (OnGenerated (Generated result)) /\
    (GenerationResult.modelUsed result = "nano-banana" \/
     GenerationResult.modelUsed result = "imagen4").
Proof.
  assert (Hlit : integer_literals Z Z_ge Z_le Z.eqb Z_of)
    by (intros a b; repeat split).
  assert (Hoffered : Forall offered sampleActions).
  { repeat constructor; cbn; try lia; tauto. }
  assert (Hreaches : reachesHandler Z JS.Z_toString Z_ge Z_le Z.eqb
            (fun _ => handlerAnswer Z JS.Z_toString Z_ge Z_le Z.eqb googleOnly
                        cooperativeWorld samplePlatform)
            googleOnly cooperativeWorld samplePlatform)
    by (intros init t _; reflexivity).
  split.
  { exact (proj1 (proj2 (proj2 (submission_shows_result_or_error Z JS.Z_toString Z_ge Z_le
                                  Z.eqb Z_of offlineFetch (formAfter Z Z_of sampleActions) 0)))). }
  split.
  { exact (proj1 (proj2 (proj2 (submission_shows_result_or_error Z JS.Z_toString Z_ge Z_le
                                  Z.eqb Z_of gatewayFetch (formAfter Z Z_of sampleActions) 0)))). }
  split; [exact Hlit |]. split; [exact Hoffered |]. split; [exact Hreaches |].
  destruct (proj2 (proj2 (proj2 (submission_shows_result_or_error Z JS.Z_toString Z_ge Z_le
                                   Z.eqb Z_of _ (formAfter Z Z_of sampleActions) 0)))
              googleOnly cooperativeWorld samplePlatform sampleActions Hlit Hoffered eq_refl
              Hreaches) as [_ Hshown].
  vm_compute (outcome (generateImages _ _ _ _ _ _)) in Hshown.
  destruct Hshown as (result & Houtcome & _ & _ & _ & Hmodel).
  exists result. split; [exact Houtcome | exact Hmodel].
Defined.

(** X25 at the item "hd". *)
Lemma resolution_labels_quote_flux_sizes_witness :
  In ("hd", "HD (1536×1024)") resolutionItems /\
  exists size,
    tierSize Flux2 "hd" = Some size /\
    tierSize Imagen4 "hd" <> Some size.
Proof.
  assert (Hitem : In ("hd", "HD (1536×1024)") resolutionItems) by (right; left; reflexivity).
  split; [exact Hitem |].
  destruct (resolution_labels_quote_flux_sizes _ _ Hitem) as (size & Hflux & _ & _ & Himagen).
  exists size. split; [exact Hflux | exact Himagen].
Defined.

(** X28 at two arrivals, a click on the older one and the heart. *)
Lemma shown_result_agrees_with_history_witness :
  NoDup (arrivals [Arrives fourImages; Arrives oneImage; ClickHistory 1; PressHeart]) /\
  NoDup (map GenerationResult.id
           (Home.history (fold_left homeStep
              [Arrives fourImages; Arrives oneImage; ClickHistory 1; PressHeart]
              initialHome))).
Proof.
  assert (Hfresh : NoDup (arrivals [Arrives fourImages; Arrives oneImage;
                                    ClickHistory 1; PressHeart])).
  { cbn. repeat constructor; cbn; intuition discriminate. }
  split; [exact Hfresh |].
  exact (proj1 (shown_result_agrees_with_history Z _ Hfresh)).
Defined.

(** X29 at the last of four images: next wraps around to the first. *)
Lemma carousel_stays_in_range_witness :
  (0 <= 3 < Z.of_nat (length (GenerationResult.images fourImages)))%Z /\
  (0 <= previewStep fourImages 3 PressNext
   < Z.of_nat (length (GenerationResult.images fourImages)))%Z.
Proof.
  assert (Hrange : (0 <= 3 < Z.of_nat (length (GenerationResult.images fourImages)))%Z)
    by (cbn; lia).
  split; [exact Hrange |].
  exact (proj1 (carousel_stays_in_range Z fourImages 3%Z PressNext Hrange)).
Defined.

(** X30 at the fourth thumbnail of four images, followed by a result of one
    image. *)
Lemma stale_index_breaks_preview_witness :
  (3 < length (GenerationResult.images fourImages)) /\
  (0 < length (GenerationResult.images oneImage) <= 3) /\
  render (Some oneImage) (previewStep fourImages 0 (PressThumbnail 3)) = RenderError.
Proof.
  assert (Hfirst : 3 < length (GenerationResult.images fourImages)) by (cbn; lia).
  assert (Hsecond : 0 < length (GenerationResult.images oneImage) <= 3) by (cbn; lia).
  split; [exact Hfirst |]. split; [exact Hsecond |].
  destruct (stale_index_breaks_preview Z fourImages oneImage 3 Hfirst Hsecond)
    as (_ & _ & Hbroken & _).
  exact Hbroken.
Defined.
